(** * The tool-calling loop of [agent/core/agent.py]

    A shallow embedding of [ToolAgent.run_task] together with the pieces it
    calls ([ToolRegistry], [PromptManager], the text operations of [str] and
    a reference decoder for [json.loads]), followed by the properties of the
    loop: step budget, malformed-output policy, conversation shape, tool
    dispatch and error containment. *)

From Stdlib Require Import List NArith ZArith Bool Lia String Ascii DecimalString.
Import ListNotations.

Set Implicit Arguments.
Set Warnings "-register-all".

(** ** Python text

    A [str] is a sequence of Unicode code points. *)
Module PyStr.

Definition char := N.
Definition pystr := list char.

Definition lit (s : string) : pystr :=
  map N_of_ascii (list_ascii_of_string s).

(** [q s] is [lit s] with every apostrophe replaced by a double quote, so
    that JSON texts can be written down legibly. *)
Definition q (s : string) : pystr :=
  map (fun c => if N.eqb c 39 then 34%N else c) (lit s).

Definition LF : char := 10%N.
Definition CR : char := 13%N.

Definition in_range (lo hi c : N) : bool := N.leb lo c && N.leb c hi.

(** [str.isspace] on one code point: the characters removed by
    [str.strip()] called without argument. *)
Definition is_space (c : char) : bool :=
  in_range 9 13 c || in_range 28 31 c || N.eqb c 32 || N.eqb c 133
  || N.eqb c 160 || N.eqb c 5760 || in_range 8192 8202 c
  || in_range 8232 8233 c || N.eqb c 8239 || N.eqb c 8287 || N.eqb c 12288.

(** The line boundaries of [str.splitlines]. *)
Definition is_linebreak (c : char) : bool :=
  in_range 10 13 c || in_range 28 30 c || N.eqb c 133 || in_range 8232 8233 c.

Fixpoint lstrip (s : pystr) : pystr :=
  match s with
  | [] => []
  | c :: rest => if is_space c then lstrip rest else s
  end.

Definition rstrip (s : pystr) : pystr := rev (lstrip (rev s)).

Definition strip (s : pystr) : pystr := rstrip (lstrip s).

Fixpoint startswith (s prefix : pystr) {struct prefix} : bool :=
  match prefix with
  | [] => true
  | p :: prefix' =>
      match s with
      | [] => false
      | c :: s' => N.eqb c p && startswith s' prefix'
      end
  end.

(** [str.splitlines()]: [cur] is the line being read.  A carriage return
    followed by a line feed is one boundary; a final boundary opens no
    further line. *)
Fixpoint splitlines_from (cur s : pystr) : list pystr :=
  match s with
  | [] => match cur with [] => [] | _ :: _ => [cur] end
  | c :: rest =>
      if N.eqb c CR then
        match rest with
        | d :: rest' =>
            if N.eqb d LF then cur :: splitlines_from [] rest'
            else cur :: splitlines_from [] rest
        | [] => cur :: splitlines_from [] rest
        end
      else if is_linebreak c then cur :: splitlines_from [] rest
      else splitlines_from (cur ++ [c]) rest
  end.

Definition splitlines (s : pystr) : list pystr := splitlines_from [] s.

(** [sep.join(parts)]. *)
Fixpoint join (sep : pystr) (parts : list pystr) : pystr :=
  match parts with
  | [] => []
  | [p] => p
  | p :: rest => p ++ sep ++ join sep rest
  end.

Fixpoint eqb (a b : pystr) : bool :=
  match a, b with
  | [], [] => true
  | x :: a', y :: b' => N.eqb x y && eqb a' b'
  | _, _ => false
  end.

(** [str(n)] for an [int]. *)
Definition of_Z (z : Z) : pystr := lit (NilZero.string_of_int (Z.to_int z)).

(** [needle in s]. *)
Fixpoint contains (s needle : pystr) : bool :=
  startswith s needle
  || match s with
     | [] => false
     | _ :: rest => contains rest needle
     end.

End PyStr.
Import PyStr.

(** ** Python exceptions

    A raised exception as the code that handles it sees it: the name of its
    class, its text [str(exc)], and whether it is an instance of
    [Exception], which is what an [except Exception] clause catches.
    [KeyboardInterrupt], [SystemExit] and [GeneratorExit] derive from
    [BaseException] only, and pass through such a clause. *)
Module PyExc.

Record exn := { exn_class : pystr; exn_str : pystr; is_exception : bool }.

(** An exception of a class that derives from [Exception]. *)
Definition exc (cls : string) (msg : pystr) : exn :=
  {| exn_class := lit cls; exn_str := msg; is_exception := true |}.

(** What Ctrl-C raises in the running thread. *)
Definition KeyboardInterrupt : exn :=
  {| exn_class := lit "KeyboardInterrupt"; exn_str := [];
     is_exception := false |}.

End PyExc.
Import PyExc.

(** ** Decoded JSON documents

    The Python objects that [json.loads] builds.  A [float] is kept as the
    two observations the agent makes of it: its truth value and its printed
    form. *)
Module Json.

Record pyfloat := { float_nonzero : bool; float_repr : pystr }.

Inductive value :=
| VNone
| VBool (b : bool)
| VInt (z : Z)
| VFloat (f : pyfloat)
| VStr (s : pystr)
| VList (items : list value)
| VDict (entries : list (pystr * value)).

Definition dict := list (pystr * value).

(** [d.get(key)]; [None] of the option type stands for an absent key. *)
Fixpoint dict_get (d : dict) (key : pystr) : option value :=
  match d with
  | [] => None
  | (k, v) :: rest => if PyStr.eqb k key then Some v else dict_get rest key
  end.

(** [key in d]. *)
Definition dict_has (d : dict) (key : pystr) : bool :=
  match dict_get d key with Some _ => true | None => false end.

(** [d[key] = v]: a key already present keeps its position. *)
Fixpoint dict_set (d : dict) (key : pystr) (v : value) : dict :=
  match d with
  | [] => [(key, v)]
  | (k, w) :: rest =>
      if PyStr.eqb k key then (k, v) :: rest else (k, w) :: dict_set rest key v
  end.

(** [bool(v)]. *)
Definition truthy (v : value) : bool :=
  match v with
  | VNone => false
  | VBool b => b
  | VInt z => negb (Z.eqb z 0)
  | VFloat f => float_nonzero f
  | VStr s => match s with [] => false | _ :: _ => true end
  | VList l => match l with [] => false | _ :: _ => true end
  | VDict d => match d with [] => false | _ :: _ => true end
  end.

(** *** Reference decoder

    [json.loads] with its default hooks, in strict mode, on a [str]. *)

Definition is_json_ws (c : char) : bool :=
  N.eqb c 32 || N.eqb c 9 || N.eqb c 10 || N.eqb c 13.

Fixpoint skip_ws (s : pystr) : pystr :=
  match s with
  | [] => []
  | c :: rest => if is_json_ws c then skip_ws rest else s
  end.

Definition is_digit (c : char) : bool := in_range 48 57 c.

Definition hexval (c : char) : option N :=
  if in_range 48 57 c then Some (c - 48)%N
  else if in_range 97 102 c then Some (c - 87)%N
  else if in_range 65 70 c then Some (c - 55)%N
  else None.

Definition hex4 (a b c d : char) : option N :=
  match hexval a, hexval b, hexval c, hexval d with
  | Some x, Some y, Some z, Some w => Some (((x * 16 + y) * 16 + z) * 16 + w)%N
  | _, _, _, _ => None
  end.

(** The one-letter escapes of a JSON string. *)
Definition simple_escape (e : char) : option char :=
  if N.eqb e 34 then Some 34%N
  else if N.eqb e 92 then Some 92%N
  else if N.eqb e 47 then Some 47%N
  else if N.eqb e 98 then Some 8%N
  else if N.eqb e 102 then Some 12%N
  else if N.eqb e 110 then Some 10%N
  else if N.eqb e 114 then Some 13%N
  else if N.eqb e 116 then Some 9%N
  else None.

Definition is_high_surrogate (u : N) : bool := in_range 55296 56319 u.
Definition is_low_surrogate (u : N) : bool := in_range 56320 57343 u.

Definition join_surrogates (hi lo : N) : N :=
  (65536 + (hi - 55296) * 1024 + (lo - 56320))%N.

(** The low half of a surrogate pair written as a second escape. *)
Definition low_escape (s : pystr) : option N :=
  match s with
  | b :: u :: h1 :: h2 :: h3 :: h4 :: _ =>
      if N.eqb b 92 && N.eqb u 117 then
        match hex4 h1 h2 h3 h4 with
        | Some lo => if is_low_surrogate lo then Some lo else None
        | None => None
        end
      else None
  | _ => None
  end.

(** The body of a string, read from just after its opening quote up to and
    including the closing quote. *)
Fixpoint scan_string (acc s : pystr) : option (pystr * pystr) :=
  match s with
  | [] => None
  | c :: rest =>
      if N.eqb c 34 then Some (acc, rest)
      else if N.eqb c 92 then
        match rest with
        | [] => None
        | e :: rest1 =>
            if N.eqb e 117 then
              match rest1 with
              | h1 :: h2 :: h3 :: h4 :: rest2 =>
                  match hex4 h1 h2 h3 h4 with
                  | None => None
                  | Some hi =>
                      match (if is_high_surrogate hi then low_escape rest2 else None), rest2 with
                      | Some lo, _ :: _ :: _ :: _ :: _ :: _ :: rest3 =>
                          scan_string (acc ++ [join_surrogates hi lo]) rest3
                      | _, _ => scan_string (acc ++ [hi]) rest2
                      end
                  end
              | _ => None
              end
            else
              match simple_escape e with
              | Some ch => scan_string (acc ++ [ch]) rest1
              | None => None
              end
        end
      else if N.ltb c 32 then None
      else scan_string (acc ++ [c]) rest
  end.

Fixpoint span_digits (s : pystr) : pystr * pystr :=
  match s with
  | [] => ([], [])
  | c :: rest =>
      if is_digit c then let '(ds, r) := span_digits rest in (c :: ds, r)
      else ([], s)
  end.

Definition digits_value (ds : pystr) : N :=
  fold_left (fun acc c => (acc * 10 + (c - 48))%N) ds 0%N.

(** The integer part of a number: [0] or a digit string without leading
    zero. *)
Definition scan_int_part (s : pystr) : option (pystr * pystr) :=
  match s with
  | [] => None
  | c :: rest =>
      if N.eqb c 48 then Some ([c], rest)
      else if in_range 49 57 c then
        let '(ds, r) := span_digits rest in Some (c :: ds, r)
      else None
  end.

Definition scan_frac (s : pystr) : pystr * pystr :=
  match s with
  | c :: rest =>
      if N.eqb c 46 then
        match span_digits rest with
        | ([], _) => ([], s)
        | (ds, r) => (ds, r)
        end
      else ([], s)
  | [] => ([], s)
  end.

(** The exponent: sign and digits, or nothing when no digit follows. *)
Definition scan_exp (s : pystr) : option (bool * pystr) * pystr :=
  match s with
  | c :: rest =>
      if N.eqb c 101 || N.eqb c 69 then
        let '(neg, rest1) :=
          match rest with
          | sg :: r => if N.eqb sg 45 then (true, r)
                       else if N.eqb sg 43 then (false, r) else (false, rest)
          | [] => (false, rest)
          end in
        match span_digits rest1 with
        | ([], _) => (None, s)
        | (ds, r) => (Some (neg, ds), r)
        end
      else (None, s)
  | [] => (None, s)
  end.

(** What [int] raises on a literal of more digits than the interpreter
    converts. *)
Definition too_many_digits (limit digits : nat) : exn :=
  exc "ValueError"
    (lit "Exceeds the limit (" ++ of_Z (Z.of_nat limit)
     ++ lit " digits) for integer string conversion: value has "
     ++ of_Z (Z.of_nat digits)
     ++ lit " digits; use sys.set_int_max_str_digits() to increase the limit").

(** What the scanner raises on a container nested deeper than the
    recursion limit leaves room for. *)
Definition RecursionError (container : string) : exn :=
  exc "RecursionError"
    (lit "maximum recursion depth exceeded while decoding a JSON "
     ++ lit container ++ lit " from a unicode string").

Section Decoder.

(** The [parse_float] hook: the [float] of a literal given as its text. *)
Variable parse_float : pystr -> pyfloat.

(** [sys.get_int_max_str_digits()]: the longest digit string that [int]
    converts, [0] for no limit. *)
Variable max_str_digits : nat.

(** What a function of the scanner gives: a result, [inr None] for a text
    that is not JSON ([JSONDecodeError]), or an exception of another
    class. *)
Definition scanned (A : Type) : Type := exn + option A.

Definition scan_number (s : pystr) : scanned (value * pystr) :=
  let '(neg, s1) :=
    match s with
    | c :: rest => if N.eqb c 45 then (true, rest) else (false, s)
    | [] => (false, s)
    end in
  match scan_int_part s1 with
  | None => inr None
  | Some (ip, s2) =>
      let '(frac, s3) := scan_frac s2 in
      let '(ex, s4) := scan_exp s3 in
      match frac, ex with
      | [], None =>
          if (0 <? max_str_digits) && (max_str_digits <? List.length ip) then
            inl (too_many_digits max_str_digits (List.length ip))
          else
            let n := Z.of_N (digits_value ip) in
            inr (Some (VInt (if neg then (- n)%Z else n), s4))
      | _, _ =>
          inr (Some (VFloat (parse_float
                               (firstn (List.length s - List.length s4) s)), s4))
      end
  end.

Definition expect (c : char) (s : pystr) : option pystr :=
  match s with
  | d :: rest => if N.eqb d c then Some rest else None
  | [] => None
  end.

Definition keyword (word : string) (v : value) (s : pystr)
  : option (value * pystr) :=
  if startswith s (lit word) then Some (v, skipn (String.length word) s)
  else None.

Definition first_of {A} (a b : option A) : option A :=
  match a with Some _ => a | None => b end.

Definition nan : pyfloat := {| float_nonzero := true; float_repr := lit "nan" |}.
Definition inf : pyfloat := {| float_nonzero := true; float_repr := lit "inf" |}.
Definition neg_inf : pyfloat :=
  {| float_nonzero := true; float_repr := lit "-inf" |}.

(** [scan] reads one value at the head of [s]; [members] reads the entries
    of an object from just after the opening quote of a key; [elements]
    reads the items of a non-empty array.  [room] is the number of
    containers that may still be entered, one inside the other, before the
    recursion limit is reached.  [fuel] bounds the depth of the calls:
    every call reads at least one character before the next but one, so
    twice the length of the text is enough. *)
Fixpoint scan (fuel room : nat) (s : pystr) {struct fuel}
  : scanned (value * pystr) :=
  match fuel with
  | O => inr None
  | S fuel' =>
      match s with
      | [] => inr None
      | c :: rest =>
          if N.eqb c 34 then
            match scan_string [] rest with
            | Some (str, rest1) => inr (Some (VStr str, rest1))
            | None => inr None
            end
          else if N.eqb c 123 then
            match room with
            | O => inl (RecursionError "object")
            | S room' =>
                match skip_ws rest with
                | d :: rest1 =>
                    if N.eqb d 125 then inr (Some (VDict [], rest1))
                    else if N.eqb d 34 then members fuel' room' [] rest1
                    else inr None
                | [] => inr None
                end
            end
          else if N.eqb c 91 then
            match room with
            | O => inl (RecursionError "array")
            | S room' =>
                match skip_ws rest with
                | d :: rest1 =>
                    if N.eqb d 93 then inr (Some (VList [], rest1))
                    else elements fuel' room' [] (d :: rest1)
                | [] => inr None
                end
            end
          else
            match first_of (keyword "null" VNone s)
                 (first_of (keyword "true" (VBool true) s)
                 (first_of (keyword "false" (VBool false) s)
                 (first_of (keyword "NaN" (VFloat nan) s)
                 (first_of (keyword "Infinity" (VFloat inf) s)
                           (keyword "-Infinity" (VFloat neg_inf) s))))) with
            | Some found => inr (Some found)
            | None => scan_number s
            end
      end
  end
with members (fuel room : nat) (acc : dict) (s : pystr) {struct fuel}
  : scanned (value * pystr) :=
  match fuel with
  | O => inr None
  | S fuel' =>
      match scan_string [] s with
      | None => inr None
      | Some (key, rest) =>
          match expect 58%N (skip_ws rest) with
          | None => inr None
          | Some rest1 =>
              match scan fuel' room (skip_ws rest1) with
              | inl e => inl e
              | inr None => inr None
              | inr (Some (v, rest2)) =>
                  let acc' := dict_set acc key v in
                  match skip_ws rest2 with
                  | d :: rest3 =>
                      if N.eqb d 125 then inr (Some (VDict acc', rest3))
                      else if N.eqb d 44 then
                        match expect 34%N (skip_ws rest3) with
                        | Some rest4 => members fuel' room acc' rest4
                        | None => inr None
                        end
                      else inr None
                  | [] => inr None
                  end
              end
          end
      end
  end
with elements (fuel room : nat) (acc : list value) (s : pystr) {struct fuel}
  : scanned (value * pystr) :=
  match fuel with
  | O => inr None
  | S fuel' =>
      match scan fuel' room s with
      | inl e => inl e
      | inr None => inr None
      | inr (Some (v, rest)) =>
          match skip_ws rest with
          | d :: rest1 =>
              if N.eqb d 93 then inr (Some (VList (acc ++ [v]), rest1))
              else if N.eqb d 44 then
                elements fuel' room (acc ++ [v]) (skip_ws rest1)
              else inr None
          | [] => inr None
          end
      end
  end.

(** [json.loads(s)] called where the recursion limit leaves [room]
    containers to enter: the value, [inr None] for [JSONDecodeError], or
    the [ValueError] or [RecursionError] that the scanner raised. *)
Definition loads (room : nat) (s : pystr) : scanned value :=
  if startswith s [65279%N] then inr None
  else
    match scan (2 * List.length s + 2) room (skip_ws s) with
    | inl e => inl e
    | inr (Some (v, rest)) =>
        match skip_ws rest with
        | [] => inr (Some v)
        | _ :: _ => inr None
        end
    | inr None => inr None
    end.

End Decoder.

(** *** [float] and its [repr]

    [float(s)] on a number literal is the double nearest to the decimal
    number written, ties going to the even mantissa, infinite beyond the
    largest double; [repr] prints the shortest digit string that reads back
    as the same double and, among those, the one nearest to it. *)
Inductive double :=
| Zero
| Finite (m e : Z)
| Infinite.

Section Doubles.

Local Open Scope Z_scope.

(** The integer nearest to [n / d], ties to even. *)
Definition round_div (n d : Z) : Z :=
  let q := n / d in
  let r := n mod d in
  if 2 * r <? d then q
  else if d <? 2 * r then q + 1
  else if Z.even q then q else q + 1.

(** [n / (d * 2 ^ e)] as a fraction of integers. *)
Definition scaled (n d e : Z) : Z * Z :=
  if 0 <=? e then (n, d * 2 ^ e) else (n * 2 ^ (- e), d).

(** The double [m * 2 ^ e] nearest to [n / d], for positive [n] and [d]:
    [m] has 53 bits, or fewer at the least exponent, [-1074]. *)
Definition nearest_double (n d : Z) : double :=
  let e1 := Z.log2 n - Z.log2 d - 52 in
  let '(n1, d1) := scaled n d e1 in
  let e2 := Z.max (if d1 * 2 ^ 52 <=? n1 then e1 else e1 - 1) (-1074) in
  let '(n2, d2) := scaled n d e2 in
  let q := round_div n2 d2 in
  let '(m, e) := if q =? 2 ^ 53 then (2 ^ 52, e2 + 1) else (q, e2) in
  if m =? 0 then Zero else if 971 <? e then Infinite else Finite m e.

(** The double nearest to [D * 10 ^ E].  A number of more than 310 digits
    before the point is beyond every double, and one that starts more than
    330 places after the point is below half the least of them. *)
Definition decimal_double (D E : Z) : double :=
  if D =? 0 then Zero
  else
    let magnitude := Z.log2 D * 30103 / 100000 + E in
    if 310 <? magnitude then Infinite
    else if magnitude <? -330 then Zero
    else if 0 <=? E then nearest_double (D * 10 ^ E) 1
    else nearest_double D (10 ^ (- E)).

(** The shortest decimal [j * 10 ^ k] that reads back as [m * 2 ^ e]: the
    multiples of [10 ^ k] on either side of the double are tried for
    [k] going down, and the first that lies within half a step of the double
    (the bound included when [m] is even) is taken, the nearer of two. *)
Fixpoint shortest (fuel : nat) (k m e : Z) : Z * Z :=
  match fuel with
  | O => (0, 0)
  | S fuel' =>
      let s2 := Z.max 0 (2 - e) in
      let s10 := Z.max 0 (- k) in
      let x := m * 2 ^ (e + s2) * 10 ^ s10 in
      let grid := 2 ^ s2 * 10 ^ (k + s10) in
      let up := 2 ^ (e + s2 - 1) * 10 ^ s10 in
      let down :=
        if (m =? 2 ^ 52) && (-1074 <? e) then 2 ^ (e + s2 - 2) * 10 ^ s10
        else up in
      let inside c :=
        if Z.even m then (x - down <=? c) && (c <=? x + up)
        else (x - down <? c) && (c <? x + up) in
      let lo := x / grid * grid in
      let hi := lo + grid in
      match inside lo, inside hi with
      | true, true => if x - lo <=? hi - x then (lo / grid, k) else (hi / grid, k)
      | true, false => (lo / grid, k)
      | false, true => (hi / grid, k)
      | false, false => shortest fuel' (k - 1) m e
      end
  end.

Fixpoint drop_zeros (rev_digits : pystr) : pystr :=
  match rev_digits with
  | c :: rest => if N.eqb c 48 then drop_zeros rest else rev_digits
  | [] => []
  end.

(** [repr] of the positive double written [0.digits * 10 ^ decpt]: with an
    exponent when [decpt] is below [-3] or above [16]. *)
Definition repr_digits (digits : pystr) (decpt : Z) : pystr :=
  let nd := Z.of_nat (List.length digits) in
  if (decpt <=? -4) || (16 <? decpt) then
    let exponent := of_Z (Z.abs (decpt - 1)) in
    match digits with
    | [] => []
    | [d] => [d]
    | d :: rest => d :: 46%N :: rest
    end
    ++ [101%N] ++ (if decpt - 1 <? 0 then [45%N] else [43%N])
    ++ match exponent with
       | [d] => [48%N; d]
       | _ => exponent
       end
  else if decpt <=? 0 then
    lit "0." ++ repeat 48%N (Z.to_nat (- decpt)) ++ digits
  else if nd <=? decpt then
    digits ++ repeat 48%N (Z.to_nat (decpt - nd)) ++ lit ".0"
  else
    firstn (Z.to_nat decpt) digits ++ [46%N] ++ skipn (Z.to_nat decpt) digits.

Definition repr_double (negative : bool) (x : double) : pystr :=
  (if negative then [45%N] else [])
  ++ match x with
     | Zero => lit "0.0"
     | Infinite => lit "inf"
     | Finite m e =>
         let k0 := (Z.log2 m + 1 + e) * 30103 / 100000 + 2 in
         let '(j, k) := shortest 30 k0 m e in
         let all := of_Z j in
         repr_digits (rev (drop_zeros (rev all))) (Z.of_nat (List.length all) + k)
     end.

End Doubles.

(** [float] on a number literal of JSON, as the agent can observe it: its
    truth value and its [repr]. *)
Definition float_of_literal (s : pystr) : pyfloat :=
  let '(negative, s1) :=
    match s with
    | c :: rest => if N.eqb c 45 then (true, rest) else (false, s)
    | [] => (false, s)
    end in
  let '(ip, s2) := span_digits s1 in
  let '(frac, s3) := scan_frac s2 in
  let exponent :=
    match fst (scan_exp s3) with
    | Some (neg, ds) =>
        let n := Z.of_N (digits_value ds) in if neg then (- n)%Z else n
    | None => 0%Z
    end in
  let x := decimal_double (Z.of_N (digits_value (ip ++ frac)))
             (exponent - Z.of_nat (List.length frac)) in
  {| float_nonzero := match x with Zero => false | _ => true end;
     float_repr := repr_double negative x |}.

(** *** Printing

    The parts of the Python library that the agent calls and that are not
    part of the repository: the JSON decoder, which gives a value, or
    [inr None] for a raised [JSONDecodeError], or [inl e] for an exception
    [e] of another class (the [ValueError] of an integer literal too long
    to convert, a [RecursionError]); and [repr] of a [str].  The properties of the
    loop are proved for every such library; [reference_lib] below serves to
    run the loop on examples. *)
Class PyLib := {
  json_loads : pystr -> exn + option value;
  str_repr : pystr -> pystr
}.

Section Printing.

Context {lib : PyLib}.

(** [repr(v)]. *)
Fixpoint py_repr (v : value) : pystr :=
  match v with
  | VNone => lit "None"
  | VBool true => lit "True"
  | VBool false => lit "False"
  | VInt z => of_Z z
  | VFloat f => float_repr f
  | VStr s => str_repr s
  | VList items => lit "[" ++ join (lit ", ") (map py_repr items) ++ lit "]"
  | VDict entries =>
      lit "{"
      ++ join (lit ", ")
           (map (fun kv => match kv with
                           | (k, w) => str_repr k ++ lit ": " ++ py_repr w
                           end) entries)
      ++ lit "}"
  end.

(** [str(v)], which is also how an f-string renders [v]. *)
Definition py_str (v : value) : pystr :=
  match v with
  | VStr s => s
  | _ => py_repr v
  end.

End Printing.

(** The code points beyond ASCII that [str.isprintable] rejects: those of
    the categories Cc, Cf, Cs, Co, Cn, Zl, Zp and Zs in the Unicode database
    14.0.0, the one of CPython 3.11, as ranges with both ends included. *)
Definition unprintable : list (N * N) :=
  [(128, 160); (173, 173); (888, 889); (896, 899); (907, 907); (909, 909);
   (930, 930); (1328, 1328); (1367, 1368); (1419, 1420); (1424, 1424);
   (1480, 1487); (1515, 1518); (1525, 1541); (1564, 1564); (1757, 1757);
   (1806, 1807); (1867, 1868); (1970, 1983); (2043, 2044); (2094, 2095);
   (2111, 2111); (2140, 2141); (2143, 2143); (2155, 2159); (2191, 2199);
   (2274, 2274); (2436, 2436); (2445, 2446); (2449, 2450); (2473, 2473);
   (2481, 2481); (2483, 2485); (2490, 2491); (2501, 2502); (2505, 2506);
   (2511, 2518); (2520, 2523); (2526, 2526); (2532, 2533); (2559, 2560);
   (2564, 2564); (2571, 2574); (2577, 2578); (2601, 2601); (2609, 2609);
   (2612, 2612); (2615, 2615); (2618, 2619); (2621, 2621); (2627, 2630);
   (2633, 2634); (2638, 2640); (2642, 2648); (2653, 2653); (2655, 2661);
   (2679, 2688); (2692, 2692); (2702, 2702); (2706, 2706); (2729, 2729);
   (2737, 2737); (2740, 2740); (2746, 2747); (2758, 2758); (2762, 2762);
   (2766, 2767); (2769, 2783); (2788, 2789); (2802, 2808); (2816, 2816);
   (2820, 2820); (2829, 2830); (2833, 2834); (2857, 2857); (2865, 2865);
   (2868, 2868); (2874, 2875); (2885, 2886); (2889, 2890); (2894, 2900);
   (2904, 2907); (2910, 2910); (2916, 2917); (2936, 2945); (2948, 2948);
   (2955, 2957); (2961, 2961); (2966, 2968); (2971, 2971); (2973, 2973);
   (2976, 2978); (2981, 2983); (2987, 2989); (3002, 3005); (3011, 3013);
   (3017, 3017); (3022, 3023); (3025, 3030); (3032, 3045); (3067, 3071);
   (3085, 3085); (3089, 3089); (3113, 3113); (3130, 3131); (3141, 3141);
   (3145, 3145); (3150, 3156); (3159, 3159); (3163, 3164); (3166, 3167);
   (3172, 3173); (3184, 3190); (3213, 3213); (3217, 3217); (3241, 3241);
   (3252, 3252); (3258, 3259); (3269, 3269); (3273, 3273); (3278, 3284);
   (3287, 3292); (3295, 3295); (3300, 3301); (3312, 3312); (3315, 3327);
   (3341, 3341); (3345, 3345); (3397, 3397); (3401, 3401); (3408, 3411);
   (3428, 3429); (3456, 3456); (3460, 3460); (3479, 3481); (3506, 3506);
   (3516, 3516); (3518, 3519); (3527, 3529); (3531, 3534); (3541, 3541);
   (3543, 3543); (3552, 3557); (3568, 3569); (3573, 3584); (3643, 3646);
   (3676, 3712); (3715, 3715); (3717, 3717); (3723, 3723); (3748, 3748);
   (3750, 3750); (3774, 3775); (3781, 3781); (3783, 3783); (3790, 3791);
   (3802, 3803); (3808, 3839); (3912, 3912); (3949, 3952); (3992, 3992);
   (4029, 4029); (4045, 4045); (4059, 4095); (4294, 4294); (4296, 4300);
   (4302, 4303); (4681, 4681); (4686, 4687); (4695, 4695); (4697, 4697);
   (4702, 4703); (4745, 4745); (4750, 4751); (4785, 4785); (4790, 4791);
   (4799, 4799); (4801, 4801); (4806, 4807); (4823, 4823); (4881, 4881);
   (4886, 4887); (4955, 4956); (4989, 4991); (5018, 5023); (5110, 5111);
   (5118, 5119); (5760, 5760); (5789, 5791); (5881, 5887); (5910, 5918);
   (5943, 5951); (5972, 5983); (5997, 5997); (6001, 6001); (6004, 6015);
   (6110, 6111); (6122, 6127); (6138, 6143); (6158, 6158); (6170, 6175);
   (6265, 6271); (6315, 6319); (6390, 6399); (6431, 6431); (6444, 6447);
   (6460, 6463); (6465, 6467); (6510, 6511); (6517, 6527); (6572, 6575);
   (6602, 6607); (6619, 6621); (6684, 6685); (6751, 6751); (6781, 6782);
   (6794, 6799); (6810, 6815); (6830, 6831); (6863, 6911); (6989, 6991);
   (7039, 7039); (7156, 7163); (7224, 7226); (7242, 7244); (7305, 7311);
   (7355, 7356); (7368, 7375); (7419, 7423); (7958, 7959); (7966, 7967);
   (8006, 8007); (8014, 8015); (8024, 8024); (8026, 8026); (8028, 8028);
   (8030, 8030); (8062, 8063); (8117, 8117); (8133, 8133); (8148, 8149);
   (8156, 8156); (8176, 8177); (8181, 8181); (8191, 8207); (8232, 8239);
   (8287, 8303); (8306, 8307); (8335, 8335); (8349, 8351); (8385, 8399);
   (8433, 8447); (8588, 8591); (9255, 9279); (9291, 9311); (11124, 11125);
   (11158, 11158); (11508, 11512); (11558, 11558); (11560, 11564);
   (11566, 11567); (11624, 11630); (11633, 11646); (11671, 11679);
   (11687, 11687); (11695, 11695); (11703, 11703); (11711, 11711);
   (11719, 11719); (11727, 11727); (11735, 11735); (11743, 11743);
   (11870, 11903); (11930, 11930); (12020, 12031); (12246, 12271);
   (12284, 12288); (12352, 12352); (12439, 12440); (12544, 12548);
   (12592, 12592); (12687, 12687); (12772, 12783); (12831, 12831);
   (42125, 42127); (42183, 42191); (42540, 42559); (42744, 42751);
   (42955, 42959); (42962, 42962); (42964, 42964); (42970, 42993);
   (43053, 43055); (43066, 43071); (43128, 43135); (43206, 43213);
   (43226, 43231); (43348, 43358); (43389, 43391); (43470, 43470);
   (43482, 43485); (43519, 43519); (43575, 43583); (43598, 43599);
   (43610, 43611); (43715, 43738); (43767, 43776); (43783, 43784);
   (43791, 43792); (43799, 43807); (43815, 43815); (43823, 43823);
   (43884, 43887); (44014, 44015); (44026, 44031); (55204, 55215);
   (55239, 55242); (55292, 63743); (64110, 64111); (64218, 64255);
   (64263, 64274); (64280, 64284); (64311, 64311); (64317, 64317);
   (64319, 64319); (64322, 64322); (64325, 64325); (64451, 64466);
   (64912, 64913); (64968, 64974); (64976, 65007); (65050, 65055);
   (65107, 65107); (65127, 65127); (65132, 65135); (65141, 65141);
   (65277, 65280); (65471, 65473); (65480, 65481); (65488, 65489);
   (65496, 65497); (65501, 65503); (65511, 65511); (65519, 65531);
   (65534, 65535); (65548, 65548); (65575, 65575); (65595, 65595);
   (65598, 65598); (65614, 65615); (65630, 65663); (65787, 65791);
   (65795, 65798); (65844, 65846); (65935, 65935); (65949, 65951);
   (65953, 65999); (66046, 66175); (66205, 66207); (66257, 66271);
   (66300, 66303); (66340, 66348); (66379, 66383); (66427, 66431);
   (66462, 66462); (66500, 66503); (66518, 66559); (66718, 66719);
   (66730, 66735); (66772, 66775); (66812, 66815); (66856, 66863);
   (66916, 66926); (66939, 66939); (66955, 66955); (66963, 66963);
   (66966, 66966); (66978, 66978); (66994, 66994); (67002, 67002);
   (67005, 67071); (67383, 67391); (67414, 67423); (67432, 67455);
   (67462, 67462); (67505, 67505); (67515, 67583); (67590, 67591);
   (67593, 67593); (67638, 67638); (67641, 67643); (67645, 67646);
   (67670, 67670); (67743, 67750); (67760, 67807); (67827, 67827);
   (67830, 67834); (67868, 67870); (67898, 67902); (67904, 67967);
   (68024, 68027); (68048, 68049); (68100, 68100); (68103, 68107);
   (68116, 68116); (68120, 68120); (68150, 68151); (68155, 68158);
   (68169, 68175); (68185, 68191); (68256, 68287); (68327, 68330);
   (68343, 68351); (68406, 68408); (68438, 68439); (68467, 68471);
   (68498, 68504); (68509, 68520); (68528, 68607); (68681, 68735);
   (68787, 68799); (68851, 68857); (68904, 68911); (68922, 69215);
   (69247, 69247); (69290, 69290); (69294, 69295); (69298, 69375);
   (69416, 69423); (69466, 69487); (69514, 69551); (69580, 69599);
   (69623, 69631); (69710, 69713); (69750, 69758); (69821, 69821);
   (69827, 69839); (69865, 69871); (69882, 69887); (69941, 69941);
   (69960, 69967); (70007, 70015); (70112, 70112); (70133, 70143);
   (70162, 70162); (70207, 70271); (70279, 70279); (70281, 70281);
   (70286, 70286); (70302, 70302); (70314, 70319); (70379, 70383);
   (70394, 70399); (70404, 70404); (70413, 70414); (70417, 70418);
   (70441, 70441); (70449, 70449); (70452, 70452); (70458, 70458);
   (70469, 70470); (70473, 70474); (70478, 70479); (70481, 70486);
   (70488, 70492); (70500, 70501); (70509, 70511); (70517, 70655);
   (70748, 70748); (70754, 70783); (70856, 70863); (70874, 71039);
   (71094, 71095); (71134, 71167); (71237, 71247); (71258, 71263);
   (71277, 71295); (71354, 71359); (71370, 71423); (71451, 71452);
   (71468, 71471); (71495, 71679); (71740, 71839); (71923, 71934);
   (71943, 71944); (71946, 71947); (71956, 71956); (71959, 71959);
   (71990, 71990); (71993, 71994); (72007, 72015); (72026, 72095);
   (72104, 72105); (72152, 72153); (72165, 72191); (72264, 72271);
   (72355, 72367); (72441, 72703); (72713, 72713); (72759, 72759);
   (72774, 72783); (72813, 72815); (72848, 72849); (72872, 72872);
   (72887, 72959); (72967, 72967); (72970, 72970); (73015, 73017);
   (73019, 73019); (73022, 73022); (73032, 73039); (73050, 73055);
   (73062, 73062); (73065, 73065); (73103, 73103); (73106, 73106);
   (73113, 73119); (73130, 73439); (73465, 73647); (73649, 73663);
   (73714, 73726); (74650, 74751); (74863, 74863); (74869, 74879);
   (75076, 77711); (77811, 77823); (78895, 82943); (83527, 92159);
   (92729, 92735); (92767, 92767); (92778, 92781); (92863, 92863);
   (92874, 92879); (92910, 92911); (92918, 92927); (92998, 93007);
   (93018, 93018); (93026, 93026); (93048, 93052); (93072, 93759);
   (93851, 93951); (94027, 94030); (94088, 94094); (94112, 94175);
   (94181, 94191); (94194, 94207); (100344, 100351); (101590, 101631);
   (101641, 110575); (110580, 110580); (110588, 110588); (110591, 110591);
   (110883, 110927); (110931, 110947); (110952, 110959); (111356, 113663);
   (113771, 113775); (113789, 113791); (113801, 113807); (113818, 113819);
   (113824, 118527); (118574, 118575); (118599, 118607); (118724, 118783);
   (119030, 119039); (119079, 119080); (119155, 119162); (119275, 119295);
   (119366, 119519); (119540, 119551); (119639, 119647); (119673, 119807);
   (119893, 119893); (119965, 119965); (119968, 119969); (119971, 119972);
   (119975, 119976); (119981, 119981); (119994, 119994); (119996, 119996);
   (120004, 120004); (120070, 120070); (120075, 120076); (120085, 120085);
   (120093, 120093); (120122, 120122); (120127, 120127); (120133, 120133);
   (120135, 120137); (120145, 120145); (120486, 120487); (120780, 120781);
   (121484, 121498); (121504, 121504); (121520, 122623); (122655, 122879);
   (122887, 122887); (122905, 122906); (122914, 122914); (122917, 122917);
   (122923, 123135); (123181, 123183); (123198, 123199); (123210, 123213);
   (123216, 123535); (123567, 123583); (123642, 123646); (123648, 124895);
   (124903, 124903); (124908, 124908); (124911, 124911); (124927, 124927);
   (125125, 125126); (125143, 125183); (125260, 125263); (125274, 125277);
   (125280, 126064); (126133, 126208); (126270, 126463); (126468, 126468);
   (126496, 126496); (126499, 126499); (126501, 126502); (126504, 126504);
   (126515, 126515); (126520, 126520); (126522, 126522); (126524, 126529);
   (126531, 126534); (126536, 126536); (126538, 126538); (126540, 126540);
   (126544, 126544); (126547, 126547); (126549, 126550); (126552, 126552);
   (126554, 126554); (126556, 126556); (126558, 126558); (126560, 126560);
   (126563, 126563); (126565, 126566); (126571, 126571); (126579, 126579);
   (126584, 126584); (126589, 126589); (126591, 126591); (126602, 126602);
   (126620, 126624); (126628, 126628); (126634, 126634); (126652, 126703);
   (126706, 126975); (127020, 127023); (127124, 127135); (127151, 127152);
   (127168, 127168); (127184, 127184); (127222, 127231); (127406, 127461);
   (127491, 127503); (127548, 127551); (127561, 127567); (127570, 127583);
   (127590, 127743); (128728, 128732); (128749, 128751); (128765, 128767);
   (128884, 128895); (128985, 128991); (129004, 129007); (129009, 129023);
   (129036, 129039); (129096, 129103); (129114, 129119); (129160, 129167);
   (129198, 129199); (129202, 129279); (129620, 129631); (129646, 129647);
   (129653, 129655); (129661, 129663); (129671, 129679); (129709, 129711);
   (129723, 129727); (129734, 129743); (129754, 129759); (129768, 129775);
   (129783, 129791); (129939, 129939); (129995, 130031); (130042, 131071);
   (173792, 173823); (177977, 177983); (178206, 178207); (183970, 183983);
   (191457, 194559); (195102, 196607); (201547, 917759); (918000, 1114111)]%N.

Definition isprintable (c : char) : bool :=
  if N.ltb c 128 then in_range 32 126 c
  else negb (existsb (fun r => in_range (fst r) (snd r) c) unprintable).

Definition hexdigit (n : N) : char :=
  if N.ltb n 10 then (48 + n)%N else (87 + n)%N.

(** The [digits] last hexadecimal digits of [c]. *)
Fixpoint hex (digits : nat) (c : N) : pystr :=
  match digits with
  | O => []
  | S k => hex k (c / 16) ++ [hexdigit (c mod 16)]
  end.

(** [repr] of a [str]. *)
Definition unicode_repr (s : pystr) : pystr :=
  let has c := existsb (N.eqb c) s in
  let quote := if has 39%N && negb (has 34%N) then 34%N else 39%N in
  let esc (c : char) : pystr :=
    if N.eqb c quote || N.eqb c 92 then [92%N; c]
    else if N.eqb c 9 then lit "\t"
    else if N.eqb c 10 then lit "\n"
    else if N.eqb c 13 then lit "\r"
    else if isprintable c then [c]
    else if N.ltb c 256 then lit "\x" ++ hex 2 c
    else if N.ltb c 65536 then lit "\u" ++ hex 4 c
    else lit "\U" ++ hex 8 c in
  [quote] ++ flat_map esc s ++ [quote].

(** The library of a CPython 3.11 with its defaults: [int] converts up to
    4300 digits, and the recursion limit of 1000 leaves room for 993
    containers one inside the other when [run_task] is called from the top
    level of a script. *)
Definition reference_lib : PyLib :=
  {| json_loads := loads float_of_literal 4300 993; str_repr := unicode_repr |}.

End Json.
Import Json.

(** ** [agent/tools/base.py] *)
Module Registry.

Inductive tool_outcome :=
| ToolReturn (text : pystr)
| ToolRaise (e : exn).

Section Tools.

Variable World : Type.

(** A tool: [run] acts on the world outside the agent and returns its text
    or raises. *)
Record Tool := {
  name : pystr;
  description : pystr;
  run : value -> World -> tool_outcome * World
}.

(** [_tools], a [dict] from names to tools in insertion order. *)
Record ToolRegistry := { _tools : list (pystr * Tool) }.

Definition empty_registry : ToolRegistry := {| _tools := [] |}.

Fixpoint set_entry (d : list (pystr * Tool)) (key : pystr) (t : Tool)
  : list (pystr * Tool) :=
  match d with
  | [] => [(key, t)]
  | (k, u) :: rest =>
      if PyStr.eqb k key then (k, t) :: rest else (k, u) :: set_entry rest key t
  end.

Definition register_tool (reg : ToolRegistry) (tool : Tool) : ToolRegistry :=
  {| _tools := set_entry (_tools reg) (name tool) tool |}.

Fixpoint get_entry (d : list (pystr * Tool)) (key : pystr) : option Tool :=
  match d with
  | [] => None
  | (k, u) :: rest => if PyStr.eqb k key then Some u else get_entry rest key
  end.

Definition unhashable (type_name : string) : exn :=
  exc "TypeError" (lit "unhashable type: '" ++ lit type_name ++ lit "'").

(** [get_tool(name)] is [self._tools.get(name)].  The agent passes whatever
    the model put under the key [tool]: a [list] or a [dict] cannot be
    hashed and makes the lookup raise; any other value that is not a [str]
    equals no key. *)
Definition get_tool (reg : ToolRegistry) (name : value) : exn + option Tool :=
  match name with
  | VStr s => inr (get_entry (_tools reg) s)
  | VList _ => inl (unhashable "list")
  | VDict _ => inl (unhashable "dict")
  | _ => inr None
  end.

Definition list_tools (reg : ToolRegistry) : list Tool := map snd (_tools reg).

End Tools.

End Registry.
Import Registry.

(** ** [agent/core/prompts.py] *)
Module Prompts.

Record PromptManager := { prompts_cfg : list (pystr * pystr) }.

Fixpoint cfg_get (cfg : list (pystr * pystr)) (key default : pystr) : pystr :=
  match cfg with
  | [] => default
  | (k, v) :: rest => if PyStr.eqb k key then v else cfg_get rest key default
  end.

Definition default_agent_system : pystr :=
  q "You are a tool-using AI agent. You can call tools to browse the web, read and write files, and run commands in a safe, restricted way.

You must always respond in JSON ONLY, with one of the following forms:

1) To call a tool:
{
  'tool': 'tool_name',
  'tool_input': { ... }
}

2) To provide a final answer (no more tool calls):
{
  'tool': null,
  'final_answer': '...'
}

Never include any non-JSON text in your response. Tool names and input must match the descriptions you are given.".

Definition get_agent_system_prompt (p : PromptManager) : pystr :=
  cfg_get (prompts_cfg p) (lit "agent_system") default_agent_system.

End Prompts.
Import Prompts.

(** ** [agent/core/agent.py]: [ToolAgent] *)
Module Agent.

Inductive role := System | User | Assistant.

(** One entry of [messages]: [{"role": ..., "content": ...}]. *)
Record message := { msg_role : role; content : pystr }.

Definition system_msg (text : pystr) := {| msg_role := System; content := text |}.
Definition user_msg (text : pystr) := {| msg_role := User; content := text |}.
Definition assistant_msg (text : pystr) :=
  {| msg_role := Assistant; content := text |}.

(** What [router.chat] does: a [ChatResponse] with its [text], or a raised
    [ProviderError]. *)
Inductive chat_outcome :=
| ChatResponse (text : pystr)
| ChatRaise (e : exn).

(** The meaning of one assistant turn, read off the branches of the loop
    body: [FinalAnswer] for the [return str(...)] statements, [Opaque] for
    the [return raw] statements that follow a successful parse, [Malformed]
    for the [except json.JSONDecodeError] branch, [ToolCall] otherwise; and
    [Uncaught] when [json.loads] raises an exception of another class, which
    that [except] clause lets through. *)
Inductive decision :=
| ToolCall (tool_name tool_input : value)
| FinalAnswer (text : pystr)
| Malformed
| Opaque (text : pystr)
| Uncaught (e : exn).

Definition is_malformed (d : decision) : bool :=
  match d with Malformed => true | _ => false end.

Definition fence : pystr := lit "```".

Definition RETRY_MESSAGE : pystr :=
  lit "Your previous message was not valid JSON. You MUST respond with JSON ONLY as described in the system prompt. Do not include any extra text.".

Definition MAX_STEPS_MESSAGE : pystr :=
  lit "Maximum tool-calling steps reached without a final answer.".

(** Lines 177-179: drop the first line if it opens a fence. *)
Definition drop_opening_fence (lines : list pystr) : list pystr :=
  match lines with
  | first :: rest => if startswith (lstrip first) fence then rest else lines
  | [] => lines
  end.

(** Lines 181-183: drop the last line if it is a fence. *)
Definition drop_closing_fence (lines : list pystr) : list pystr :=
  match lines with
  | _ :: _ =>
      if startswith (strip (last lines [])) fence then removelast lines
      else lines
  | [] => lines
  end.

(** Lines 171-185: the text handed to [json.loads]. *)
Definition raw_for_json (raw : pystr) : pystr :=
  if startswith raw fence then
    strip (join [LF] (drop_closing_fence (drop_opening_fence (splitlines raw))))
  else raw.

Section Loop.

Context {World : Type} {lib : PyLib}.

Record ToolAgent := {
  router : pystr -> pystr -> list message -> World -> chat_outcome * World;
  prompts : PromptManager;
  tools : ToolRegistry World;
  provider_name : pystr;
  model_name : pystr;
  max_steps : Z
}.

(** [_build_tool_descriptions]: the registry has no attribute [tools], so
    the lines come from [list_tools()]. *)
Definition _build_tool_descriptions (self : ToolAgent) : pystr :=
  join [LF]
    (map (fun tool => lit "- " ++ name tool ++ lit ": " ++ description tool)
       (list_tools (tools self))).

Definition system_prompt (self : ToolAgent) : pystr :=
  get_agent_system_prompt (prompts self)
  ++ [LF; LF] ++ lit "Available tools:" ++ [LF]
  ++ _build_tool_descriptions self.

(** Lines 187-232: from [raw] to the decision. *)
Definition classify (raw : pystr) (parsed : option value) : decision :=
  match parsed with
  | None => Malformed
  | Some (VDict d) =>
      if negb (dict_has d (lit "tool")) then
        let error_or_raw :=
          match dict_get d (lit "error") with
          | Some e => FinalAnswer (py_str e)
          | None => Opaque raw
          end in
        match dict_get d (lit "final_answer") with
        | Some v => if truthy v then FinalAnswer (py_str v) else error_or_raw
        | None => error_or_raw
        end
      else
        match dict_get d (lit "tool") with
        | None | Some VNone =>
            match dict_get d (lit "final_answer") with
            | Some v => if truthy v then FinalAnswer (py_str v) else Opaque raw
            | None => Opaque raw
            end
        | Some tool_name =>
            let tool_input :=
              match dict_get d (lit "tool_input") with
              | Some v => if truthy v then v else VDict []
              | None => VDict []
              end in
            ToolCall tool_name tool_input
        end
  | Some _ => Opaque raw
  end.

Definition decide (text : pystr) : decision :=
  let raw := strip text in
  match json_loads (raw_for_json raw) with
  | inl e => Uncaught e
  | inr parsed => classify raw parsed
  end.

(** The variables of one invocation, with two records kept for the proofs:
    the conversations sent to the backend and the decisions taken, oldest
    first. *)
Record state := {
  messages : list message;
  invalid_json_attempts : nat;
  world : World;
  backend_calls : list (list message);
  decisions : list decision
}.

Inductive outcome :=
| Returned (text : pystr)
| Raised (e : exn).

(** The statement that ended the invocation. *)
Inductive exit :=
| ByFinalAnswer
| ByOpaque
| ByMalformedThreshold
| ByBudget
| ByBackendError
| ByLookupError
| ByDecoderError
| ByToolError.

Record report := { result : outcome; exit_by : exit; final : state }.

Inductive step :=
| Next (st : state)
| Stop (r : report).

Definition tool_unavailable (tool_name : value) : pystr :=
  lit "Tool '" ++ py_str tool_name ++ lit "' is not available.".

Definition tool_raised (tool_name : value) (e : exn) : pystr :=
  lit "Tool '" ++ py_str tool_name ++ lit "' raised an error: " ++ exn_str e.

Definition tool_message (tool_name tool_input : value) (tool_result : pystr)
  : pystr :=
  lit "Result from tool '" ++ py_str tool_name ++ lit "' with input "
  ++ py_str tool_input ++ lit ":" ++ [LF] ++ tool_result.

(** Lines 240-243: the text that stands for the outcome of the handler.
    [except Exception] turns an exception into text when it is an instance
    of [Exception], and lets any other through. *)
Definition tool_result_of (tool_name : value) (out : tool_outcome)
  : exn + pystr :=
  match out with
  | ToolReturn t => inr t
  | ToolRaise e => if is_exception e then inr (tool_raised tool_name e) else inl e
  end.

(** One pass through the body of the [for] loop (lines 154-254). *)
Definition iteration (self : ToolAgent) (st : state) : step :=
  let '(response, w) :=
    router self (provider_name self) (model_name self) (messages st) (world st) in
  let calls := backend_calls st ++ [messages st] in
  match response with
  | ChatRaise e =>
      Stop {| result := Raised e; exit_by := ByBackendError;
              final := {| messages := messages st;
                          invalid_json_attempts := invalid_json_attempts st;
                          world := w;
                          backend_calls := calls;
                          decisions := decisions st |} |}
  | ChatResponse text =>
      let msgs := messages st ++ [assistant_msg text] in
      let raw := strip text in
      let d := decide text in
      let taken := decisions st ++ [d] in
      let at_end attempts :=
        {| messages := msgs; invalid_json_attempts := attempts; world := w;
           backend_calls := calls; decisions := taken |} in
      match d with
      | Malformed =>
          let attempts := S (invalid_json_attempts st) in
          if 2 <=? attempts then
            Stop {| result := Returned raw; exit_by := ByMalformedThreshold;
                    final := at_end attempts |}
          else
            Next {| messages := msgs ++ [user_msg RETRY_MESSAGE];
                    invalid_json_attempts := attempts; world := w;
                    backend_calls := calls; decisions := taken |}
      | Opaque t =>
          Stop {| result := Returned t; exit_by := ByOpaque;
                  final := at_end (invalid_json_attempts st) |}
      | FinalAnswer t =>
          Stop {| result := Returned t; exit_by := ByFinalAnswer;
                  final := at_end (invalid_json_attempts st) |}
      | Uncaught e =>
          Stop {| result := Raised e; exit_by := ByDecoderError;
                  final := at_end (invalid_json_attempts st) |}
      | ToolCall tool_name tool_input =>
          match get_tool (tools self) tool_name with
          | inl e =>
              Stop {| result := Raised e; exit_by := ByLookupError;
                      final := at_end (invalid_json_attempts st) |}
          | inr None =>
              Next {| messages := msgs ++ [user_msg (tool_unavailable tool_name)];
                      invalid_json_attempts := invalid_json_attempts st;
                      world := w; backend_calls := calls; decisions := taken |}
          | inr (Some tool) =>
              let '(out, w') := run tool tool_input w in
              match tool_result_of tool_name out with
              | inl e =>
                  Stop {| result := Raised e; exit_by := ByToolError;
                          final :=
                            {| messages := msgs;
                               invalid_json_attempts := invalid_json_attempts st;
                               world := w'; backend_calls := calls;
                               decisions := taken |} |}
              | inr tool_result =>
                  Next {| messages :=
                            msgs ++ [user_msg (tool_message tool_name tool_input
                                                 tool_result)];
                          invalid_json_attempts := invalid_json_attempts st;
                          world := w'; backend_calls := calls;
                          decisions := taken |}
              end
          end
      end
  end.

(** [for _ in range(n)] over the body, then line 256. *)
Fixpoint loop (self : ToolAgent) (n : nat) (st : state) : report :=
  match n with
  | O => {| result := Returned MAX_STEPS_MESSAGE; exit_by := ByBudget;
            final := st |}
  | S k =>
      match iteration self st with
      | Next st' => loop self k st'
      | Stop r => r
      end
  end.

Definition initial_state (self : ToolAgent) (task : pystr) (w : World) : state :=
  {| messages := [system_msg (system_prompt self); user_msg task];
     invalid_json_attempts := 0;
     world := w;
     backend_calls := [];
     decisions := [] |}.

Definition run_task (self : ToolAgent) (task : pystr) (w : World) : report :=
  loop self (Z.to_nat (max_steps self)) (initial_state self task w).

End Loop.

End Agent.
Import Agent.

(** ** A scripted backend and two tools, to run the loop on examples *)
Module Sample.

(** The world is the list of replies the backend has yet to give. *)
Definition script := list pystr.

Definition scripted (_ _ : pystr) (_ : list message) (w : script)
  : chat_outcome * script :=
  match w with
  | reply :: rest => (ChatResponse reply, rest)
  | [] => (ChatRaise (exc "ProviderError" (lit "no reply")), [])
  end.

#[local] Existing Instance reference_lib.

Definition echo : Tool script :=
  {| name := lit "echo";
     description := lit "Return the input.";
     run := fun input w => (ToolReturn (py_str input), w) |}.

Definition broken : Tool script :=
  {| name := lit "broken";
     description := lit "Always fails.";
     run := fun _ w =>
              (ToolRaise (exc "RuntimeError" (lit "boom")), w) |}.

Definition registry : ToolRegistry script :=
  register_tool (register_tool (empty_registry script) echo) broken.

Definition agent (budget : Z) : ToolAgent :=
  {| router := scripted;
     prompts := {| prompts_cfg := [] |};
     tools := registry;
     provider_name := lit "perplexity";
     model_name := lit "sonar";
     max_steps := budget |}.

(** A tool whose handler is interrupted from the keyboard, and the agent
    with one more tool. *)
Definition interrupted : Tool script :=
  {| name := lit "wait";
     description := lit "Wait for a key.";
     run := fun _ w => (ToolRaise KeyboardInterrupt, w) |}.

Definition agent_with (tool : Tool script) (budget : Z) : ToolAgent :=
  {| router := scripted;
     prompts := {| prompts_cfg := [] |};
     tools := register_tool registry tool;
     provider_name := lit "perplexity";
     model_name := lit "sonar";
     max_steps := budget |}.

Definition task : pystr := lit "task".

Definition go (budget : Z) (replies : script) : report :=
  run_task (agent budget) task replies.

End Sample.

(** ** Vocabulary of the properties *)
Module Vocabulary.

Definition no_linebreak (s : pystr) : bool :=
  forallb (fun c => negb (is_linebreak c)) s.

(** The only line boundary in the text is the line feed. *)
Definition only_lf (s : pystr) : bool :=
  forallb (fun c => N.eqb c LF || negb (is_linebreak c)) s.

(** A reply wrapped in a fenced block: the opening fence with a language
    tag, the content, and the closing fence, each on its own line. *)
Definition fenced (tag content : pystr) : pystr :=
  fence ++ tag ++ LF :: content ++ LF :: fence.

(** A character that stands for itself inside a JSON string. *)
Definition plain (c : char) : bool :=
  negb (N.eqb c 34) && negb (N.eqb c 92) && negb (N.ltb c 32).

(** The wire form of a final answer whose text needs no escape. *)
Definition final_answer_text (x : pystr) : pystr :=
  q "{'tool': null, 'final_answer': '" ++ x ++ q "'}".

Definition count_malformed (ds : list decision) : nat :=
  List.length (filter is_malformed ds).

(** No two neighbours of the trace are both [Malformed]. *)
Fixpoint no_adjacent_malformed (ds : list decision) : bool :=
  match ds with
  | d1 :: (d2 :: _) as rest =>
      negb (is_malformed d1 && is_malformed d2) && no_adjacent_malformed rest
  | _ => true
  end.

(** [key in d and d[key]]: the entry under [key] when it is present and
    true as a condition. *)
Definition nonempty_entry (d : dict) (key : pystr) : option value :=
  match dict_get d key with
  | Some v => if truthy v then Some v else None
  | None => None
  end.

Definition role_eqb (a b : role) : bool :=
  match a, b with
  | System, System | User, User | Assistant, Assistant => true
  | _, _ => false
  end.

Definition other (r : role) : role :=
  match r with
  | User => Assistant
  | Assistant => User
  | System => System
  end.

(** The roles of [l] are [expect], then the other of user and assistant,
    and so on in turn. *)
Fixpoint alternates (expect : role) (l : list message) : bool :=
  match l with
  | [] => true
  | m :: rest => role_eqb (msg_role m) expect && alternates (other expect) rest
  end.

(** One system message, then user and assistant in turn, user first. *)
Definition conversation_ok (msgs : list message) : bool :=
  match msgs with
  | m :: rest => role_eqb (msg_role m) System && alternates User rest
  | [] => false
  end.

Definition count_system (msgs : list message) : nat :=
  List.length (filter (fun m => role_eqb (msg_role m) System) msgs).

Definition is_prefix (a b : list message) : Prop :=
  exists suffix, b = a ++ suffix.

(** Every conversation of the list is extended by the next one. *)
Fixpoint growing (l : list (list message)) : Prop :=
  match l with
  | [] => True
  | a :: rest =>
      match rest with
      | [] => True
      | b :: _ => is_prefix a b
      end /\ growing rest
  end.

Section Rounds.

Context {World : Type} {lib : PyLib}.

(** The conversations the invocation went through: those sent to the
    backend, then the one it ended with. *)
Definition history (r : report (World:=World)) : list (list message) :=
  backend_calls (final r) ++ [messages (final r)].

(** The state after [n] passes through the loop body none of which left
    the loop. *)
Fixpoint rounds (self : ToolAgent) (n : nat) (st : state)
  : option (state (World:=World)) :=
  match n with
  | O => Some st
  | S k =>
      match iteration self st with
      | Next st' => rounds self k st'
      | Stop _ => None
      end
  end.

(** What the body does with a reply, decision by decision. *)
Definition seen (st : state (World:=World)) (text : pystr) (w1 : World)
  (extra : list message) (attempts : nat) : state :=
  {| messages := (messages st ++ [assistant_msg text]) ++ extra;
     invalid_json_attempts := attempts;
     world := w1;
     backend_calls := backend_calls st ++ [messages st];
     decisions := decisions st ++ [decide text] |}.

(** The counter is the number of [Malformed] decisions taken so far, and
    the loop is still running only while that number is below two. *)
Definition counter_inv (st : state (World:=World)) : Prop :=
  invalid_json_attempts st = count_malformed (decisions st)
  /\ count_malformed (decisions st) < 2.

Definition counter_post (r : report (World:=World)) : Prop :=
  invalid_json_attempts (final r) = count_malformed (decisions (final r))
  /\ (exit_by r = ByMalformedThreshold
      <-> count_malformed (decisions (final r)) = 2).

(** At the head of the loop the conversation is waiting for a reply: it is
    well shaped and ends with a user message; the conversations sent so far
    are well shaped, start with the seed, and each extends the one before. *)
Definition conversation_inv (seed : list message) (st : state (World:=World))
  : Prop :=
  (exists sys body,
     messages st = sys :: body /\ msg_role sys = System
     /\ alternates User body = true
     /\ Nat.even (List.length body) = false)
  /\ Forall (fun c => conversation_ok c = true) (backend_calls st)
  /\ growing (backend_calls st ++ [messages st])
  /\ hd_error (backend_calls st ++ [messages st]) = Some seed.

Definition conversation_post (seed : list message) (r : report (World:=World))
  : Prop :=
  hd_error (history r) = Some seed
  /\ Forall (fun c => conversation_ok c = true) (history r)
  /\ growing (history r).

(** Where an exception that leaves the invocation comes from: the
    backend, the lookup in the registry, the JSON decoder, or a handler
    that raised an exception which is no instance of [Exception]. *)
Definition raise_origin (self : ToolAgent (World:=World))
  (r : report (World:=World)) : Prop :=
  forall e, result r = Raised e ->
    (exit_by r = ByBackendError
     /\ exists conversation w0 w1,
          router self (provider_name self) (model_name self) conversation w0
          = (ChatRaise e, w1))
    \/ (exit_by r = ByLookupError
        /\ exists tool_name, get_tool (tools self) tool_name = inl e)
    \/ (exit_by r = ByDecoderError
        /\ exists text, json_loads text = inl e)
    \/ (exit_by r = ByToolError
        /\ is_exception e = false
        /\ exists tool_name tool tool_input w0 w1,
             get_tool (tools self) tool_name = inr (Some tool)
             /\ run tool tool_input w0 = (ToolRaise e, w1)).

End Rounds.

End Vocabulary.
Import Vocabulary.

(** ** [agent/models/base.py] and [agent/core/router.py] *)
Module Models.

(** [ProviderError(msg)]. *)
Definition ProviderError (msg : pystr) : exn :=
  exc "ProviderError" msg.

Module ModelInfo.
Record t := {
  name : pystr;
  supports_tools : bool;
  supports_stream : bool;
  max_context_tokens : Z
}.
End ModelInfo.

(** A provider: its [name], and [chat(model, messages, stream)]. *)
Module BaseProvider.
Record t (World : Type) := {
  name : pystr;
  chat : pystr -> list message -> bool -> World -> chat_outcome * World
}.
End BaseProvider.

(** A [dict] in insertion order, with the equality test of its keys. *)
Section Dict.

Variables K V : Type.
Variable key_eqb : K -> K -> bool.

Fixpoint d_get (d : list (K * V)) (key : K) : option V :=
  match d with
  | [] => None
  | (k, v) :: rest => if key_eqb k key then Some v else d_get rest key
  end.

Fixpoint d_set (d : list (K * V)) (key : K) (v : V) : list (K * V) :=
  match d with
  | [] => [(key, v)]
  | (k, u) :: rest =>
      if key_eqb k key then (k, v) :: rest else (k, u) :: d_set rest key v
  end.

End Dict.

(** Equality of the tuples [(provider_name, model_key)]. *)
Definition pair_eqb (a b : pystr * pystr) : bool :=
  PyStr.eqb (fst a) (fst b) && PyStr.eqb (snd a) (snd b).

Section Registry.

Variable World : Type.

Record ModelRegistry := {
  providers : list (pystr * BaseProvider.t World);
  models : list ((pystr * pystr) * ModelInfo.t)
}.

Definition empty_model_registry : ModelRegistry :=
  {| providers := []; models := [] |}.

Definition register_provider (reg : ModelRegistry)
  (provider : BaseProvider.t World) : ModelRegistry :=
  {| providers :=
       d_set PyStr.eqb (providers reg) (BaseProvider.name provider) provider;
     models := models reg |}.

Definition register_model (reg : ModelRegistry) (provider_name model_key : pystr)
  (model_info : ModelInfo.t) : ModelRegistry :=
  {| providers := providers reg;
     models := d_set pair_eqb (models reg) (provider_name, model_key) model_info |}.

(** [resolve]: the provider and the model, or a raised [ProviderError]. *)
Definition resolve (reg : ModelRegistry) (provider_name model_key : pystr)
  : exn + (BaseProvider.t World * ModelInfo.t) :=
  match d_get PyStr.eqb (providers reg) provider_name with
  | None =>
      inl (ProviderError
             (lit "Provider '" ++ provider_name ++ lit "' not registered."))
  | Some provider =>
      match d_get pair_eqb (models reg) (provider_name, model_key) with
      | None =>
          inl (ProviderError
                 (lit "Model '" ++ model_key
                  ++ lit "' not registered for provider '" ++ provider_name
                  ++ lit "'."))
      | Some model_info => inr (provider, model_info)
      end
  end.

Record ModelRouter := { model_registry : ModelRegistry }.

(** [ModelRouter.chat]. *)
Definition chat (self : ModelRouter) (provider_name model_name : pystr)
  (messages : list message) (stream : bool) (w : World)
  : chat_outcome * World :=
  match resolve (model_registry self) provider_name model_name with
  | inl e => (ChatRaise e, w)
  | inr (provider, model_info) =>
      BaseProvider.chat provider (ModelInfo.name model_info) messages stream w
  end.

(** The router as the agents hold it: they always pass [stream=False]. *)
Definition as_router (self : ModelRouter)
  : pystr -> pystr -> list message -> World -> chat_outcome * World :=
  fun provider_name model_name messages w =>
    chat self provider_name model_name messages false w.

End Registry.

End Models.

(** ** [agent/core/agent.py]: [AskAgent] *)
Module Ask.

Definition default_ask_system : pystr :=
  lit "You are a helpful assistant. Answer the user's question clearly and concisely. Do not claim to execute actions or tools in this mode.".

(** [PromptManager.get_ask_system_prompt]. *)
Definition get_ask_system_prompt (p : PromptManager) : pystr :=
  cfg_get (prompts_cfg p) (lit "ask_system") default_ask_system.

Section AskAgent.

Context {World : Type}.

Record AskAgent := {
  router : pystr -> pystr -> list message -> World -> chat_outcome * World;
  prompts : PromptManager;
  provider_name : pystr;
  model_name : pystr
}.

(** [AskAgent.ask]: what it returns or raises, and the world after. *)
Definition ask (self : AskAgent) (question : pystr) (w : World)
  : outcome * World :=
  let messages :=
    [system_msg (get_ask_system_prompt (prompts self)); user_msg question] in
  match router self (provider_name self) (model_name self) messages w with
  | (ChatResponse text, w1) => (Returned text, w1)
  | (ChatRaise e, w1) => (Raised e, w1)
  end.

End AskAgent.

End Ask.

(** ** [agent/models/openai_provider.py], [perplexity_provider.py] and
    [anthropic_provider.py]

    The SDKs and the environment are outside the repository: they are taken
    as they are called, acting on the world. *)
Module Providers.

(** What iterating over a streamed response yields: an item, or the
    iterator raises. *)
Inductive stream_item (A : Type) :=
| Item (a : A)
| Broken (e : exn).

Definition IndexError : exn :=
  exc "IndexError" (lit "list index out of range").

(** A content block of an Anthropic response, and an event of its stream
    with the entry [text] of its [delta]. *)
Record block := { block_type : pystr; block_text : pystr }.
Record event := { event_type : pystr; delta_text : option pystr }.

(** The fields of [OpenAIProvider], which [PerplexityProvider] has too. *)
Module OpenAIProvider.
Record t := {
  name : pystr;
  api_key_env : pystr;
  base_url : pystr;
  models : list (pystr * Models.ModelInfo.t)
}.
End OpenAIProvider.

Module AnthropicProvider.
Record t := {
  name : pystr;
  api_key_env : pystr;
  models : list (pystr * Models.ModelInfo.t)
}.
End AnthropicProvider.

Section SDK.

Variable World : Type.

(** [os.getenv(name)]. *)
Variable getenv : pystr -> World -> option pystr.

(** The OpenAI SDK: [OpenAI(api_key=..., base_url=...)], then
    [client.chat.completions.create(model=..., messages=...)], which gives
    the [message.content] of each choice, and the same call with
    [stream=True], which gives for each chunk the [delta.content] of each
    of its choices. *)
Record OpenAISDK := {
  openai_client : Type;
  new_openai : pystr -> pystr -> exn + openai_client;
  completions_create :
    openai_client -> pystr -> list message -> World
    -> (exn + list (option pystr)) * World;
  completions_stream :
    openai_client -> pystr -> list message -> World
    -> (exn + list (stream_item (list (option pystr)))) * World
}.

(** The Anthropic SDK: [anthropic.Anthropic(api_key=...)], then
    [client.messages.create(model, system, messages, max_tokens, stream)]. *)
Record AnthropicSDK := {
  anthropic_client : Type;
  new_anthropic : pystr -> exn + anthropic_client;
  messages_create :
    anthropic_client -> pystr -> pystr -> list message -> Z -> World
    -> (exn + list block) * World;
  messages_stream :
    anthropic_client -> pystr -> pystr -> list message -> Z -> World
    -> (exn + list (stream_item event)) * World
}.

(** [_client]: the API key read from the environment, or the
    [ProviderError] raised when it is unset or empty. *)
Definition api_key_of (api_key_env name : pystr) (w : World) : exn + pystr :=
  match getenv api_key_env w with
  | Some (c :: key) => inr (c :: key)
  | _ =>
      inl (Models.ProviderError
             (lit "Environment variable '" ++ api_key_env
              ++ lit "' is not set for provider '" ++ name ++ lit "'."))
  end.

(** [except Exception as exc: raise ProviderError(f"...: {exc}") from exc]
    around the calls of the SDK: an instance of [Exception] is replaced by
    a [ProviderError], any other exception passes through. *)
Definition reraised (error_prefix : pystr) (exc : exn) : exn :=
  if is_exception exc then Models.ProviderError (error_prefix ++ exn_str exc)
  else exc.

(** The loop over a streamed completion: the [delta.content] of the first
    choice of every chunk, when it is not empty. *)
Fixpoint collect_chunks (items : list (stream_item (list (option pystr))))
  (chunks : list pystr) : exn + list pystr :=
  match items with
  | [] => inr chunks
  | Broken _ e :: _ => inl e
  | Item [] :: _ => inl IndexError
  | Item (Some (c :: t) :: _) :: rest => collect_chunks rest (chunks ++ [c :: t])
  | Item (_ :: _) :: rest => collect_chunks rest chunks
  end.

(** The body shared by [OpenAIProvider.chat] and [PerplexityProvider.chat],
    which differ by the text put before a wrapped error. *)
Definition completions_chat (sdk : OpenAISDK) (error_prefix : pystr)
  (self : OpenAIProvider.t) (model : pystr) (messages : list message)
  (stream : bool) (w : World) : chat_outcome * World :=
  match api_key_of (OpenAIProvider.api_key_env self) (OpenAIProvider.name self) w with
  | inl e => (ChatRaise e, w)
  | inr api_key =>
      match new_openai sdk api_key (OpenAIProvider.base_url self) with
      | inl e => (ChatRaise e, w)
      | inr client =>
          let wrapped (exc : exn) := ChatRaise (reraised error_prefix exc) in
          if stream then
            match completions_stream sdk client model messages w with
            | (inl exc, w1) => (wrapped exc, w1)
            | (inr items, w1) =>
                match collect_chunks items [] with
                | inl exc => (wrapped exc, w1)
                | inr chunks => (ChatResponse (List.concat chunks), w1)
                end
            end
          else
            match completions_create sdk client model messages w with
            | (inl exc, w1) => (wrapped exc, w1)
            | (inr [], w1) => (wrapped IndexError, w1)
            | (inr (Some text :: _), w1) => (ChatResponse text, w1)
            | (inr (None :: _), w1) => (ChatResponse [], w1)
            end
      end
  end.

Definition openai_chat (sdk : OpenAISDK) :=
  completions_chat sdk (lit "OpenAI provider error: ").

Definition perplexity_chat (sdk : OpenAISDK) :=
  completions_chat sdk (lit "Perplexity provider error: ").

(** Lines 64-76 of [anthropic_provider.py]: the system messages gathered
    into [system_prompt], the others kept in order. *)
Fixpoint convert_from (system_prompt : pystr) (converted : list message)
  (messages : list message) : pystr * list message :=
  match messages with
  | [] => (system_prompt, converted)
  | msg :: rest =>
      match msg_role msg with
      | System => convert_from (system_prompt ++ content msg ++ [LF]) converted rest
      | User => convert_from system_prompt (converted ++ [user_msg (content msg)]) rest
      | Assistant =>
          convert_from system_prompt (converted ++ [assistant_msg (content msg)]) rest
      end
  end.

Definition convert (messages : list message) : pystr * list message :=
  convert_from [] [] messages.

(** The loop over a streamed message: the text of every
    [content_block_delta]. *)
Fixpoint collect_events (items : list (stream_item event)) (text : pystr)
  : exn + pystr :=
  match items with
  | [] => inr text
  | Broken _ e :: _ => inl e
  | Item ev :: rest =>
      if PyStr.eqb (event_type ev) (lit "content_block_delta") then
        collect_events rest
          (text ++ match delta_text ev with Some t => t | None => [] end)
      else collect_events rest text
  end.

Definition text_blocks (blocks : list block) : list pystr :=
  map block_text
    (filter (fun b => PyStr.eqb (block_type b) (lit "text")) blocks).

Definition anthropic_chat (sdk : AnthropicSDK) (self : AnthropicProvider.t)
  (model : pystr) (messages : list message) (stream : bool) (w : World)
  : chat_outcome * World :=
  match api_key_of (AnthropicProvider.api_key_env self)
          (AnthropicProvider.name self) w with
  | inl e => (ChatRaise e, w)
  | inr api_key =>
      match new_anthropic sdk api_key with
      | inl e => (ChatRaise e, w)
      | inr client =>
          let '(system_prompt, converted) := convert messages in
          let wrapped (exc : exn) :=
            ChatRaise (reraised (lit "Anthropic provider error: ") exc) in
          if stream then
            match messages_stream sdk client model system_prompt converted 2048 w with
            | (inl exc, w1) => (wrapped exc, w1)
            | (inr items, w1) =>
                match collect_events items [] with
                | inl exc => (wrapped exc, w1)
                | inr text => (ChatResponse text, w1)
                end
            end
          else
            match messages_create sdk client model system_prompt converted 2048 w with
            | (inl exc, w1) => (wrapped exc, w1)
            | (inr blocks, w1) => (ChatResponse (join [LF] (text_blocks blocks)), w1)
            end
      end
  end.

End SDK.

End Providers.

(** ** [main.py]: [build_tool_registry], with the constructors of the tools

    The configuration is the mapping that [load_app_config] returns, its
    values being those of a JSON document.  What the handlers of the tools
    do, and the file system and environment the constructors touch, are
    outside: they are taken as they are called. *)
Module Main.

Definition type_name (v : value) : string :=
  match v with
  | VNone => "NoneType"
  | VBool _ => "bool"
  | VInt _ => "int"
  | VFloat _ => "float"
  | VStr _ => "str"
  | VList _ => "list"
  | VDict _ => "dict"
  end.

(** The [AttributeError] of [v.get] on a value that is no mapping. *)
Definition no_attribute_get (v : value) : exn :=
  exc "AttributeError"
    (lit "'" ++ lit (type_name v) ++ lit "' object has no attribute 'get'").

(** [v.get(key)]. *)
Definition py_get (v : value) (key : pystr) : exn + option value :=
  match v with
  | VDict d => inr (dict_get d key)
  | _ => inl (no_attribute_get v)
  end.

(** [d.get(key, default)]. *)
Definition get_default (d : dict) (key : pystr) (default : value) : value :=
  match dict_get d key with
  | Some v => v
  | None => default
  end.

(** [c = tools_cfg.get(key)] followed by the test
    [c and c.get("enabled", False)]: the section when the tool is to be
    built. *)
Definition section (tools_cfg : value) (key : pystr) : exn + option dict :=
  match py_get tools_cfg key with
  | inl e => inl e
  | inr None => inr None
  | inr (Some c) =>
      if truthy c then
        match c with
        | VDict d =>
            match dict_get d (lit "enabled") with
            | Some enabled => if truthy enabled then inr (Some d) else inr None
            | None => inr None
            end
        | _ => inl (no_attribute_get c)
        end
      else inr None
  end.

Section Build.

Variable World : Type.

(** [os.path.abspath(path)], [os.makedirs(path, exist_ok=True)] and
    [os.getenv(name)]. *)
Variable abspath : value -> World -> exn + pystr.
Variable makedirs : value -> World -> option exn * World.
Variable getenv : pystr -> World -> option pystr.

(** The [run] methods of the five tools, given the fields that their
    constructors set. *)
Variable shell_run : value -> pystr -> value -> World -> tool_outcome * World.
Variable read_run : pystr -> value -> World -> tool_outcome * World.
Variable write_run : pystr -> value -> World -> tool_outcome * World.
Variable search_run : value -> value -> World -> tool_outcome * World.
Variable fetch_run : value -> World -> tool_outcome * World.

Definition building := World -> (exn + Tool World) * World.

(** [ShellCommandTool.from_config]. *)
Definition shell_from_config (cfg : dict) : building := fun w =>
  let allowed_commands :=
    get_default cfg (lit "allowed_commands")
      (VList [VStr (lit "ls"); VStr (lit "echo")]) in
  let working_dir := get_default cfg (lit "working_dir") (VStr (lit "workspace")) in
  match abspath working_dir w with
  | inl e => (inl e, w)
  | inr dir =>
      match makedirs (VStr dir) w with
      | (Some e, w1) => (inl e, w1)
      | (None, w1) =>
          (inr {| name := lit "shell_command";
                  description :=
                    q "Execute a shell command (very restricted). Input: {'command': str, 'timeout': int}.";
                  run := shell_run allowed_commands dir |}, w1)
      end
  end.

(** [ReadFileTool.from_config] and [WriteFileTool.from_config]. *)
Definition file_from_config (tool_name tool_description : pystr)
  (handler : pystr -> value -> World -> tool_outcome * World) (cfg : dict)
  : building := fun w =>
  let root_dir := get_default cfg (lit "root_dir") (VStr (lit "workspace")) in
  match makedirs root_dir w with
  | (Some e, w1) => (inl e, w1)
  | (None, w1) =>
      match abspath root_dir w1 with
      | inl e => (inl e, w1)
      | inr dir =>
          (inr {| name := tool_name; description := tool_description;
                  run := handler dir |}, w1)
      end
  end.

Definition read_from_config : dict -> building :=
  file_from_config (lit "read_file")
    (q "Read a text file from a safe workspace directory. Input: {'path': str, 'max_chars': int}.")
    read_run.

Definition write_from_config : dict -> building :=
  file_from_config (lit "write_file")
    (q "Write text content to a file in the safe workspace directory. Input: {'path': str, 'content': str, 'overwrite': bool}.")
    write_run.

Definition RuntimeError (msg : pystr) : exn :=
  exc "RuntimeError" msg.

(** [WebSearchTool.from_config]. *)
Definition search_from_config (cfg : dict) : building := fun w =>
  let endpoint :=
    match nonempty_entry cfg (lit "endpoint") with
    | Some v => v
    | None =>
        VStr match getenv (lit "SEARCH_API_ENDPOINT") w with
             | Some text => text
             | None => []
             end
    end in
  if truthy endpoint then
    (inr {| name := lit "web_search";
            description :=
              q "Perform a live web search. Input: {'query': str, 'num_results': int}. Returns a concise text summary of the top results.";
            run := search_run endpoint |}, w)
  else
    (inl (RuntimeError
            (lit "WebSearchTool requires SEARCH_API_ENDPOINT env var or tools.web_search.endpoint in config.")),
     w).

(** [WebFetchTool.from_config]. *)
Definition fetch_from_config (_ : dict) : building := fun w =>
  (inr {| name := lit "web_fetch";
          description :=
            q "Fetch raw web content from a URL. Input: {'url': str, 'max_chars': int}. Returns the first N characters of the response.";
          run := fetch_run |}, w).

(** One block of [build_tool_registry]: the section is read, and the tool
    built and registered when it is enabled. *)
Definition add_tool (key : pystr) (from_config : dict -> building)
  (tools_cfg : value) (reg : ToolRegistry World) (w : World)
  : (exn + ToolRegistry World) * World :=
  match section tools_cfg key with
  | inl e => (inl e, w)
  | inr None => (inr reg, w)
  | inr (Some cfg) =>
      match from_config cfg w with
      | (inl e, w1) => (inl e, w1)
      | (inr tool, w1) => (inr (register_tool reg tool), w1)
      end
  end.

Definition and_then (r : (exn + ToolRegistry World) * World)
  (next : ToolRegistry World -> World -> (exn + ToolRegistry World) * World)
  : (exn + ToolRegistry World) * World :=
  match r with
  | (inl e, w) => (inl e, w)
  | (inr reg, w) => next reg w
  end.

Definition build_tool_registry (cfg : dict) (w : World)
  : (exn + ToolRegistry World) * World :=
  let tools_cfg := get_default cfg (lit "tools") (VDict []) in
  and_then (add_tool (lit "shell") shell_from_config tools_cfg
              (empty_registry World) w) (fun reg w =>
  and_then (add_tool (lit "read_file") read_from_config tools_cfg reg w)
    (fun reg w =>
  and_then (add_tool (lit "write_file") write_from_config tools_cfg reg w)
    (fun reg w =>
  and_then (add_tool (lit "web_search") search_from_config tools_cfg reg w)
    (fun reg w =>
  add_tool (lit "web_fetch") fetch_from_config tools_cfg reg w)))).

End Build.

(** The sections of the configuration and the names of the tools they
    enable, in the order of [build_tool_registry]. *)
Definition catalogue : list (pystr * pystr) :=
  [(lit "shell", lit "shell_command"); (lit "read_file", lit "read_file");
   (lit "write_file", lit "write_file"); (lit "web_search", lit "web_search");
   (lit "web_fetch", lit "web_fetch")].

Definition enabled (tools_cfg : value) (key : pystr) : bool :=
  match section tools_cfg key with
  | inr (Some _) => true
  | _ => false
  end.

Definition enabled_names (tools_cfg : value) (entries : list (pystr * pystr))
  : list pystr :=
  flat_map (fun kn => if enabled tools_cfg (fst kn) then [snd kn] else [])
    entries.

End Main.

(** ** Providers and a model registry over the scripted backend *)
Module Sample2.

Import Sample.

(** A provider that answers from the script, whatever it is asked. *)
Definition canned : Models.BaseProvider.t script :=
  {| Models.BaseProvider.name := lit "perplexity";
     Models.BaseProvider.chat :=
       fun model messages stream w => scripted model model messages w |}.

Definition sonar : Models.ModelInfo.t :=
  {| Models.ModelInfo.name := lit "sonar-pro";
     Models.ModelInfo.supports_tools := false;
     Models.ModelInfo.supports_stream := true;
     Models.ModelInfo.max_context_tokens := 8192 |}.

Definition model_registry : Models.ModelRegistry script :=
  Models.register_model
    (Models.register_provider (Models.empty_model_registry script) canned)
    (lit "perplexity") (lit "sonar") sonar.

(** A tool agent whose router is a [ModelRouter] over [model_registry]. *)
Definition routed_agent (provider model : pystr) : ToolAgent :=
  {| router := Models.as_router {| Models.model_registry := model_registry |};
     prompts := {| prompts_cfg := [] |};
     tools := registry;
     provider_name := provider;
     model_name := model;
     max_steps := 4 |}.

(** An environment with one API key, and an OpenAI SDK whose completions
    come from the script. *)
Definition getenv (name : pystr) (_ : script) : option pystr :=
  if PyStr.eqb name (lit "OPENAI_API_KEY") then Some (lit "sk-test") else None.

Definition sdk : Providers.OpenAISDK script :=
  {| Providers.openai_client := unit;
     Providers.new_openai := fun _ _ => inr tt;
     Providers.completions_create :=
       fun _ _ _ w =>
         match w with
         | reply :: rest => (inr [Some reply], rest)
         | [] => (inl (exc "APITimeoutError" (lit "Request timed out.")), [])
         end;
     Providers.completions_stream := fun _ _ _ w => (inr [], w) |}.

Definition openai (api_key_env : pystr) : Providers.OpenAIProvider.t :=
  {| Providers.OpenAIProvider.name := lit "openai";
     Providers.OpenAIProvider.api_key_env := api_key_env;
     Providers.OpenAIProvider.base_url := lit "https://api.openai.com/v1";
     Providers.OpenAIProvider.models := [] |}.

(** An Anthropic SDK whose service is down. *)
Definition overloaded : exn :=
  exc "APIStatusError" (lit "Overloaded").

Definition claude_sdk : Providers.AnthropicSDK script :=
  {| Providers.anthropic_client := unit;
     Providers.new_anthropic := fun _ => inr tt;
     Providers.messages_create := fun _ _ _ _ _ w => (inl overloaded, w);
     Providers.messages_stream := fun _ _ _ _ _ w => (inl overloaded, w) |}.

Definition claude : Providers.AnthropicProvider.t :=
  {| Providers.AnthropicProvider.name := lit "anthropic";
     Providers.AnthropicProvider.api_key_env := lit "OPENAI_API_KEY";
     Providers.AnthropicProvider.models := [] |}.

(** A file system in which every directory can be made, and handlers that
    do nothing, to build a tool registry from a configuration. *)
Definition abspath (path : value) (_ : script) : exn + pystr :=
  match path with
  | VStr p => inr (lit "/srv/agent/" ++ p)
  | _ => inl (exc "TypeError" (lit "expected str, bytes or os.PathLike object"))
  end.

Definition makedirs (_ : value) (w : script) : option exn * script := (None, w).

Definition no_env (_ : pystr) (_ : script) : option pystr := None.

Definition idle (_ : value) (w : script) : tool_outcome * script :=
  (ToolReturn [], w).

Definition build (cfg : dict) (w : script) :=
  Main.build_tool_registry abspath makedirs no_env (fun _ _ => idle)
    (fun _ => idle) (fun _ => idle) (fun _ => idle) idle cfg w.

(** [tools: {shell: {enabled: true}, read_file: {enabled: false},
    web_fetch: {enabled: true}}]. *)
Definition config : dict :=
  [(lit "tools",
    VDict [(lit "shell", VDict [(lit "enabled", VBool true)]);
           (lit "read_file", VDict [(lit "enabled", VBool false)]);
           (lit "web_fetch", VDict [(lit "enabled", VBool true)])])].

End Sample2.

(** ** Vocabulary of the further properties *)
Module Coverage.

Section Registered.

Variable World : Type.

(** The registry after registering [ts] in turn, from an empty one. *)
Definition registered (ts : list (Tool World)) : ToolRegistry World :=
  fold_left (@register_tool World) ts (empty_registry World).

(** The line of the system prompt that describes a tool. *)
Definition tool_line (tool : Tool World) : pystr :=
  lit "- " ++ name tool ++ lit ": " ++ description tool.

(** Every entry is filed under the name of its tool, and no name occurs
    twice. *)
Definition well_keyed (reg : ToolRegistry World) : Prop :=
  NoDup (map fst (_tools reg))
  /\ Forall (fun kt => fst kt = name (snd kt)) (_tools reg).

End Registered.

(** [parsed.get("tool_input", {}) or {}]. *)
Definition requested_input (d : dict) : value :=
  match nonempty_entry d (lit "tool_input") with
  | Some v => v
  | None => VDict []
  end.

(** The [TypeError] that hashing a tool name raises, if any. *)
Definition unhashable_name (tool_name : value) : option exn :=
  match tool_name with
  | VList _ => Some (unhashable "list")
  | VDict _ => Some (unhashable "dict")
  | _ => None
  end.

(** A tool name that is a boolean or a number. *)
Definition scalar_name (tool_name : value) : bool :=
  match tool_name with
  | VBool _ | VInt _ | VFloat _ => true
  | _ => false
  end.

Definition is_mapping (v : value) : bool :=
  match v with VDict _ => true | _ => false end.

(** What the last statement of an invocation leaves in the conversation
    beyond two messages for each call of the backend. *)
Definition closing_length (e : exit) : nat :=
  match e with
  | ByBudget => 2
  | ByBackendError => 0
  | _ => 1
  end.

(** A chunk of a streamed completion that has a choice, and the text its
    first choice adds. *)
Definition has_choice (item : Providers.stream_item (list (option pystr)))
  : bool :=
  match item with
  | Providers.Item (_ :: _) => true
  | _ => false
  end.

Definition delta_of (item : Providers.stream_item (list (option pystr)))
  : pystr :=
  match item with
  | Providers.Item (Some text :: _) => text
  | _ => []
  end.

Section Lengths.

Context {World : Type}.

(** The conversation at the head of the loop has two messages for the seed
    and two for each call made; the [k]-th call was sent [2k] messages. *)
Definition length_inv (st : state (World:=World)) : Prop :=
  List.length (messages st) = 2 * List.length (backend_calls st) + 2
  /\ forall k c, nth_error (backend_calls st) k = Some c ->
       List.length c = 2 * k + 2.

Definition length_post (r : report (World:=World)) : Prop :=
  List.length (messages (final r))
  = 2 * List.length (backend_calls (final r)) + closing_length (exit_by r)
  /\ forall k c, nth_error (backend_calls (final r)) k = Some c ->
       List.length c = 2 * k + 2.

End Lengths.

End Coverage.
Import Coverage.

(** * Properties *)

(** ** Text operations *)
Section TextFacts.

Example strip_both_ends :
  strip ([32%N; 9%N] ++ lit "a b" ++ [LF; 160%N]) = lit "a b".
Proof. reflexivity. Qed.

Example splitlines_boundaries :
  splitlines (lit "a" ++ [CR; LF] ++ lit "b" ++ [12%N; LF] ++ lit "c" ++ [LF])
  = [lit "a"; lit "b"; []; lit "c"].
Proof. reflexivity. Qed.

Example join_lines : join [LF] [lit "a"; []; lit "b"] = lit "a" ++ [LF; LF] ++ lit "b".
Proof. reflexivity. Qed.

Example loads_object :
  @json_loads reference_lib (q " {'a': [1, -2, true, null], 'a': 'x\u00e9\n'} ")
  = inr (Some (VDict [(lit "a", VStr [120%N; 233%N; 10%N])])).
Proof. reflexivity. Qed.

Example loads_rejects :
  map (@json_loads reference_lib)
    [lit "not json"; lit "[1,]"; q "{'a': 1,}"; lit "01"; lit "1 2"; q "{a: 1}";
     q "'a" ++ [LF] ++ q "b'"]
  = map (fun _ => inr None) (seq 0 7).
Proof. reflexivity. Qed.

Example loads_float_zero :
  map (fun s => match @json_loads reference_lib s with
                | inr (Some v) => Some (truthy v)
                | _ => None
                end)
    [lit "0.0e5"; lit "1e-400"; lit "0.5"]
  = [Some false; Some false; Some true].
Proof. vm_compute. reflexivity. Qed.

(** An integer literal of 4301 digits, and 994 arrays one inside the
    other. *)
Example loads_raises :
  @json_loads reference_lib (repeat 49%N 4301) = inl (too_many_digits 4300 4301)
  /\ @json_loads reference_lib (repeat 49%N 4300 ++ lit ".5") <> inl (too_many_digits 4300 4301)
  /\ @json_loads reference_lib (repeat 91%N 994 ++ repeat 93%N 994)
     = inl (RecursionError "array")
  /\ @json_loads reference_lib (repeat 91%N 993 ++ repeat 93%N 993) <> inr None.
Proof. repeat split; vm_compute; try reflexivity; discriminate. Qed.

Example raw_for_json_strips_fence :
  raw_for_json (q "```json
{'tool': null}
```") = q "{'tool': null}".
Proof. reflexivity. Qed.

Lemma lstrip_spaces (ws s : pystr) :
  forallb is_space ws = true -> lstrip (ws ++ s) = lstrip s.
Proof.
  induction ws as [|c ws IH]; simpl; intros H; [reflexivity|].
  apply andb_true_iff in H as [Hc Hws]. rewrite Hc. auto.
Qed.

Lemma lstrip_head (c : char) (s : pystr) :
  is_space c = false -> lstrip (c :: s) = c :: s.
Proof. intros H. simpl. now rewrite H. Qed.

Lemma rstrip_spaces (s ws : pystr) :
  forallb is_space ws = true -> rstrip (s ++ ws) = rstrip s.
Proof.
  intros H. unfold rstrip. rewrite rev_app_distr.
  rewrite lstrip_spaces; [reflexivity|].
  rewrite forallb_forall in *. intros x Hx. apply H. now apply in_rev.
Qed.

Lemma rstrip_last (s : pystr) (c : char) :
  is_space c = false -> rstrip (s ++ [c]) = s ++ [c].
Proof.
  intros H. unfold rstrip. rewrite rev_app_distr.
  change (rev [c] ++ rev s) with (c :: rev s).
  rewrite lstrip_head by assumption.
  simpl. now rewrite rev_involutive.
Qed.

(** Stripping a text that is padded with white space and whose own first
    and last characters are not white space gives back the text. *)
Lemma strip_padded (ws1 ws2 body : pystr) (a b : char) :
  forallb is_space ws1 = true -> forallb is_space ws2 = true ->
  is_space a = false -> is_space b = false ->
  strip (ws1 ++ (a :: body ++ [b]) ++ ws2) = a :: body ++ [b].
Proof.
  intros H1 H2 Ha Hb. unfold strip.
  rewrite lstrip_spaces by assumption.
  simpl app. rewrite lstrip_head by assumption.
  change (a :: (body ++ [b]) ++ ws2) with ((a :: body ++ [b]) ++ ws2).
  rewrite rstrip_spaces by assumption.
  change (a :: body ++ [b]) with ((a :: body) ++ [b]).
  now apply rstrip_last.
Qed.

Lemma linebreak_not_CR (c : char) : is_linebreak c = false -> N.eqb c CR = false.
Proof.
  intros H. destruct (N.eqb_spec c CR) as [->|]; [discriminate H|reflexivity].
Qed.

(** A line without boundary in it, closed by a line feed, is read off as
    one line. *)
Lemma splitlines_line (l cur rest : pystr) :
  no_linebreak l = true ->
  splitlines_from cur (l ++ LF :: rest) = (cur ++ l) :: splitlines_from [] rest.
Proof.
  revert cur. induction l as [|c l IH]; intros cur H.
  - simpl. now rewrite app_nil_r.
  - simpl in H. apply andb_true_iff in H as [Hc Hl].
    apply negb_true_iff in Hc.
    simpl. rewrite (linebreak_not_CR _ Hc), Hc.
    rewrite IH by assumption. now rewrite <- app_assoc.
Qed.

(** The lines of a text whose boundaries are line feeds, followed by one
    last line: joining the former with line feeds restores the text. *)
Lemma splitlines_body (content cur closing : pystr) :
  only_lf content = true ->
  splitlines_from [] closing = [closing] ->
  exists ls,
    splitlines_from cur (content ++ LF :: closing) = ls ++ [closing]
    /\ ls <> [] /\ join [LF] ls = cur ++ content.
Proof.
  intros Hc Hcl. revert cur.
  induction content as [|c content IH]; intros cur.
  - exists [cur]. simpl. rewrite Hcl, app_nil_r. repeat split. discriminate.
  - simpl in Hc. apply andb_true_iff in Hc as [Hc Hrest].
    specialize (IH Hrest).
    destruct (N.eqb_spec c LF) as [->|Hne].
    + destruct (IH []) as (ls & E & Hn & J).
      exists (cur :: ls). simpl. rewrite E. repeat split; [discriminate|].
      destruct ls as [|l0 ls]; [contradiction|].
      change (join [LF] (cur :: l0 :: ls)) with (cur ++ [LF] ++ join [LF] (l0 :: ls)).
      now rewrite J.
    + simpl in Hc. apply negb_true_iff in Hc.
      destruct (IH (cur ++ [c])) as (ls & E & Hn & J).
      exists ls. simpl. rewrite (linebreak_not_CR _ Hc), Hc.
      rewrite E, J, <- app_assoc. repeat split; assumption.
Qed.

Lemma lstrip_app (s t : pystr) :
  lstrip (s ++ t) = if forallb is_space s then lstrip t else lstrip s ++ t.
Proof.
  induction s as [|c s IH]; simpl; [reflexivity|].
  destruct (is_space c); simpl; [exact IH|reflexivity].
Qed.

Lemma lstrip_all_spaces (s : pystr) : forallb is_space s = true -> lstrip s = [].
Proof.
  induction s as [|c s IH]; simpl; [reflexivity|].
  intros H. apply andb_true_iff in H as [-> H]. auto.
Qed.

Lemma strip_trailing_spaces (s ws : pystr) :
  forallb is_space ws = true -> strip (s ++ ws) = strip s.
Proof.
  intros H. unfold strip. rewrite lstrip_app.
  destruct (forallb is_space s) eqn:E.
  - rewrite (lstrip_all_spaces ws H), (lstrip_all_spaces s E). reflexivity.
  - now apply rstrip_spaces.
Qed.

(** Splitting a text whose boundaries are line feeds and joining the lines
    again gives the text back, but for a final line feed. *)
Lemma join_splitlines (content cur : pystr) :
  only_lf content = true ->
  cur ++ content = join [LF] (splitlines_from cur content)
  \/ cur ++ content = join [LF] (splitlines_from cur content) ++ [LF].
Proof.
  revert cur. induction content as [|c content IH]; intros cur H.
  - left. rewrite app_nil_r. destruct cur; reflexivity.
  - simpl in H. apply andb_true_iff in H as [Hc Hrest].
    destruct (N.eqb_spec c LF) as [->|Hne].
    + change (splitlines_from cur (LF :: content))
        with (cur :: splitlines_from [] content).
      destruct (splitlines_from [] content) as [|l0 ls] eqn:E.
      * right. destruct (IH [] Hrest) as [H|H]; rewrite E in H; simpl in H.
        -- now rewrite H.
        -- rewrite H in E. discriminate E.
      * change (join [LF] (cur :: l0 :: ls))
          with (cur ++ [LF] ++ join [LF] (l0 :: ls)).
        destruct (IH [] Hrest) as [H|H]; rewrite E in H; simpl app in H.
        -- left. now rewrite H.
        -- right. rewrite H, <- !app_assoc. reflexivity.
    + simpl in Hc. apply negb_true_iff in Hc.
      simpl splitlines_from. rewrite (linebreak_not_CR _ Hc), Hc.
      replace (cur ++ c :: content) with ((cur ++ [c]) ++ content)
        by now rewrite <- app_assoc.
      apply IH, Hrest.
Qed.

(** With line feeds as its only line boundaries, a text is read by
    [strip] as its lines joined by line feeds are. *)
Lemma strip_join_splitlines (content : pystr) :
  only_lf content = true ->
  strip (join [LF] (splitlines content)) = strip content.
Proof.
  intros Hc. unfold splitlines.
  destruct (join_splitlines content [] Hc) as [H|H]; simpl app in H.
  - now rewrite <- H.
  - rewrite H at 2. now rewrite strip_trailing_spaces.
Qed.

(** The first line of a text is a prefix of the text. *)
Lemma splitlines_first (s cur l : pystr) (rest : list pystr) :
  splitlines_from cur s = l :: rest ->
  exists p s', l = cur ++ p /\ s = p ++ s'.
Proof.
  revert cur. induction s as [|c s IH]; intros cur.
  - destruct cur; [discriminate|]. intros [= <- _].
    exists [], []. now rewrite app_nil_r.
  - simpl. destruct (N.eqb c CR).
    + assert (H : forall x, cur :: x = l :: rest ->
                    exists p s', l = cur ++ p /\ c :: s = p ++ s').
      { intros x [= <- _]. exists [], (c :: s). now rewrite app_nil_r. }
      destruct s as [|d s']; [apply H|]. destruct (N.eqb d LF); apply H.
    + destruct (is_linebreak c).
      * intros [= <- _]. exists [], (c :: s). now rewrite app_nil_r.
      * intros E. destruct (IH _ E) as (p & s' & -> & ->).
        exists (c :: p), s'. now rewrite <- app_assoc.
Qed.

Lemma forallb_is_space_rev (s : pystr) :
  forallb is_space (rev s) = forallb is_space s.
Proof.
  apply eq_true_iff_eq. rewrite !forallb_forall.
  split; intros H x Hx; apply H;
    first [apply in_rev in Hx; exact Hx|apply in_rev; exact Hx].
Qed.

Lemma rstrip_app (s t : pystr) :
  rstrip (s ++ t) = if forallb is_space t then rstrip s else s ++ rstrip t.
Proof.
  unfold rstrip. rewrite rev_app_distr, lstrip_app, forallb_is_space_rev.
  destruct (forallb is_space t); [reflexivity|].
  now rewrite rev_app_distr, rev_involutive.
Qed.

(** What [lstrip] and [rstrip] remove is white space. *)
Lemma lstrip_suffix (s : pystr) :
  exists ws, s = ws ++ lstrip s /\ forallb is_space ws = true.
Proof.
  induction s as [|c s (ws & E & H)]; [now exists []|]. simpl.
  destruct (is_space c) eqn:Hc; [|now exists []].
  exists (c :: ws). simpl. rewrite Hc, H. split; [now f_equal|reflexivity].
Qed.

Lemma rstrip_prefix (s : pystr) :
  exists ws, s = rstrip s ++ ws /\ forallb is_space ws = true.
Proof.
  unfold rstrip. destruct (lstrip_suffix (rev s)) as (ws & E & H).
  exists (rev ws). split; [|now rewrite forallb_is_space_rev].
  rewrite <- rev_app_distr, <- E. now rewrite rev_involutive.
Qed.

Lemma strip_rstrip (s : pystr) : strip (rstrip s) = strip s.
Proof.
  destruct (rstrip_prefix s) as (ws & E & H).
  rewrite E at 2. now rewrite strip_trailing_spaces.
Qed.

Lemma strip_all_spaces (s : pystr) : forallb is_space s = true -> strip s = [].
Proof. intros H. unfold strip. now rewrite lstrip_all_spaces. Qed.

(** A text without line boundary is one line. *)
Lemma splitlines_single (l cur : pystr) :
  no_linebreak l = true ->
  splitlines_from cur l = match cur ++ l with [] => [] | _ :: _ => [cur ++ l] end.
Proof.
  revert cur. induction l as [|c l IH]; intros cur H.
  - simpl. rewrite app_nil_r. reflexivity.
  - simpl in H. apply andb_true_iff in H as [Hc Hl].
    apply negb_true_iff in Hc.
    simpl. rewrite (linebreak_not_CR _ Hc), Hc, IH by assumption.
    now rewrite <- app_assoc.
Qed.

Lemma no_linebreak_app (a b : pystr) :
  no_linebreak a = true -> no_linebreak b = true -> no_linebreak (a ++ b) = true.
Proof. unfold no_linebreak. intros. rewrite forallb_app. now apply andb_true_iff. Qed.

Lemma startswith_app (p s : pystr) : startswith (p ++ s) p = true.
Proof. induction p as [|c p IH]; simpl; [reflexivity|]. now rewrite N.eqb_refl. Qed.

Lemma contains_here (s needle : pystr) :
  startswith s needle = true -> contains s needle = true.
Proof. intros H. destruct s; simpl; now rewrite H. Qed.

Lemma contains_app_l (a s needle : pystr) :
  contains s needle = true -> contains (a ++ s) needle = true.
Proof.
  intros H. induction a as [|c a IH]; simpl; [assumption|].
  rewrite IH. apply orb_true_r.
Qed.

Lemma contains_self_app (needle rest : pystr) :
  contains (needle ++ rest) needle = true.
Proof. apply contains_here, startswith_app. Qed.

Lemma contains_self (needle : pystr) : contains needle needle = true.
Proof. rewrite <- (app_nil_r needle) at 1. apply contains_self_app. Qed.

End TextFacts.

(** ** The registry *)
Section RegistryFacts.

Variable World : Type.

Lemma pystr_eqb_refl (a : pystr) : PyStr.eqb a a = true.
Proof. induction a as [|c a IH]; simpl; [reflexivity|]. now rewrite N.eqb_refl. Qed.

Lemma get_entry_set_entry (d : list (pystr * Tool World)) (key : pystr)
  (t : Tool World) :
  get_entry (set_entry d key t) key = Some t.
Proof.
  induction d as [|[k u] d IH]; simpl.
  - now rewrite pystr_eqb_refl.
  - destruct (PyStr.eqb k key) eqn:E; simpl; now rewrite E.
Qed.

(** A tool registered under a name is the one found under it: the last
    registration wins. *)
Lemma get_tool_register_tool (reg : ToolRegistry World) (tool : Tool World) :
  get_tool (register_tool reg tool) (VStr (name tool)) = inr (Some tool).
Proof. unfold get_tool, register_tool. simpl. now rewrite get_entry_set_entry. Qed.

End RegistryFacts.

(** ** De-fencing *)
Section FenceFacts.

Lemma fenced_shape (tag content : pystr) :
  exists body, fenced tag content = 96%N :: body ++ [96%N].
Proof.
  exists ([96%N; 96%N] ++ tag ++ LF :: content ++ LF :: [96%N; 96%N]).
  unfold fenced, fence. simpl. do 3 f_equal.
  rewrite <- !app_assoc. simpl. do 2 f_equal.
  rewrite <- app_assoc. reflexivity.
Qed.

Lemma drop_closing_fence_last (ls : list pystr) (closing : pystr) :
  startswith (strip closing) fence = true ->
  drop_closing_fence (ls ++ [closing]) = ls.
Proof.
  intros H. unfold drop_closing_fence.
  destruct (ls ++ [closing]) as [|l0 rest] eqn:El.
  { destruct ls; discriminate El. }
  rewrite <- El, last_last, H. apply removelast_last.
Qed.

Lemma raw_for_json_fenced (tag content : pystr) :
  no_linebreak tag = true -> only_lf content = true ->
  raw_for_json (fenced tag content) = strip content.
Proof.
  intros Ht Hc. unfold raw_for_json.
  change (startswith (fenced tag content) fence) with true. cbv iota.
  unfold splitlines, fenced.
  rewrite app_assoc, splitlines_line
    by (apply no_linebreak_app; [reflexivity|assumption]).
  destruct (@splitlines_body content [] fence Hc eq_refl) as (ls & E & Hn & J).
  rewrite E.
  change (drop_opening_fence (([] ++ fence ++ tag) :: ls ++ [fence]))
    with (ls ++ [fence]).
  rewrite drop_closing_fence_last by reflexivity.
  now rewrite J.
Qed.

Lemma raw_for_json_plain (raw : pystr) :
  startswith raw fence = false -> raw_for_json raw = raw.
Proof. intros H. unfold raw_for_json. now rewrite H. Qed.

End FenceFacts.

(** ** The reference decoder on the wire form of a final answer *)
Section DecoderFacts.

Variable parse_float : pystr -> pyfloat.

Lemma scan_string_plain (x acc rest : pystr) :
  forallb plain x = true ->
  scan_string acc (x ++ 34%N :: rest) = Some (acc ++ x, rest).
Proof.
  revert acc. induction x as [|c x IH]; intros acc H.
  - simpl. now rewrite app_nil_r.
  - simpl in H. apply andb_true_iff in H as [Hc Hx].
    unfold plain in Hc. apply andb_true_iff in Hc as [Hc H32].
    apply andb_true_iff in Hc as [H34 H92].
    apply negb_true_iff in H34, H92, H32.
    cbn [app scan_string]. rewrite H34, H92, H32, IH by assumption.
    now rewrite <- app_assoc.
Qed.

Lemma loads_final_answer_text (max_str_digits room : nat) (x : pystr) :
  forallb plain x = true ->
  loads parse_float max_str_digits (S room) (final_answer_text x)
  = inr (Some (VDict [(lit "tool", VNone); (lit "final_answer", VStr x)])).
Proof.
  intros Hx. unfold loads, final_answer_text.
  change (startswith (q "{'tool': null, 'final_answer': '" ++ x ++ q "'}")
            [65279%N]) with false. cbv iota.
  remember (2 * List.length (q "{'tool': null, 'final_answer': '" ++ x ++ q "'}")
            + 2) as fuel eqn:Ef.
  rewrite length_app in Ef.
  destruct fuel as [|[|[|[|fuel]]]]; try (simpl in Ef; lia). clear Ef.
  cbn. rewrite (@scan_string_plain x [] _ Hx). reflexivity.
Qed.

End DecoderFacts.

(** ** The loop *)
Section LoopFacts.

Context {World : Type} {lib : PyLib}.
Variable self : ToolAgent (World:=World).

Abbreviation chat st :=
  (router self (provider_name self) (model_name self) (messages st) (world st)).

(** Case analysis along the branches of the loop body. *)
Ltac body_cases st :=
  unfold iteration;
  let text := fresh "text" in
  let e := fresh "e" in
  let w1 := fresh "w1" in
  destruct (chat st) as [[text|e] w1];
  [ let tn := fresh "tool_name" in
    let ti := fresh "tool_input" in
    let t := fresh "t" in
    let D := fresh "D" in
    destruct (decide text) as [tn ti|t| |t|?] eqn:D;
    [ let tool := fresh "tool" in
      let G := fresh "G" in
      destruct (get_tool (tools self) tn) as [?|[tool|]] eqn:G;
      [ | let out := fresh "out" in
          let w2 := fresh "w2" in
          let R := fresh "R" in
          let O := fresh "O" in
          destruct (run tool ti w1) as [out w2] eqn:R;
          destruct (tool_result_of tn out) as [?|?] eqn:O | ]
    | | let T := fresh "T" in
        destruct (2 <=? S (invalid_json_attempts st)) eqn:T | | ]
  | ].

(** Proof rule for the loop: an invariant of the states at the head of the
    loop, and a property of every way out. *)
Lemma loop_rule (P : state -> Prop) (Q : report -> Prop) :
  (forall st st', P st -> iteration self st = Next st' -> P st') ->
  (forall st r, P st -> iteration self st = Stop r -> Q r) ->
  (forall st, P st ->
     Q {| result := Returned MAX_STEPS_MESSAGE; exit_by := ByBudget; final := st |}) ->
  forall n st, P st -> Q (loop self n st).
Proof.
  intros Hnext Hstop Hend. induction n as [|n IH]; intros st HP; simpl.
  - now apply Hend.
  - destruct (iteration self st) as [st'|r] eqn:E.
    + apply IH. eapply Hnext; eassumption.
    + eapply Hstop; eassumption.
Qed.

Lemma rounds_rule (P : state -> Prop) :
  (forall st st', P st -> iteration self st = Next st' -> P st') ->
  forall n st st', P st -> rounds self n st = Some st' -> P st'.
Proof.
  intros Hnext. induction n as [|n IH]; intros st st' HP; simpl.
  - now intros [= <-].
  - destruct (iteration self st) as [st1|r] eqn:E; [|discriminate].
    apply IH. eapply Hnext; eassumption.
Qed.

(** Every pass through the body sends the current conversation to the
    backend, once. *)
Lemma iteration_next_calls (st st' : state) :
  iteration self st = Next st' ->
  backend_calls st' = backend_calls st ++ [messages st].
Proof.
  body_cases st; intros H; inversion H; subst; reflexivity.
Qed.

Lemma iteration_stop_calls (st : state) (r : report) :
  iteration self st = Stop r ->
  backend_calls (final r) = backend_calls st ++ [messages st].
Proof.
  body_cases st; intros H; inversion H; subst; reflexivity.
Qed.

Lemma loop_calls_bound (n : nat) (st : state) :
  List.length (backend_calls (final (loop self n st)))
  <= List.length (backend_calls st) + n.
Proof.
  revert st. induction n as [|n IH]; intros st; simpl; [lia|].
  destruct (iteration self st) as [st'|r] eqn:E.
  - specialize (IH st'). apply iteration_next_calls in E.
    rewrite E, length_app in IH. simpl in IH. lia.
  - apply iteration_stop_calls in E. rewrite E, length_app. simpl. lia.
Qed.

Lemma rounds_loop (n : nat) (st st' : state) :
  rounds self n st = Some st' ->
  loop self n st
  = {| result := Returned MAX_STEPS_MESSAGE; exit_by := ByBudget; final := st' |}
  /\ List.length (backend_calls st') = List.length (backend_calls st) + n.
Proof.
  revert st. induction n as [|n IH]; intros st; simpl.
  - intros [= <-]. split; [reflexivity|lia].
  - destruct (iteration self st) as [st1|r] eqn:E; [|discriminate].
    intros H. destruct (IH _ H) as [L C]. split; [assumption|].
    apply iteration_next_calls in E. rewrite C, E, length_app. simpl. lia.
Qed.

Lemma loop_budget_rounds (n : nat) (st : state) :
  exit_by (loop self n st) = ByBudget ->
  rounds self n st = Some (final (loop self n st)).
Proof.
  revert st. induction n as [|n IH]; intros st; simpl; [reflexivity|].
  destruct (iteration self st) as [st1|r] eqn:E; [apply IH|].
  revert E. body_cases st; intros H; inversion H; subst; discriminate.
Qed.

Lemma iteration_returns (st : state) (text : pystr) (w1 : World) :
  chat st = (ChatResponse text, w1) ->
  forall t,
    (decide text = FinalAnswer t ->
     iteration self st
     = Stop {| result := Returned t; exit_by := ByFinalAnswer;
               final := seen st text w1 [] (invalid_json_attempts st) |})
    /\ (decide text = Opaque t ->
        iteration self st
        = Stop {| result := Returned t; exit_by := ByOpaque;
                  final := seen st text w1 [] (invalid_json_attempts st) |}).
Proof.
  intros H t. unfold iteration, seen. rewrite H.
  split; intros D; rewrite D, app_nil_r; reflexivity.
Qed.

Lemma iteration_malformed (st : state) (text : pystr) (w1 : World) :
  chat st = (ChatResponse text, w1) ->
  decide text = Malformed ->
  iteration self st
  = if 2 <=? S (invalid_json_attempts st) then
      Stop {| result := Returned (strip text); exit_by := ByMalformedThreshold;
              final := seen st text w1 [] (S (invalid_json_attempts st)) |}
    else
      Next (seen st text w1 [user_msg RETRY_MESSAGE]
              (S (invalid_json_attempts st))).
Proof.
  intros H D. unfold iteration, seen. rewrite H, D, app_nil_r. reflexivity.
Qed.

Lemma iteration_unavailable (st : state) (text : pystr) (w1 : World)
  (tool_name tool_input : value) :
  chat st = (ChatResponse text, w1) ->
  decide text = ToolCall tool_name tool_input ->
  get_tool (tools self) tool_name = inr None ->
  iteration self st
  = Next (seen st text w1 [user_msg (tool_unavailable tool_name)]
            (invalid_json_attempts st)).
Proof.
  intros H D G. unfold iteration, seen. rewrite H, D, G. reflexivity.
Qed.

Lemma iteration_tool (st : state) (text tool_result : pystr) (w1 w2 : World)
  (tool_name tool_input : value) (tool : Tool World) (out : tool_outcome) :
  chat st = (ChatResponse text, w1) ->
  decide text = ToolCall tool_name tool_input ->
  get_tool (tools self) tool_name = inr (Some tool) ->
  run tool tool_input w1 = (out, w2) ->
  tool_result_of tool_name out = inr tool_result ->
  iteration self st
  = Next (seen st text w2
            [user_msg (tool_message tool_name tool_input tool_result)]
            (invalid_json_attempts st)).
Proof.
  intros H D G R O. unfold iteration, seen. rewrite H, D, G, R, O. reflexivity.
Qed.

(** A handler that raises an exception which is no instance of
    [Exception] ends the invocation: the exception leaves [run_task]. *)
Lemma iteration_tool_error (st : state) (text : pystr) (w1 w2 : World)
  (tool_name tool_input : value) (tool : Tool World) (e : exn) :
  chat st = (ChatResponse text, w1) ->
  decide text = ToolCall tool_name tool_input ->
  get_tool (tools self) tool_name = inr (Some tool) ->
  run tool tool_input w1 = (ToolRaise e, w2) ->
  is_exception e = false ->
  iteration self st
  = Stop {| result := Raised e; exit_by := ByToolError;
            final := seen st text w2 [] (invalid_json_attempts st) |}.
Proof.
  intros H D G R O. unfold iteration, seen, tool_result_of.
  rewrite H, D, G, R, O, app_nil_r. reflexivity.
Qed.


Lemma decide_uncaught (text : pystr) (e : exn) :
  decide text = Uncaught e -> json_loads (raw_for_json (strip text)) = inl e.
Proof.
  unfold decide, classify.
  destruct (json_loads (raw_for_json (strip text))) as [e0|[v|]];
    [now intros [= <-]| |discriminate].
  destruct v; try discriminate.
  repeat match goal with
         | |- context [match ?x with _ => _ end] => destruct x
         | |- context [if ?x then _ else _] => destruct x
         end; discriminate.
Qed.

Lemma loop_raises (n : nat) (st : state) :
  raise_origin self (loop self n st).
Proof.
  apply loop_rule with (P := fun _ => True); [trivial| |now intros|trivial].
  intros st0 r _. unfold iteration.
  destruct (chat st0) as [[text|e0] w1] eqn:C.
  - destruct (decide text) as [tn ti|t| |t|e0] eqn:D.
    + destruct (get_tool (tools self) tn) as [e0|[tool|]] eqn:G.
      * intros [= <-] e [= <-]. right. left. split; [reflexivity|]. now exists tn.
      * destruct (run tool ti w1) as [out w2] eqn:R.
        destruct (tool_result_of tn out) as [e0|t] eqn:O; [|discriminate].
        intros [= <-] e [= <-]. do 3 right. split; [reflexivity|].
        destruct out as [t|e1]; [discriminate O|]. simpl in O.
        destruct (is_exception e1) eqn:I; [discriminate O|].
        injection O as <-. split; [assumption|].
        exists tn, tool, ti, w1, w2. now split.
      * discriminate.
    + intros [= <-] e [=].
    + destruct (2 <=? S (invalid_json_attempts st0)); [|discriminate].
      intros [= <-] e [=].
    + intros [= <-] e [=].
    + intros [= <-] e [= <-]. right. right. left. split; [reflexivity|].
      eexists. apply decide_uncaught. exact D.
  - intros [= <-] e [= <-]. left. split; [reflexivity|].
    exists (messages st0), (world st0), w1. exact C.
Qed.

Lemma count_malformed_snoc (ds : list decision) (d : decision) :
  count_malformed (ds ++ [d])
  = count_malformed ds + (if is_malformed d then 1 else 0).
Proof.
  unfold count_malformed. rewrite filter_app, length_app. simpl.
  destruct (is_malformed d); reflexivity.
Qed.

Lemma counter_next (st st' : state) :
  counter_inv st -> iteration self st = Next st' -> counter_inv st'.
Proof.
  intros [Hc Hlt]. body_cases st; intros H; inversion H; subst;
    unfold counter_inv; simpl; rewrite count_malformed_snoc; simpl;
    try apply Nat.leb_gt in T; lia.
Qed.

Lemma counter_stop (st : state) (r : report) :
  counter_inv st -> iteration self st = Stop r -> counter_post r.
Proof.
  intros [Hc Hlt]. body_cases st; intros H; inversion H; subst;
    unfold counter_post; simpl; try rewrite count_malformed_snoc; simpl;
    try apply Nat.leb_le in T;
    (split; [lia|split; [try discriminate; lia|intros; try reflexivity; lia]]).
Qed.

Lemma counter_rounds (n : nat) (st st' : state) :
  counter_inv st -> rounds self n st = Some st' -> counter_inv st'.
Proof. apply rounds_rule with (P := counter_inv). apply counter_next. Qed.

Lemma counter_loop (n : nat) (st : state) :
  counter_inv st -> counter_post (loop self n st).
Proof.
  apply loop_rule with (P := counter_inv).
  - apply counter_next.
  - apply counter_stop.
  - intros st0 [Hc Hlt]. split; [assumption|]. simpl. split; [discriminate|lia].
Qed.

End LoopFacts.

(** ** Step budget and malformed-output policy *)
Section Budget.

Context {World : Type} {lib : PyLib}.
Variable self : ToolAgent (World:=World).

(** C1, as the code has it: the counter [invalid_json_attempts] is never
    reset.  After any number of passes through the loop body, and at the end
    of every invocation, it equals the number of [Malformed] decisions taken
    so far, consecutive or not; the invocation ends on the
    malformed-threshold path exactly when that number reaches two, so an
    invocation with fewer than two [Malformed] decisions never ends on that
    path. *)
Theorem malformed_counter_counts_all (task : pystr) (w : World) :
  let r := run_task self task w in
  (forall k st, rounds self k (initial_state self task w) = Some st ->
     invalid_json_attempts st = count_malformed (decisions st))
  /\ invalid_json_attempts (final r) = count_malformed (decisions (final r))
  /\ (exit_by r = ByMalformedThreshold
      <-> count_malformed (decisions (final r)) = 2)
  /\ (count_malformed (decisions (final r)) < 2
      -> exit_by r <> ByMalformedThreshold).
Proof.
  assert (Init : counter_inv (initial_state self task w)).
  { split; simpl; [reflexivity|unfold count_malformed; simpl; lia]. }
  destruct (counter_loop self (Z.to_nat (max_steps self)) Init) as [Hc Hiff].
  cbv zeta. unfold run_task. split.
  { intros k st R. now destruct (counter_rounds self k Init R). }
  split; [assumption|]. split; [assumption|].
  intros Hlt Hex. apply Hiff in Hex. lia.
Qed.

(** C2, as the code has it: with a step budget [N >= 1] the backend is
    called at most [N] times; when [N] passes through the loop body complete
    without leaving the loop, the invocation returns the fixed text
    "Maximum tool-calling steps reached without a final answer." after
    exactly [N] calls; and only then does it end on the budget path. *)
Theorem step_budget_bounds_calls (task : pystr) (w : World) :
  (1 <= max_steps self)%Z ->
  let r := run_task self task w in
  let N := Z.to_nat (max_steps self) in
  List.length (backend_calls (final r)) <= N
  /\ (forall st', rounds self N (initial_state self task w) = Some st' ->
        r = {| result := Returned MAX_STEPS_MESSAGE; exit_by := ByBudget;
               final := st' |}
        /\ List.length (backend_calls st') = N)
  /\ (exit_by r = ByBudget ->
        rounds self N (initial_state self task w) = Some (final r)).
Proof.
  intros _. cbv zeta. unfold run_task. repeat split.
  - apply (loop_calls_bound self (Z.to_nat (max_steps self))
             (initial_state self task w)).
  - now apply rounds_loop.
  - apply rounds_loop in H. destruct H as [_ H]. exact H.
  - apply loop_budget_rounds.
Qed.

(** C10: with [max_steps <= 0] the loop body never runs: the backend is
    not called, the conversation stays as seeded, and the invocation
    returns the budget-exhausted text. *)
Theorem nonpositive_budget_no_call (task : pystr) (w : World) :
  (max_steps self <= 0)%Z ->
  run_task self task w
  = {| result := Returned MAX_STEPS_MESSAGE; exit_by := ByBudget;
       final := initial_state self task w |}
  /\ backend_calls (final (run_task self task w)) = [].
Proof.
  intros H. unfold run_task.
  replace (Z.to_nat (max_steps self)) with 0
    by (destruct (max_steps self); simpl; lia).
  split; reflexivity.
Qed.

End Budget.

(** ** Replies and tool dispatch *)
Section Dispatch.

Context {World : Type} {lib : PyLib}.
Variable self : ToolAgent (World:=World).

Abbreviation chat st :=
  (router self (provider_name self) (model_name self) (messages st) (world st)).

Lemma decide_unparseable (text : pystr) :
  json_loads (raw_for_json (strip text)) = inr None -> decide text = Malformed.
Proof. intros H. unfold decide. now rewrite H. Qed.

Lemma decide_no_tool_key (text : pystr) (d : dict) :
  json_loads (raw_for_json (strip text)) = inr (Some (VDict d)) ->
  dict_has d (lit "tool") = false ->
  decide text
  = match nonempty_entry d (lit "final_answer") with
    | Some v => FinalAnswer (py_str v)
    | None =>
        match dict_get d (lit "error") with
        | Some e => FinalAnswer (py_str e)
        | None => Opaque (strip text)
        end
    end.
Proof.
  intros H T. unfold decide, classify, nonempty_entry. rewrite H, T. simpl.
  destruct (dict_get d (lit "final_answer")) as [v|]; [|reflexivity].
  destruct (truthy v); reflexivity.
Qed.

(** Two replies in a row that do not parse, none before them: the second
    one ends the invocation. *)
Lemma unparseable_twice_in_a_row (st : state) (n : nat) (t1 t2 : pystr)
  (w1 w2 : World) :
  invalid_json_attempts st = 0 ->
  chat st = (ChatResponse t1, w1) ->
  decide t1 = Malformed ->
  router self (provider_name self) (model_name self)
    ((messages st ++ [assistant_msg t1]) ++ [user_msg RETRY_MESSAGE]) w1
  = (ChatResponse t2, w2) ->
  decide t2 = Malformed ->
  let r := loop self (S (S n)) st in
  result r = Returned (strip t2)
  /\ exit_by r = ByMalformedThreshold
  /\ backend_calls (final r)
     = (backend_calls st ++ [messages st])
       ++ [(messages st ++ [assistant_msg t1]) ++ [user_msg RETRY_MESSAGE]].
Proof.
  intros H0 Ch1 D1 Ch2 D2. cbv zeta.
  change (loop self (S (S n)) st)
    with (match iteration self st with
          | Next st' => loop self (S n) st'
          | Stop r => r
          end).
  rewrite (iteration_malformed self st Ch1 D1), H0.
  simpl Nat.leb. cbv iota.
  change (loop self (S n) ?s)
    with (match iteration self s with
          | Next st' => loop self n st'
          | Stop r => r
          end).
  erewrite iteration_malformed; [|exact Ch2|exact D2].
  simpl. repeat split.
Qed.

(** C3, as the code has it: when the first two replies of the backend both
    fail to parse, and the budget allows two steps, the invocation ends
    right after the second reply, having called the backend exactly twice,
    and returns the second reply with its leading and trailing white space
    stripped. *)
Theorem two_unparseable_replies (task t1 t2 : pystr) (w w1 w2 : World) :
  (2 <= max_steps self)%Z ->
  router self (provider_name self) (model_name self)
    [system_msg (system_prompt self); user_msg task] w
  = (ChatResponse t1, w1) ->
  json_loads (raw_for_json (strip t1)) = inr None ->
  router self (provider_name self) (model_name self)
    [system_msg (system_prompt self); user_msg task;
     assistant_msg t1; user_msg RETRY_MESSAGE] w1
  = (ChatResponse t2, w2) ->
  json_loads (raw_for_json (strip t2)) = inr None ->
  let r := run_task self task w in
  result r = Returned (strip t2)
  /\ exit_by r = ByMalformedThreshold
  /\ List.length (backend_calls (final r)) = 2.
Proof.
  intros Hn Ch1 P1 Ch2 P2. cbv zeta. unfold run_task.
  destruct (Z.to_nat (max_steps self)) as [|[|n]] eqn:En; try lia.
  apply decide_unparseable in P1, P2.
  destruct (@unparseable_twice_in_a_row (initial_state self task w) n t1 t2
              w1 w2 eq_refl Ch1 P1 Ch2 P2) as (R & E & B).
  rewrite R, E, B. repeat split.
Qed.

(** C6, as the code has it: a reply that parses to a mapping without the
    key [tool] ends the invocation in that very step, and what is returned
    is, in this order of precedence: [str] of the entry [final_answer] when
    it is present and non-empty; else [str] of the entry [error] when it is
    present; else [raw], which is not the text of the assistant as it came
    but that text stripped of surrounding white space. *)
Theorem no_tool_key_precedence (st : state) (n : nat) (text : pystr)
  (w1 : World) (d : dict) :
  chat st = (ChatResponse text, w1) ->
  json_loads (raw_for_json (strip text)) = inr (Some (VDict d)) ->
  dict_has d (lit "tool") = false ->
  let r := loop self (S n) st in
  result r
  = Returned
      match nonempty_entry d (lit "final_answer") with
      | Some v => py_str v
      | None =>
          match dict_get d (lit "error") with
          | Some e => py_str e
          | None => strip text
          end
      end
  /\ backend_calls (final r) = backend_calls st ++ [messages st]
  /\ messages (final r) = messages st ++ [assistant_msg text].
Proof.
  intros C P T. cbv zeta. simpl loop.
  pose proof (decide_no_tool_key text P T) as D.
  destruct (iteration_returns self st C) with
    (t := match nonempty_entry d (lit "final_answer") with
          | Some v => py_str v
          | None => match dict_get d (lit "error") with
                    | Some e => py_str e
                    | None => strip text
                    end
          end) as [HF HO].
  destruct (nonempty_entry d (lit "final_answer")) as [v|].
  - rewrite (HF D). simpl. now rewrite app_nil_r.
  - destruct (dict_get d (lit "error")) as [e|].
    + rewrite (HF D). simpl. now rewrite app_nil_r.
    + rewrite (HO D). simpl. now rewrite app_nil_r.
Qed.

Lemma first_reply_final_answer (task text x : pystr) (w w1 : World) :
  (1 <= max_steps self)%Z ->
  router self (provider_name self) (model_name self)
    [system_msg (system_prompt self); user_msg task] w
  = (ChatResponse text, w1) ->
  decide text = FinalAnswer x ->
  let r := run_task self task w in
  result r = Returned x
  /\ exit_by r = ByFinalAnswer
  /\ List.length (backend_calls (final r)) = 1.
Proof.
  intros Hn C D. cbv zeta. unfold run_task.
  destruct (Z.to_nat (max_steps self)) as [|n] eqn:En; [lia|].
  simpl loop.
  destruct (iteration_returns self (initial_state self task w) C x) as [HF _].
  rewrite (HF D). simpl. repeat split.
Qed.

(** C9: when the first reply parses to the mapping
    [{"tool": null, "final_answer": x}] with [x] a non-empty string, the
    invocation returns [x] after exactly one call of the backend. *)
Theorem final_answer_after_one_call (task text x : pystr) (w w1 : World) :
  (1 <= max_steps self)%Z ->
  router self (provider_name self) (model_name self)
    [system_msg (system_prompt self); user_msg task] w
  = (ChatResponse text, w1) ->
  json_loads (raw_for_json (strip text))
  = inr (Some (VDict [(lit "tool", VNone); (lit "final_answer", VStr x)])) ->
  x <> [] ->
  let r := run_task self task w in
  result r = Returned x
  /\ exit_by r = ByFinalAnswer
  /\ List.length (backend_calls (final r)) = 1.
Proof.
  intros Hn C P Hx. apply first_reply_final_answer with (text := text) (w1 := w1);
    try assumption.
  unfold decide. rewrite P. destruct x; [contradiction|reflexivity].
Qed.

(** C7, as the code has it: when the handler of a dispatched tool raises
    an exception that is an instance of [Exception], the body catches it and
    turns it into the text [Tool '...' raised an error: ...]; a user message
    holding the tool name, the input supplied and that text is appended
    after the reply, the counter is left alone, and the loop goes on with
    its next pass.  An exception of the handler that is no instance of
    [Exception] is not caught: it leaves the invocation, the reply being the
    last message appended.  An exception that leaves an invocation was
    raised by the backend, by the registry lookup, by the JSON decoder, or
    by a handler, and in that last case it is no instance of [Exception]. *)
Theorem tool_failure_is_contained (st : state) (n : nat) (text : pystr)
  (w1 w2 : World) (tool_name tool_input : value) (tool : Tool World) (e : exn) :
  chat st = (ChatResponse text, w1) ->
  decide text = ToolCall tool_name tool_input ->
  get_tool (tools self) tool_name = inr (Some tool) ->
  run tool tool_input w1 = (ToolRaise e, w2) ->
  let error_text := tool_raised tool_name e in
  let note := tool_message tool_name tool_input error_text in
  (if is_exception e then
     exists st',
       iteration self st = Next st'
       /\ loop self (S n) st = loop self n st'
       /\ messages st' = messages st ++ [assistant_msg text; user_msg note]
       /\ invalid_json_attempts st' = invalid_json_attempts st
   else
     let r := loop self (S n) st in
     result r = Raised e
     /\ exit_by r = ByToolError
     /\ messages (final r) = messages st ++ [assistant_msg text]
     /\ world (final r) = w2)
  /\ contains note (py_str tool_name) = true
  /\ contains note (py_str tool_input) = true
  /\ contains note error_text = true
  /\ contains error_text (exn_str e) = true
  /\ (forall task w, raise_origin self (run_task self task w)).
Proof.
  intros C D G R. cbv zeta. split; [|repeat split].
  - destruct (is_exception e) eqn:I.
    + assert (O : tool_result_of tool_name (ToolRaise e)
                  = inr (tool_raised tool_name e)) by (simpl; now rewrite I).
      eexists. pose proof (iteration_tool self st C D G R O) as E.
      split; [exact E|]. split; [simpl; now rewrite E|].
      simpl. rewrite <- app_assoc. split; reflexivity.
    + simpl loop. rewrite (iteration_tool_error self st C D G R I). simpl.
      rewrite app_nil_r. repeat split.
  - unfold tool_message. apply contains_app_l, contains_self_app.
  - unfold tool_message. do 3 apply contains_app_l. apply contains_self_app.
  - unfold tool_message. do 6 apply contains_app_l. apply contains_self.
  - unfold tool_raised. do 3 apply contains_app_l. apply contains_self.
  - intros task w. apply loop_raises.
Qed.


End Dispatch.

(** ** Shape of the conversation *)
Section Conversation.

Context {World : Type} {lib : PyLib}.
Variable self : ToolAgent (World:=World).

Lemma other_other (r : role) : other (other r) = r.
Proof. destruct r; reflexivity. Qed.

Lemma alternates_app (l1 l2 : list message) (expect : role) :
  alternates expect (l1 ++ l2)
  = alternates expect l1
    && alternates (if Nat.even (List.length l1) then expect else other expect) l2.
Proof.
  revert expect. induction l1 as [|m l1 IH]; intros expect; [reflexivity|].
  cbn [app alternates List.length]. rewrite IH, <- andb_assoc. do 2 f_equal.
  rewrite Nat.even_succ, <- Nat.negb_even.
  destruct (Nat.even (List.length l1)); simpl; [reflexivity|now rewrite other_other].
Qed.

Lemma alternates_no_system (l : list message) (expect : role) :
  expect <> System -> alternates expect l = true ->
  filter (fun m => role_eqb (msg_role m) System) l = [].
Proof.
  revert expect. induction l as [|m l IH]; intros expect Hne H; [reflexivity|].
  simpl in H. apply andb_true_iff in H as [Hm Hl]. simpl.
  destruct (msg_role m), expect; try discriminate; try contradiction; simpl;
    (eapply IH; [|exact Hl]; discriminate).
Qed.

Lemma conversation_one_system (c : list message) :
  conversation_ok c = true -> count_system c = 1.
Proof.
  destruct c as [|m body]; [discriminate|]. simpl.
  intros H. apply andb_true_iff in H as [Hm Hb].
  unfold count_system. simpl. rewrite Hm. simpl.
  rewrite (alternates_no_system body (expect := User)); [reflexivity|discriminate|exact Hb].
Qed.

Lemma growing_snoc (l : list (list message)) (a b : list message) :
  growing (l ++ [a]) -> is_prefix a b -> growing ((l ++ [a]) ++ [b]).
Proof.
  intros G Hab. induction l as [|x l IH].
  - simpl. repeat split. exact Hab.
  - cbn [app growing] in G |- *. destruct G as [Hx G]. split; [|now apply IH].
    destruct l as [|y l]; simpl in *; assumption.
Qed.

Lemma is_prefix_refl (a : list message) : is_prefix a a.
Proof. exists []. now rewrite app_nil_r. Qed.

Lemma is_prefix_app (a extra : list message) : is_prefix a (a ++ extra).
Proof. now exists extra. Qed.

Lemma waiting_ok (st : state (World:=World)) (seed : list message) :
  conversation_inv seed st -> conversation_ok (messages st) = true.
Proof.
  intros ((sys & body & -> & Hs & Ha & _) & _). simpl. now rewrite Hs, Ha.
Qed.

Lemma hd_error_snoc (l : list (list message)) (a b seed : list message) :
  hd_error (l ++ [a]) = Some seed -> hd_error ((l ++ [a]) ++ [b]) = Some seed.
Proof. destruct l; simpl; auto. Qed.

(** Appending the reply, then possibly one user message, keeps the shape. *)
Lemma extend_ok (msgs : list message) (text : pystr) :
  (exists sys body,
     msgs = sys :: body /\ msg_role sys = System
     /\ alternates User body = true /\ Nat.even (List.length body) = false) ->
  conversation_ok (msgs ++ [assistant_msg text]) = true
  /\ forall note,
       exists sys body,
         (msgs ++ [assistant_msg text]) ++ [user_msg note] = sys :: body
         /\ msg_role sys = System /\ alternates User body = true
         /\ Nat.even (List.length body) = false.
Proof.
  intros (sys & body & -> & Hs & Ha & He). split.
  - simpl. rewrite Hs, alternates_app, Ha, He. reflexivity.
  - intros note. exists sys, ((body ++ [assistant_msg text]) ++ [user_msg note]).
    split; [reflexivity|]. split; [assumption|].
    rewrite <- app_assoc, alternates_app, Ha, He. split; [reflexivity|].
    rewrite length_app. simpl.
    rewrite Nat.add_comm. simpl. exact He.
Qed.

Lemma conversation_next (seed : list message) (st st' : state) :
  conversation_inv seed st -> iteration self st = Next st' ->
  conversation_inv seed st'.
Proof.
  intros Inv. pose proof (waiting_ok Inv) as Ok.
  destruct Inv as (W & F & G & Hd).
  intros E. pose proof (iteration_next_calls self st E) as Bc.
  assert (exists text note,
            messages st' = (messages st ++ [assistant_msg text]) ++ [user_msg note])
    as (text & note & Hm).
  { revert E. unfold iteration.
    destruct (router self (provider_name self) (model_name self)
                (messages st) (world st)) as [[text|e] w1]; [|discriminate].
    destruct (decide text) as [tn ti|t| |t|e]; try discriminate.
    - destruct (get_tool (tools self) tn) as [e|[tool|]]; [discriminate| |].
      + destruct (run tool ti w1) as [out w2].
        destruct (tool_result_of tn out) as [e|tool_result]; [discriminate|].
        intros [= <-]. eexists _, _. reflexivity.
      + intros [= <-]. eexists _, _. reflexivity.
    - destruct (2 <=? S (invalid_json_attempts st)); [discriminate|].
      intros [= <-]. eexists _, _. reflexivity. }
  unfold conversation_inv. rewrite Bc, Hm. repeat split.
  - apply (extend_ok text W).
  - apply Forall_app. split; [assumption|]. constructor; [assumption|constructor].
  - apply growing_snoc; [assumption|]. rewrite <- app_assoc. apply is_prefix_app.
  - now apply hd_error_snoc.
Qed.

Lemma stop_messages (st : state) (r : report) :
  iteration self st = Stop r ->
  messages (final r) = messages st
  \/ exists text, messages (final r) = messages st ++ [assistant_msg text].
Proof.
  unfold iteration.
  destruct (router self (provider_name self) (model_name self)
              (messages st) (world st)) as [[text|e] w1].
  - intros E. right. exists text. revert E.
    destruct (decide text) as [tn ti|t| |t|e].
    + destruct (get_tool (tools self) tn) as [e|[tool|]]; [| |discriminate].
      * now intros [= <-].
      * destruct (run tool ti w1) as [out w2].
        destruct (tool_result_of tn out) as [e|tool_result]; [|discriminate].
        now intros [= <-].
    + now intros [= <-].
    + destruct (2 <=? S (invalid_json_attempts st)); [|discriminate].
      now intros [= <-].
    + now intros [= <-].
    + now intros [= <-].
  - intros [= <-]. now left.
Qed.

Lemma conversation_stop (seed : list message) (st : state) (r : report) :
  conversation_inv seed st -> iteration self st = Stop r ->
  conversation_post seed r.
Proof.
  intros Inv E. pose proof (waiting_ok Inv) as Ok.
  destruct Inv as (W & F & G & Hd).
  pose proof (iteration_stop_calls self st E) as Bc.
  unfold conversation_post, history. rewrite Bc.
  destruct (stop_messages st E) as [->|[text ->]]; repeat split.
  - now apply hd_error_snoc.
  - apply Forall_app. split; [apply Forall_app; split|];
      try assumption; (constructor; [assumption|constructor]).
  - apply growing_snoc; [assumption|apply is_prefix_refl].
  - now apply hd_error_snoc.
  - apply Forall_app. split; [apply Forall_app; split|]; try assumption;
      (constructor; [|constructor]); [assumption|apply (extend_ok text W)].
  - apply growing_snoc; [assumption|apply is_prefix_app].
Qed.

Lemma conversation_loop (seed : list message) (n : nat) (st : state) :
  conversation_inv seed st -> conversation_post seed (loop self n st).
Proof.
  apply loop_rule with (P := conversation_inv seed).
  - apply conversation_next.
  - apply conversation_stop.
  - intros st0 Inv. pose proof (waiting_ok Inv) as Ok.
    destruct Inv as (W & F & G & Hd). unfold conversation_post, history. simpl.
    repeat split; try assumption.
    apply Forall_app. split; [assumption|]. constructor; [assumption|constructor].
Qed.

Lemma conversation_ok_prefix (p c : list message) :
  is_prefix p c -> p <> [] -> conversation_ok c = true ->
  conversation_ok p = true.
Proof.
  intros [suffix ->] Hp. destruct p as [|m body]; [contradiction|]. simpl.
  rewrite alternates_app. intros H.
  apply andb_true_iff in H as [Hm H]. apply andb_true_iff in H as [Hb _].
  now rewrite Hm, Hb.
Qed.

(** C4: the conversations of an invocation (each one sent to the backend,
    then the one it ends with) start with the seed [system, user(task)];
    every one of them, and every stage it went through while it was built,
    has exactly one system message, in first place, followed by user and
    assistant messages in turn, user first; and every one is extended by the
    next, so that nothing once appended is changed or removed. *)
Theorem conversation_alternates_append_only (task : pystr) (w : World) :
  let r := run_task self task w in
  hd_error (history r) = Some [system_msg (system_prompt self); user_msg task]
  /\ Forall (fun c =>
               forall p, is_prefix p c -> p <> [] ->
                 conversation_ok p = true /\ count_system p = 1)
       (history r)
  /\ growing (history r).
Proof.
  cbv zeta.
  destruct (@conversation_loop [system_msg (system_prompt self); user_msg task]
              (Z.to_nat (max_steps self)) (initial_state self task w))
    as (Hd & F & G).
  { unfold conversation_inv. simpl. repeat split; try constructor.
    eexists _, _. repeat split. }
  split; [exact Hd|]. split; [|exact G].
  eapply Forall_impl; [|exact F]. intros c Hc p Hpre Hp.
  pose proof (conversation_ok_prefix Hpre Hp Hc) as Ok.
  split; [exact Ok|]. now apply conversation_one_system.
Qed.

End Conversation.

(** ** Fenced replies *)
Section Fenced.

Context {lib : PyLib}.

Lemma classify_raw (raw raw' : pystr) (parsed : option value) :
  classify raw parsed
  = match classify raw' parsed with
    | Opaque _ => Opaque raw
    | d => d
    end.
Proof.
  unfold classify. destruct parsed as [[| | | | | |d]|]; try reflexivity.
  destruct (negb (dict_has d (lit "tool"))).
  - destruct (dict_get d (lit "final_answer")) as [v|];
      [destruct (truthy v)|]; try reflexivity;
      destruct (dict_get d (lit "error")); reflexivity.
  - destruct (dict_get d (lit "tool")) as [[| | | | | |]|];
      try reflexivity;
      destruct (dict_get d (lit "final_answer")) as [v|];
      try destruct (truthy v); reflexivity.
Qed.

Lemma decide_raw (text text' : pystr) :
  json_loads (raw_for_json (strip text)) = json_loads (raw_for_json (strip text')) ->
  decide text
  = match decide text' with
    | Opaque _ => Opaque (strip text)
    | d => d
    end.
Proof.
  intros H. unfold decide. rewrite H.
  destruct (json_loads (raw_for_json (strip text'))) as [e|parsed];
    [reflexivity|apply classify_raw].
Qed.

(** The lines of a stripped reply that starts with a fence and ends with a
    line that is a fence: what is left without the two is handed over. *)
Lemma raw_for_json_lines (raw tag closing : pystr) (body : list pystr) :
  splitlines raw = (fence ++ tag) :: body ++ [closing] ->
  startswith (strip closing) fence = true ->
  raw_for_json raw = strip (join [LF] body).
Proof.
  intros L Hc. unfold raw_for_json.
  destruct (splitlines_first raw [] L) as (p & s' & Hp & ->).
  cbn [app] in Hp. subst p. rewrite L, <- app_assoc, startswith_app.
  change (drop_opening_fence ((fence ++ tag) :: body ++ [closing]))
    with (body ++ [closing]).
  now rewrite drop_closing_fence_last.
Qed.

(** C5, as the code has it: take a reply that, stripped of surrounding
    white space, is made of an opening fence line with a language tag, the
    lines of a content, and a last line that starts with a fence once it is
    stripped itself (the fence may be indented, or followed by more text).
    The text handed to the decoder is the content, its lines joined by line
    feeds, and stripped.  When that content does not itself begin with a
    fence, the decision is the one for the content: the same tool call,
    final answer or [Malformed]; where the content gives [Opaque], the
    fenced reply gives [Opaque] too, with the whole stripped reply as its
    text.  The same holds of every unfenced text that the decoder reads as
    it reads the content, which is so of the content with other line
    boundaries wherever the decoder makes no difference between them. *)
Theorem fenced_reply_decision (text tag closing : pystr) (body : list pystr) :
  splitlines (strip text) = (fence ++ tag) :: body ++ [closing] ->
  startswith (strip closing) fence = true ->
  let content := join [LF] body in
  startswith (strip content) fence = false ->
  raw_for_json (strip text) = raw_for_json (strip content)
  /\ decide text
     = match decide content with
       | Opaque _ => Opaque (strip text)
       | d => d
       end
  /\ forall original,
       startswith (strip original) fence = false ->
       json_loads (strip original) = json_loads (strip content) ->
       decide text
       = match decide original with
         | Opaque _ => Opaque (strip text)
         | d => d
         end.
Proof.
  intros L Hc content Hs.
  assert (R : raw_for_json (strip text) = raw_for_json (strip content)).
  { rewrite (raw_for_json_lines _ _ _ L Hc). now rewrite raw_for_json_plain. }
  split; [exact R|]. split.
  - apply decide_raw. now rewrite R.
  - intros original Ho Hd. apply decide_raw.
    rewrite R, !raw_for_json_plain by assumption. now symmetry.
Qed.

(** So it is for the block written with line feeds around a content whose
    own line boundaries are line feeds: the decision is the one for the
    content as it is written. *)
Lemma fenced_block_decision (tag content : pystr) :
  no_linebreak tag = true ->
  only_lf content = true ->
  startswith (strip content) fence = false ->
  decide (fenced tag content)
  = match decide content with
    | Opaque _ => Opaque (fenced tag content)
    | d => d
    end.
Proof.
  intros Ht Hc Hs.
  assert (St : strip (fenced tag content) = fenced tag content).
  { destruct (fenced_shape tag content) as [body ->].
    rewrite <- (app_nil_r (96%N :: body ++ [96%N])) at 1.
    now apply (@strip_padded [] [] body 96%N 96%N). }
  replace (Opaque (fenced tag content))
    with (Opaque (strip (fenced tag content))) by now rewrite St.
  apply decide_raw.
  rewrite St, raw_for_json_fenced, raw_for_json_plain by assumption.
  reflexivity.
Qed.

(** A text whose only line boundaries are line feeds is such an unfenced
    text for its own lines. *)
Lemma only_lf_read_alike (original : pystr) :
  only_lf original = true ->
  json_loads (strip original)
  = json_loads (strip (join [LF] (splitlines original))).
Proof. intros H. now rewrite strip_join_splitlines. Qed.

End Fenced.

(** ** The wire form of a final answer, under the reference decoder *)
#[local] Existing Instance reference_lib.

Section Wire.

Context {World : Type}.
Variable self : ToolAgent (World:=World).

Lemma final_answer_text_shape (x : pystr) :
  exists body, final_answer_text x = 123%N :: body ++ [125%N].
Proof.
  exists (skipn 1 (q "{'tool': null, 'final_answer': '") ++ x ++ [34%N]).
  unfold final_answer_text. cbn. now rewrite <- app_assoc.
Qed.

Lemma strip_final_answer_text (x : pystr) :
  strip (final_answer_text x) = final_answer_text x.
Proof.
  destruct (final_answer_text_shape x) as [body ->].
  rewrite <- (app_nil_r (123%N :: body ++ [125%N])) at 1.
  now apply (@strip_padded [] [] body 123%N 125%N).
Qed.

(** The reply [{"tool": null, "final_answer": "x"}], for a non-empty [x]
    that needs no escape, makes the invocation return [x] after one call. *)
Lemma wire_final_answer (task x : pystr) (w w1 : World) :
  (1 <= max_steps self)%Z ->
  router self (provider_name self) (model_name self)
    [system_msg (system_prompt self); user_msg task] w
  = (ChatResponse (final_answer_text x), w1) ->
  forallb plain x = true ->
  x <> [] ->
  let r := run_task self task w in
  result r = Returned x
  /\ exit_by r = ByFinalAnswer
  /\ List.length (backend_calls (final r)) = 1.
Proof.
  intros Hn C Hp Hx.
  apply first_reply_final_answer with (text := final_answer_text x) (w1 := w1);
    try assumption.
  unfold decide. rewrite strip_final_answer_text.
  rewrite raw_for_json_plain by reflexivity.
  change (json_loads (final_answer_text x))
    with (loads float_of_literal 4300 993 (final_answer_text x)).
  rewrite loads_final_answer_text by assumption.
  destruct x; [contradiction|reflexivity].
Qed.

End Wire.

(** ** The properties at work on the scripted backend *)
Import Sample.

(** C1, counterexample: a malformed reply, a well-formed call of an unknown
    tool, then a second malformed reply.  No two [Malformed] decisions are
    neighbours, the counter still stands at one after the well-formed
    reply, and the invocation ends on the malformed-threshold path. *)
Lemma counter_survives_wellformed_reply :
  let r := go 4 [lit "not json"; q "{'tool': 'nope'}"; lit "still not json"] in
  decisions (final r)
  = [Malformed; ToolCall (VStr (lit "nope")) (VDict []); Malformed]
  /\ no_adjacent_malformed (decisions (final r)) = true
  /\ option_map (@invalid_json_attempts script)
       (rounds (agent 4) 2
          (initial_state (agent 4) task
             [lit "not json"; q "{'tool': 'nope'}"; lit "still not json"]))
     = Some 1
  /\ exit_by r = ByMalformedThreshold
  /\ result r = Returned (lit "still not json").
Proof. vm_compute. repeat split. Qed.

(** C2, counterexample: with a budget of one step and a reply that calls a
    registered tool, the invocation ends on the budget path after one call,
    and the text it returns is not the one the specification quotes. *)
Lemma budget_message_is_not_the_quoted_one :
  let r := go 1 [q "{'tool': 'echo', 'tool_input': {'a': 1}}"] in
  exit_by r = ByBudget
  /\ List.length (backend_calls (final r)) = 1
  /\ result r
     = Returned (lit "Maximum tool-calling steps reached without a final answer.")
  /\ result r
     <> Returned (lit "maximum steps reached without a final answer").
Proof. vm_compute. repeat split. discriminate. Qed.

(** The theorem at work with a budget of two steps and two tool calls. *)
Lemma step_budget_bounds_calls_witness :
  let replies := [q "{'tool': 'echo', 'tool_input': {'a': 1}}";
                  q "{'tool': 'broken'}"; lit "never sent"] in
  (1 <= max_steps (agent 2))%Z
  /\ List.length (backend_calls (final (go 2 replies))) <= 2
  /\ result (go 2 replies) = Returned MAX_STEPS_MESSAGE.
Proof.
  cbv zeta. split; [vm_compute; discriminate|].
  destruct (@step_budget_bounds_calls script reference_lib (agent 2) task
              [q "{'tool': 'echo', 'tool_input': {'a': 1}}";
               q "{'tool': 'broken'}"; lit "never sent"])
    as (Hle & Hrounds & _).
  { vm_compute; discriminate. }
  split; [exact Hle|].
  destruct (Hrounds _ eq_refl) as [Hr _].
  unfold go. now rewrite Hr.
Defined.

(** The theorem at work with a negative budget. *)
Lemma nonpositive_budget_no_call_witness :
  (max_steps (agent (-3)) <= 0)%Z
  /\ backend_calls (final (go (-3) [lit "never sent"])) = [].
Proof.
  split; [vm_compute; discriminate|].
  apply (@nonpositive_budget_no_call script reference_lib (agent (-3))).
  vm_compute; discriminate.
Defined.

(** C3, counterexample: two replies that do not parse, the second ending
    with a line feed.  What is returned is the second reply without that
    line feed, not the reply as the backend gave it. *)
Lemma second_reply_is_stripped :
  let t1 := lit "not json" in
  let t2 := lit "not json" ++ [LF] in
  decide (lib := reference_lib) t1 = Malformed
  /\ decide (lib := reference_lib) t2 = Malformed
  /\ result (go 4 [t1; t2]) = Returned (lit "not json")
  /\ result (go 4 [t1; t2]) <> Returned t2.
Proof. vm_compute. repeat split. discriminate. Qed.

(** The theorem at work on two replies that are no JSON. *)
Lemma two_unparseable_replies_witness :
  let r := go 4 [lit "not json"; lit " not json either "; lit "never sent"] in
  result r = Returned (lit "not json either")
  /\ exit_by r = ByMalformedThreshold
  /\ List.length (backend_calls (final r)) = 2.
Proof.
  apply (@two_unparseable_replies script reference_lib (agent 4) task
           (lit "not json") (lit " not json either ")
           [lit "not json"; lit " not json either "; lit "never sent"]
           [lit " not json either "; lit "never sent"]
           [lit "never sent"]);
    vm_compute; first [reflexivity|discriminate].
Defined.

(** C5, counterexample, on two replies.  The content [[1]] is [Opaque]
    with or without the fence, but the text of the decision, which is what
    the invocation returns, is the whole reply, fence included.  And a form
    feed between the tokens of a content is no JSON white space, so that
    the bare content does not parse, while inside the fence it is a line
    boundary, which the loop replaces by a line feed: the same content then
    gives a final answer. *)
Lemma fence_changes_the_decision :
  let content := q "{'final_answer':" ++ [12%N] ++ q "'hi'}" in
  (decide (lib := reference_lib) (fenced (lit "json") (lit "[1]"))
   = Opaque (fenced (lit "json") (lit "[1]"))
   /\ decide (lib := reference_lib) (lit "[1]") = Opaque (lit "[1]")
   /\ result (go 4 [fenced (lit "json") (lit "[1]")])
      <> result (go 4 [lit "[1]"]))
  /\ (decide (lib := reference_lib) (fenced (lit "json") content)
      = FinalAnswer (lit "hi")
      /\ decide (lib := reference_lib) content = Malformed).
Proof. vm_compute. repeat split. discriminate. Qed.

(** Likewise, a content that is itself a fenced block loses one fence only,
    and what is left does not parse. *)
Lemma nested_fence_is_malformed :
  let content := fenced [] (q "{'final_answer': 'hi'}") in
  decide (lib := reference_lib) (fenced (lit "json") content) = Malformed
  /\ decide (lib := reference_lib) content = FinalAnswer (lit "hi").
Proof. vm_compute. split; reflexivity. Qed.

(** The theorem at work on a padded reply written with carriage return
    and line feed, whose closing fence is indented and followed by a word:
    it gives the final answer that the bare content gives. *)
Lemma fenced_reply_decision_witness :
  let original :=
    q "{'tool': null," ++ [CR; LF] ++ q " 'final_answer': 'hi'}" in
  let reply :=
    lit " " ++ fence ++ lit "json" ++ [CR; LF] ++ original ++ [CR; LF]
    ++ lit "  ``` end" ++ [LF] in
  decide reply
  = match decide original with
    | Opaque _ => Opaque (strip reply)
    | d => d
    end
  /\ decide original = FinalAnswer (lit "hi").
Proof.
  cbv zeta.
  destruct (@fenced_reply_decision reference_lib
              (lit " " ++ fence ++ lit "json" ++ [CR; LF]
               ++ (q "{'tool': null," ++ [CR; LF] ++ q " 'final_answer': 'hi'}")
               ++ [CR; LF] ++ lit "  ``` end" ++ [LF])
              (lit "json") (lit "  ``` end")
              [q "{'tool': null,"; q " 'final_answer': 'hi'}"]
              eq_refl eq_refl eq_refl) as (_ & _ & H).
  split; [apply H|]; vm_compute; reflexivity.
Defined.

(** A reply that is an integer of 4301 digits: [json.loads] raises a
    [ValueError] that is no [JSONDecodeError], and it leaves the
    invocation. *)
Example decoder_error_leaves_run_task :
  let r := go 4 [repeat 49%N 4301; lit "never sent"] in
  result r = Raised (too_many_digits 4300 4301)
  /\ exit_by r = ByDecoderError
  /\ world (final r) = [lit "never sent"].
Proof. vm_compute. repeat split. Qed.

(** C6, counterexample: a mapping without the keys [tool], [final_answer]
    and [error], sent with white space around it.  What the invocation
    returns is not the text of the assistant but that text stripped. *)
Lemma padded_mapping_is_returned_stripped :
  let reply := lit "  " ++ q "{'note': 1}" ++ [LF] in
  @json_loads reference_lib (raw_for_json (strip reply))
  = inr (Some (VDict [(lit "note", VInt 1)]))
  /\ result (go 4 [reply]) = Returned (q "{'note': 1}")
  /\ result (go 4 [reply]) <> Returned reply.
Proof. vm_compute. repeat split. discriminate. Qed.

(** The theorem at work on a reply with an empty [final_answer] and an
    [error]: the error text is what is returned. *)
Lemma no_tool_key_precedence_witness :
  let reply := q "{'final_answer': '', 'error': 'no such file'}" in
  let r := loop (agent 4) 4 (initial_state (agent 4) task [reply]) in
  result r = Returned (lit "no such file")
  /\ backend_calls (final r) = [messages (initial_state (agent 4) task [reply])]
  /\ messages (final r)
     = messages (initial_state (agent 4) task [reply]) ++ [assistant_msg reply].
Proof.
  apply (@no_tool_key_precedence script reference_lib (agent 4)
           (initial_state (agent 4) task
              [q "{'final_answer': '', 'error': 'no such file'}"])
           3 (q "{'final_answer': '', 'error': 'no such file'}") []
           [(lit "final_answer", VStr []);
            (lit "error", VStr (lit "no such file"))]);
    vm_compute; reflexivity.
Defined.

(** The theorem at work on the reply [{"tool": null, "final_answer": "hi"}]. *)
Lemma final_answer_after_one_call_witness :
  let r := go 4 [q "{'tool': null, 'final_answer': 'hi'}"; lit "never sent"] in
  result r = Returned (lit "hi")
  /\ exit_by r = ByFinalAnswer
  /\ List.length (backend_calls (final r)) = 1.
Proof.
  apply (@final_answer_after_one_call script reference_lib (agent 4) task
           (q "{'tool': null, 'final_answer': 'hi'}") (lit "hi")
           [q "{'tool': null, 'final_answer': 'hi'}"; lit "never sent"]
           [lit "never sent"]);
    vm_compute; first [reflexivity|discriminate].
Defined.

(** C7, counterexample: the handler of the tool [wait] is interrupted.
    [KeyboardInterrupt] is no instance of [Exception], the body does not
    catch it, and it leaves the invocation: no message about the failure is
    appended and the backend is not called again. *)
Lemma handler_interrupt_leaves_run_task :
  let reply := q "{'tool': 'wait', 'tool_input': {}}" in
  let self := agent_with interrupted 4 in
  let r := run_task self task [reply; lit "never sent"] in
  get_tool (tools self) (VStr (lit "wait")) = inr (Some interrupted)
  /\ run interrupted (VDict []) [lit "never sent"]
     = (ToolRaise KeyboardInterrupt, [lit "never sent"])
  /\ result r = Raised KeyboardInterrupt
  /\ exit_by r = ByToolError
  /\ messages (final r)
     = [system_msg (system_prompt self); user_msg task; assistant_msg reply]
  /\ world (final r) = [lit "never sent"].
Proof. vm_compute. repeat split. Qed.

(** The theorem at work on a call of the tool that always fails. *)
Lemma tool_failure_is_contained_witness :
  let reply := q "{'tool': 'broken', 'tool_input': {'x': 1}}" in
  let st := initial_state (agent 4) task [reply; lit "next"] in
  let note :=
    lit "Result from tool 'broken' with input {'x': 1}:" ++ [LF]
    ++ lit "Tool 'broken' raised an error: boom" in
  exists st',
    iteration (agent 4) st = Next st'
    /\ loop (agent 4) 2 st = loop (agent 4) 1 st'
    /\ messages st' = messages st ++ [assistant_msg reply; user_msg note]
    /\ invalid_json_attempts st' = invalid_json_attempts st.
Proof.
  apply (@tool_failure_is_contained script reference_lib (agent 4)
           (initial_state (agent 4) task
              [q "{'tool': 'broken', 'tool_input': {'x': 1}}"; lit "next"])
           1 (q "{'tool': 'broken', 'tool_input': {'x': 1}}")
           [lit "next"] [lit "next"]
           (VStr (lit "broken")) (VDict [(lit "x", VInt 1)]) broken
           (exc "RuntimeError" (lit "boom")));
    vm_compute; reflexivity.
Defined.


(** * Further properties *)

(** ** [ToolRegistry] *)
Section RegistryMore.

Variable World : Type.

Lemma pystr_eqb_eq (a b : pystr) : PyStr.eqb a b = true <-> a = b.
Proof.
  revert b. induction a as [|x a IH]; destruct b as [|y b]; simpl;
    try (split; [discriminate|discriminate]); [tauto|].
  rewrite andb_true_iff, N.eqb_eq, IH. split.
  - now intros [-> ->].
  - now intros [= -> ->].
Qed.

Lemma pystr_eqb_neq (a b : pystr) : PyStr.eqb a b = false <-> a <> b.
Proof.
  rewrite <- pystr_eqb_eq. destruct (PyStr.eqb a b); split; congruence.
Qed.

Lemma get_entry_set_entry_any (d : list (pystr * Tool World)) (key k : pystr)
  (t : Tool World) :
  get_entry (set_entry d key t) k
  = if PyStr.eqb key k then Some t else get_entry d k.
Proof.
  induction d as [|[k0 u] d IH]; simpl; [reflexivity|].
  destruct (PyStr.eqb k0 key) eqn:E; simpl.
  - apply pystr_eqb_eq in E. subst k0.
    destruct (PyStr.eqb key k); reflexivity.
  - destruct (PyStr.eqb k0 k) eqn:E2; [|exact IH].
    apply pystr_eqb_eq in E2. subst k0.
    destruct (PyStr.eqb key k) eqn:E3; [|reflexivity].
    apply pystr_eqb_eq in E3. subst key. rewrite pystr_eqb_refl in E.
    discriminate.
Qed.

(** X1: after [register_tool(tool)], looking up the name of [tool] finds
    [tool], whatever was registered under that name before, and looking up
    any other name finds what it found before. *)
Theorem register_tool_then_get_tool (reg : ToolRegistry World)
  (tool : Tool World) (key : pystr) :
  get_tool (register_tool reg tool) (VStr key)
  = if PyStr.eqb (name tool) key then inr (Some tool)
    else get_tool reg (VStr key).
Proof.
  unfold get_tool, register_tool. simpl. rewrite get_entry_set_entry_any.
  destruct (PyStr.eqb (name tool) key); reflexivity.
Qed.

Lemma set_entry_keys (d : list (pystr * Tool World)) (key : pystr)
  (t : Tool World) :
  map fst (set_entry d key t)
  = if existsb (fun k => PyStr.eqb k key) (map fst d) then map fst d
    else map fst d ++ [key].
Proof.
  induction d as [|[k0 u] d IH]; simpl; [reflexivity|].
  destruct (PyStr.eqb k0 key) eqn:E; simpl; [reflexivity|].
  rewrite IH. destruct (existsb _ (map fst d)); reflexivity.
Qed.

Lemma existsb_eqb_In (key : pystr) (l : list pystr) :
  existsb (fun k => PyStr.eqb k key) l = true <-> In key l.
Proof.
  rewrite existsb_exists. split.
  - intros (k & Hin & E). apply pystr_eqb_eq in E. now subst.
  - intros H. exists key. split; [assumption|]. now apply pystr_eqb_eq.
Qed.

Lemma set_entry_named (d : list (pystr * Tool World)) (t : Tool World) :
  Forall (fun kt => fst kt = name (snd kt)) d ->
  Forall (fun kt => fst kt = name (snd kt)) (set_entry d (name t) t).
Proof.
  induction 1 as [|[k0 u] d Hk Hd IH]; simpl.
  - constructor; [reflexivity|constructor].
  - destruct (PyStr.eqb k0 (name t)) eqn:E.
    + apply pystr_eqb_eq in E. constructor; assumption.
    + constructor; assumption.
Qed.

Lemma register_tool_well_keyed (reg : ToolRegistry World) (t : Tool World) :
  well_keyed reg -> well_keyed (register_tool reg t).
Proof.
  intros [Hn Hf]. split; simpl.
  - rewrite set_entry_keys.
    destruct (existsb _ (map fst (_tools reg))) eqn:E; [assumption|].
    apply NoDup_app; [assumption|repeat constructor; intros []|].
    intros k Hin [<-|[]].
    apply existsb_eqb_In in Hin. congruence.
  - now apply set_entry_named.
Qed.

Lemma fold_register_well_keyed (ts : list (Tool World))
  (reg : ToolRegistry World) :
  well_keyed reg -> well_keyed (fold_left (@register_tool World) ts reg).
Proof.
  revert reg. induction ts as [|t ts IH]; intros reg H; simpl; [assumption|].
  apply IH. now apply register_tool_well_keyed.
Qed.

Lemma registered_well_keyed (ts : list (Tool World)) : well_keyed (registered ts).
Proof.
  apply fold_register_well_keyed. split; simpl; constructor.
Qed.

Lemma get_entry_In (d : list (pystr * Tool World)) (k : pystr) (t : Tool World) :
  NoDup (map fst d) -> In (k, t) d -> get_entry d k = Some t.
Proof.
  induction d as [|[k0 u] d IH]; simpl; [contradiction|].
  intros Hn [[= -> ->]|Hin].
  - now rewrite pystr_eqb_refl.
  - inversion Hn as [|? ? Hnot Hn']; subst.
    destruct (PyStr.eqb k0 k) eqn:E; [|now apply IH].
    apply pystr_eqb_eq in E. subst k0. exfalso. apply Hnot.
    now apply (in_map fst) in Hin.
Qed.

Lemma get_entry_None (d : list (pystr * Tool World)) (k : pystr) :
  get_entry d k = None <-> ~ In k (map fst d).
Proof.
  induction d as [|[k0 u] d IH]; simpl; [tauto|].
  destruct (PyStr.eqb k0 k) eqn:E.
  - apply pystr_eqb_eq in E. split; [discriminate|]. intros H. exfalso. auto.
  - apply pystr_eqb_neq in E. rewrite IH. tauto.
Qed.

Lemma fold_register_keys (ts : list (Tool World)) (reg : ToolRegistry World)
  (key : pystr) :
  In key (map fst (_tools (fold_left (@register_tool World) ts reg)))
  <-> In key (map fst (_tools reg)) \/ In key (map (@name World) ts).
Proof.
  revert reg. induction ts as [|t ts IH]; intros reg; simpl; [tauto|].
  rewrite IH. simpl. rewrite set_entry_keys.
  destruct (existsb _ (map fst (_tools reg))) eqn:E.
  - apply existsb_eqb_In in E. intuition (subst; auto).
  - rewrite in_app_iff. simpl. tauto.
Qed.

Lemma well_keyed_names (reg : ToolRegistry World) :
  well_keyed reg -> map (@name World) (list_tools reg) = map fst (_tools reg).
Proof.
  intros [_ Hf]. unfold list_tools. rewrite map_map.
  induction Hf as [|kt d Hk Hd IH]; simpl; [reflexivity|].
  now rewrite IH, Hk.
Qed.

(** X2: in a registry built from an empty one by registrations, the tools
    listed have distinct names, each listed tool is the one found under its
    own name, and a name is unknown exactly when no registered tool had
    it. *)
Theorem registered_tools_are_found (ts : list (Tool World)) :
  NoDup (map (@name World) (list_tools (registered ts)))
  /\ (forall t, In t (list_tools (registered ts)) ->
        get_tool (registered ts) (VStr (name t)) = inr (Some t))
  /\ (forall key, get_tool (registered ts) (VStr key) = inr None
                  <-> ~ In key (map (@name World) ts)).
Proof.
  pose proof (registered_well_keyed ts) as W.
  pose proof W as [Hn Hf]. repeat split.
  - now rewrite well_keyed_names.
  - intros t Hin. unfold get_tool. f_equal.
    unfold list_tools in Hin. apply in_map_iff in Hin as ([k u] & <- & Hin).
    simpl. rewrite Forall_forall in Hf. specialize (Hf _ Hin). simpl in Hf.
    rewrite <- Hf. now apply get_entry_In.
  - intros [= H]. apply get_entry_None in H. intros Hin. apply H.
    unfold registered. apply fold_register_keys. now right.
  - intros H. unfold get_tool. f_equal. apply get_entry_None.
    unfold registered. rewrite fold_register_keys. simpl. tauto.
Qed.

(** X3: the listing keeps the order of first registration: registering a
    name again leaves the listed names as they are (the new tool takes the
    slot of the old), registering a new name appends it. *)
Theorem registration_order (ts : list (Tool World)) (t : Tool World) :
  map (@name World) (list_tools (registered (ts ++ [t])))
  = if existsb (fun k => PyStr.eqb k (name t)) (map (@name World) ts)
    then map (@name World) (list_tools (registered ts))
    else map (@name World) (list_tools (registered ts)) ++ [name t].
Proof.
  rewrite !well_keyed_names by apply registered_well_keyed.
  unfold registered at 1. rewrite fold_left_app. simpl.
  rewrite set_entry_keys. fold (registered ts).
  replace (existsb (fun k => PyStr.eqb k (name t)) (map (@name World) ts))
    with (existsb (fun k => PyStr.eqb k (name t)) (map fst (_tools (registered ts))));
    [reflexivity|].
  apply eq_true_iff_eq. rewrite !existsb_eqb_In.
  unfold registered. rewrite fold_register_keys. simpl. tauto.
Qed.

End RegistryMore.

(** ** More on the loop of [ToolAgent.run_task] *)
Section LoopMore.

Context {World : Type} {lib : PyLib}.
Variable self : ToolAgent (World:=World).

Abbreviation chat st :=
  (router self (provider_name self) (model_name self) (messages st) (world st)).

Lemma dict_get_has (d : dict) (key : pystr) (v : value) :
  dict_get d key = Some v -> dict_has d key = true.
Proof. intros H. unfold dict_has. now rewrite H. Qed.

Lemma decide_tool_call (text : pystr) (d : dict) (tool_name : value) :
  json_loads (raw_for_json (strip text)) = inr (Some (VDict d)) ->
  dict_get d (lit "tool") = Some tool_name ->
  tool_name <> VNone ->
  decide text = ToolCall tool_name (requested_input d).
Proof.
  intros P T Hn. unfold decide, classify, requested_input, nonempty_entry.
  rewrite P, (dict_get_has _ _ T), T. simpl.
  destruct tool_name; try contradiction;
    destruct (dict_get d (lit "tool_input")) as [v|]; try reflexivity;
    destruct (truthy v); reflexivity.
Qed.

Lemma decide_null_tool (text : pystr) (d : dict) :
  json_loads (raw_for_json (strip text)) = inr (Some (VDict d)) ->
  dict_get d (lit "tool") = Some VNone ->
  decide text
  = match nonempty_entry d (lit "final_answer") with
    | Some v => FinalAnswer (py_str v)
    | None => Opaque (strip text)
    end.
Proof.
  intros P T. unfold decide, classify, nonempty_entry.
  rewrite P, (dict_get_has _ _ T), T. simpl.
  destruct (dict_get d (lit "final_answer")) as [v|]; [|reflexivity].
  destruct (truthy v); reflexivity.
Qed.

Lemma loop_returns (st : state) (n : nat) (text t : pystr) (w1 : World) :
  chat st = (ChatResponse text, w1) ->
  decide text = FinalAnswer t \/ decide text = Opaque t ->
  let r := loop self (S n) st in
  result r = Returned t
  /\ messages (final r) = messages st ++ [assistant_msg text]
  /\ backend_calls (final r) = backend_calls st ++ [messages st]
  /\ world (final r) = w1.
Proof.
  intros C D. cbv zeta. simpl loop.
  destruct (iteration_returns self st C t) as [HF HO].
  destruct D as [D|D]; [rewrite (HF D)|rewrite (HO D)]; simpl;
    rewrite app_nil_r; repeat split.
Qed.

(** X4: a reply whose [tool] entry is a JSON array or object makes the
    lookup in the registry raise [TypeError: unhashable type], and that
    exception leaves the invocation: nothing after the reply is appended,
    no tool is run. *)
Theorem unhashable_tool_name_raises (st : state) (n : nat) (text : pystr)
  (w1 : World) (d : dict) (tool_name : value) (e : exn) :
  chat st = (ChatResponse text, w1) ->
  json_loads (raw_for_json (strip text)) = inr (Some (VDict d)) ->
  dict_get d (lit "tool") = Some tool_name ->
  unhashable_name tool_name = Some e ->
  let r := loop self (S n) st in
  result r = Raised e
  /\ exit_by r = ByLookupError
  /\ messages (final r) = messages st ++ [assistant_msg text]
  /\ world (final r) = w1.
Proof.
  intros C P T U. cbv zeta.
  assert (D : decide text = ToolCall tool_name (requested_input d)).
  { apply decide_tool_call with (d := d); try assumption.
    intros ->. discriminate U. }
  simpl loop. unfold iteration. rewrite C, D.
  destruct tool_name; try discriminate U; injection U as <-; simpl;
    repeat split.
Qed.

(** X5: only JSON [null] under [tool] makes a reply a final answer.  With
    [false] or a number there, the reply is a call of a tool of that name,
    whatever [final_answer] it carries: the loop answers that the tool is
    not available and goes on. *)
Theorem scalar_tool_name_is_a_call (st : state) (n : nat) (text : pystr)
  (w1 : World) (d : dict) (tool_name : value) :
  chat st = (ChatResponse text, w1) ->
  json_loads (raw_for_json (strip text)) = inr (Some (VDict d)) ->
  dict_get d (lit "tool") = Some tool_name ->
  scalar_name tool_name = true ->
  exists st',
    loop self (S n) st = loop self n st'
    /\ messages st'
       = messages st
         ++ [assistant_msg text; user_msg (tool_unavailable tool_name)]
    /\ invalid_json_attempts st' = invalid_json_attempts st
    /\ world st' = w1.
Proof.
  intros C P T S.
  assert (D : decide text = ToolCall tool_name (requested_input d)).
  { apply decide_tool_call with (d := d); try assumption.
    intros ->. discriminate S. }
  assert (G : get_tool (tools self) tool_name = inr None).
  { destruct tool_name; try discriminate S; reflexivity. }
  eexists. simpl loop. rewrite (iteration_unavailable self st C D G).
  split; [reflexivity|]. simpl. rewrite <- app_assoc. repeat split.
Qed.

(** X6: when [tool] is present and [null], the entry [error] plays no
    part: the invocation returns [str] of a non-empty [final_answer], and
    otherwise [raw], the reply stripped of surrounding white space. *)
Theorem null_tool_ignores_error (st : state) (n : nat) (text : pystr)
  (w1 : World) (d : dict) :
  chat st = (ChatResponse text, w1) ->
  json_loads (raw_for_json (strip text)) = inr (Some (VDict d)) ->
  dict_get d (lit "tool") = Some VNone ->
  let r := loop self (S n) st in
  result r
  = Returned match nonempty_entry d (lit "final_answer") with
             | Some v => py_str v
             | None => strip text
             end
  /\ backend_calls (final r) = backend_calls st ++ [messages st].
Proof.
  intros C P T. cbv zeta.
  pose proof (decide_null_tool text P T) as D.
  destruct (nonempty_entry d (lit "final_answer")) as [v|].
  - destruct (@loop_returns st n text (py_str v) w1 C (or_introl D))
      as (R & _ & B & _). now split.
  - destruct (@loop_returns st n text (strip text) w1 C (or_intror D))
      as (R & _ & B & _). now split.
Qed.

(** X7: a reply that parses to something other than a mapping (an array,
    a string, a number, [true], [null]) ends the invocation, which returns
    [raw]. *)
Theorem non_mapping_reply_returns_raw (st : state) (n : nat) (text : pystr)
  (w1 : World) (v : value) :
  chat st = (ChatResponse text, w1) ->
  json_loads (raw_for_json (strip text)) = inr (Some v) ->
  is_mapping v = false ->
  let r := loop self (S n) st in
  result r = Returned (strip text)
  /\ exit_by r = ByOpaque
  /\ backend_calls (final r) = backend_calls st ++ [messages st].
Proof.
  intros C P M. cbv zeta.
  assert (D : decide text = Opaque (strip text)).
  { unfold decide. rewrite P. destruct v; try reflexivity. discriminate M. }
  simpl loop. destruct (iteration_returns self st C (strip text)) as [_ HO].
  rewrite (HO D). simpl. repeat split.
Qed.

(** X8: a call of a registered tool whose handler returns runs the handler
    once, on the entry [tool_input] of the reply or on an empty mapping when
    that entry is missing or empty, and feeds the text returned back as the
    user message [Result from tool '...' with input ...:] followed by the
    text; the counter of invalid replies is left alone. *)
Theorem tool_result_is_fed_back (st : state) (n : nat) (text name t : pystr)
  (w1 w2 : World) (d : dict) (tool : Tool World) :
  chat st = (ChatResponse text, w1) ->
  json_loads (raw_for_json (strip text)) = inr (Some (VDict d)) ->
  dict_get d (lit "tool") = Some (VStr name) ->
  get_entry (_tools (tools self)) name = Some tool ->
  run tool (requested_input d) w1 = (ToolReturn t, w2) ->
  exists st',
    loop self (S n) st = loop self n st'
    /\ messages st'
       = messages st
         ++ [assistant_msg text;
             user_msg (lit "Result from tool '" ++ name ++ lit "' with input "
                       ++ py_str (requested_input d) ++ lit ":" ++ [LF] ++ t)]
    /\ invalid_json_attempts st' = invalid_json_attempts st
    /\ world st' = w2.
Proof.
  intros C P T G R.
  assert (D : decide text = ToolCall (VStr name) (requested_input d)).
  { apply decide_tool_call with (d := d); try assumption. discriminate. }
  assert (G' : get_tool (tools self) (VStr name) = inr (Some tool)).
  { unfold get_tool. now rewrite G. }
  eexists. simpl loop. rewrite (iteration_tool self st C D G' R eq_refl).
  split; [reflexivity|]. simpl. rewrite <- app_assoc. repeat split.
Qed.

Lemma nth_error_snoc {A} (l : list A) (a c : A) (k : nat) :
  nth_error (l ++ [a]) k = Some c ->
  nth_error l k = Some c \/ (k = List.length l /\ c = a).
Proof.
  intros H. destruct (Nat.lt_ge_cases k (List.length l)) as [Hlt|Hge].
  - left. now rewrite nth_error_app1 in H.
  - right. rewrite nth_error_app2 in H by assumption.
    destruct (k - List.length l) as [|j] eqn:E; simpl in H.
    + injection H as <-. split; [lia|reflexivity].
    + destruct j; discriminate H.
Qed.

Lemma length_calls_snoc (st : state (World:=World))
  (calls : list (list message)) :
  length_inv st -> calls = backend_calls st ++ [messages st] ->
  forall k c, nth_error calls k = Some c -> List.length c = 2 * k + 2.
Proof.
  intros [L N] -> k c H. apply nth_error_snoc in H as [H|[-> ->]].
  - now apply N.
  - lia.
Qed.

Lemma length_next (st st' : state) :
  length_inv st -> iteration self st = Next st' -> length_inv st'.
Proof.
  intros Inv E. pose proof (iteration_next_calls self st E) as Bc.
  split; [|now apply (length_calls_snoc Inv Bc)].
  destruct Inv as [L _]. rewrite Bc, length_app. simpl.
  revert E. unfold iteration.
  destruct (chat st) as [[text|e] w1]; [|discriminate].
  destruct (decide text) as [tn ti|t| |t|e]; try discriminate.
  - destruct (get_tool (tools self) tn) as [e|[tool|]]; [discriminate| |].
    + destruct (run tool ti w1) as [out w2].
      destruct (tool_result_of tn out) as [e|tool_result]; [discriminate|].
      intros [= <-]. simpl. rewrite !length_app. simpl. lia.
    + intros [= <-]. simpl. rewrite !length_app. simpl. lia.
  - destruct (2 <=? S (invalid_json_attempts st)); [discriminate|].
    intros [= <-]. simpl. rewrite !length_app. simpl. lia.
Qed.

Lemma length_stop (st : state) (r : report) :
  length_inv st -> iteration self st = Stop r -> length_post r.
Proof.
  intros Inv E. pose proof (iteration_stop_calls self st E) as Bc.
  split; [|now apply (length_calls_snoc Inv Bc)].
  destruct Inv as [L _]. rewrite Bc, length_app. simpl.
  revert E. unfold iteration.
  destruct (chat st) as [[text|e] w1].
  - destruct (decide text) as [tn ti|t| |t|e].
    + destruct (get_tool (tools self) tn) as [e|[tool|]]; [| |discriminate].
      * intros [= <-]. simpl. rewrite length_app. simpl. lia.
      * destruct (run tool ti w1) as [out w2].
        destruct (tool_result_of tn out) as [e|tool_result]; [|discriminate].
        intros [= <-]. simpl. rewrite length_app. simpl. lia.
    + intros [= <-]. simpl. rewrite length_app. simpl. lia.
    + destruct (2 <=? S (invalid_json_attempts st)); [|discriminate].
      intros [= <-]. simpl. rewrite length_app. simpl. lia.
    + intros [= <-]. simpl. rewrite length_app. simpl. lia.
    + intros [= <-]. simpl. rewrite length_app. simpl. lia.
  - intros [= <-]. simpl. lia.
Qed.

Lemma length_loop (n : nat) (st : state) :
  length_inv st -> length_post (loop self n st).
Proof.
  apply (@loop_rule World lib self length_inv length_post).
  - apply length_next.
  - apply length_stop.
  - intros st0 [L N]. split; [simpl; lia|exact N].
Qed.

(** X9: the conversation grows by exactly two messages for each call of
    the backend.  The [k]-th conversation sent (counting from zero) has
    [2k + 2] messages, and the one the invocation ends with has two for each
    call made, plus two when the budget ran out, one when a reply ended the
    invocation, none when the backend raised. *)
Theorem conversation_length_tracks_calls (task : pystr) (w : World) :
  let r := run_task self task w in
  List.length (messages (final r))
  = 2 * List.length (backend_calls (final r)) + closing_length (exit_by r)
  /\ forall k c, nth_error (backend_calls (final r)) k = Some c ->
       List.length c = 2 * k + 2.
Proof.
  cbv zeta. unfold run_task. apply length_loop.
  split; [reflexivity|]. intros k c H. destruct k; discriminate H.
Qed.

Lemma contains_join (sep p : pystr) (parts : list pystr) :
  In p parts -> contains (join sep parts) p = true.
Proof.
  induction parts as [|p0 rest IH]; [contradiction|].
  intros [->|Hin].
  - destruct rest; [apply contains_self|apply contains_self_app].
  - destruct rest as [|p1 rest']; [contradiction|].
    change (join sep (p0 :: p1 :: rest'))
      with (p0 ++ sep ++ join sep (p1 :: rest')).
    do 2 apply contains_app_l. now apply IH.
Qed.

Lemma is_prefix_trans (a b c : list message) :
  is_prefix a b -> is_prefix b c -> is_prefix a c.
Proof. intros [x ->] [y ->]. exists (x ++ y). now rewrite app_assoc. Qed.

Lemma growing_from_head (l : list (list message)) (seed : list message) :
  growing l -> hd_error l = Some seed -> Forall (is_prefix seed) l.
Proof.
  revert seed. induction l as [|a l IH]; intros seed G H; [constructor|].
  injection H as ->. constructor; [exists []; now rewrite app_nil_r|].
  destruct l as [|b l]; [constructor|].
  destruct G as [Hab G].
  eapply Forall_impl; [|apply (IH b G eq_refl)].
  intros c Hc. now apply is_prefix_trans with (b := b).
Qed.

(** X10: every conversation of an invocation, whatever the registry
    holds, opens with the same two messages, the system prompt and the task;
    the system prompt starts with the configured agent prompt; and it has,
    for every tool that the registry lists, the text [- name: description]. *)
Theorem every_call_opens_with_the_tool_list (task : pystr) (w : World) :
  Forall (fun c => exists rest,
            c = system_msg (system_prompt self) :: user_msg task :: rest)
    (history (run_task self task w))
  /\ startswith (system_prompt self) (get_agent_system_prompt (prompts self))
     = true
  /\ forall tool, In tool (list_tools (tools self)) ->
       contains (system_prompt self) (tool_line tool) = true.
Proof.
  split; [|split].
  - destruct (@conversation_loop World lib self
                [system_msg (system_prompt self); user_msg task]
                (Z.to_nat (max_steps self)) (initial_state self task w))
      as (Hd & _ & G).
    { unfold conversation_inv. simpl. repeat split; try constructor.
      eexists _, _. repeat split. }
    eapply Forall_impl; [|apply (growing_from_head _ G Hd)].
    intros c [rest ->]. now exists rest.
  - apply startswith_app.
  - intros tool Hin. unfold system_prompt, _build_tool_descriptions.
    do 4 apply contains_app_l. apply contains_join.
    apply in_map_iff. exists tool. split; [reflexivity|assumption].
Qed.

End LoopMore.

(** ** [ModelRegistry], [ModelRouter] and the agents over them *)
Section RouterMore.

Variable World : Type.

Lemma pair_eqb_refl (a : pystr * pystr) : Models.pair_eqb a a = true.
Proof. unfold Models.pair_eqb. now rewrite !pystr_eqb_refl. Qed.

Lemma d_get_d_set {K V : Type} (eqb : K -> K -> bool) (d : list (K * V))
  (key : K) (v : V) :
  (forall k, eqb k k = true) ->
  Models.d_get eqb (Models.d_set eqb d key v) key = Some v.
Proof.
  intros R. induction d as [|[k u] d IH]; simpl.
  - now rewrite R.
  - destruct (eqb k key) eqn:E; simpl; now rewrite E.
Qed.

(** X11: [resolve] after registrations.  A provider and one of its models,
    registered in either order, are what [resolve] gives back for the name
    of the provider and the key of the model, whatever the registry held
    before.  [register_model] does not register a provider: for a provider
    name the registry does not know, [resolve] raises
    [Provider '...' not registered.] even right after a model was registered
    under that name; and for a registered provider without the model it
    raises [Model '...' not registered for provider '...'.]. *)
Theorem resolve_after_registration (reg : Models.ModelRegistry World)
  (provider : Models.BaseProvider.t World) (provider_name model_key : pystr)
  (model_info : Models.ModelInfo.t) :
  let name := Models.BaseProvider.name provider in
  Models.resolve
    (Models.register_model (Models.register_provider reg provider)
       name model_key model_info)
    name model_key
  = inr (provider, model_info)
  /\ Models.resolve
       (Models.register_provider
          (Models.register_model reg name model_key model_info) provider)
       name model_key
     = inr (provider, model_info)
  /\ (Models.d_get PyStr.eqb (Models.providers reg) provider_name = None ->
      Models.resolve
        (Models.register_model reg provider_name model_key model_info)
        provider_name model_key
      = inl (Models.ProviderError
               (lit "Provider '" ++ provider_name ++ lit "' not registered.")))
  /\ (Models.d_get Models.pair_eqb (Models.models reg) (name, model_key) = None ->
      Models.resolve (Models.register_provider reg provider) name model_key
      = inl (Models.ProviderError
               (lit "Model '" ++ model_key
                ++ lit "' not registered for provider '" ++ name ++ lit "'."))).
Proof.
  cbv zeta. unfold Models.resolve. simpl.
  rewrite !d_get_d_set by (apply pystr_eqb_refl || apply pair_eqb_refl).
  repeat split.
  - intros H. now rewrite H.
  - intros H. now rewrite H.
Qed.

(** X12: [AskAgent.ask] over the router: when provider and model resolve,
    the provider is called once, without streaming, with the API name of
    the model (not its key) and the two messages system prompt and question,
    and the text of its response is returned as it is, neither stripped nor
    parsed. *)
Theorem ask_returns_the_reply_unchanged (reg : Models.ModelRegistry World)
  (prompts : PromptManager) (provider_name model_key question text : pystr)
  (provider : Models.BaseProvider.t World) (model_info : Models.ModelInfo.t)
  (w w1 : World) :
  Models.resolve reg provider_name model_key = inr (provider, model_info) ->
  Models.BaseProvider.chat provider (Models.ModelInfo.name model_info)
    [system_msg (Ask.get_ask_system_prompt prompts); user_msg question]
    false w
  = (ChatResponse text, w1) ->
  Ask.ask
    {| Ask.router := Models.as_router {| Models.model_registry := reg |};
       Ask.prompts := prompts;
       Ask.provider_name := provider_name;
       Ask.model_name := model_key |}
    question w
  = (Returned text, w1).
Proof.
  intros R C. unfold Ask.ask, Models.as_router, Models.chat. simpl.
  now rewrite R, C.
Qed.

Section OverRouter.

Context {lib : PyLib}.
Variable self : ToolAgent (World:=World).
Variable reg : Models.ModelRegistry World.
Hypothesis routed :
  router self = Models.as_router {| Models.model_registry := reg |}.

(** X13: when the provider or the model of a tool agent does not resolve,
    [run_task] raises the [ProviderError] of [resolve] at its first pass,
    for any budget of at least one step: no provider is called, no tool is
    run, the world is as it was, and the conversation is the seed. *)
Theorem unresolved_model_stops_run_task (task : pystr) (w : World) (e : exn) :
  (1 <= max_steps self)%Z ->
  Models.resolve reg (provider_name self) (model_name self) = inl e ->
  let r := run_task self task w in
  result r = Raised e
  /\ exit_by r = ByBackendError
  /\ world (final r) = w
  /\ messages (final r) = [system_msg (system_prompt self); user_msg task]
  /\ List.length (backend_calls (final r)) = 1.
Proof.
  intros Hn R. cbv zeta. unfold run_task.
  destruct (Z.to_nat (max_steps self)) as [|n] eqn:En; [lia|].
  simpl loop. unfold iteration. rewrite routed.
  unfold Models.as_router, Models.chat. simpl. rewrite R. simpl.
  repeat split.
Qed.

End OverRouter.

End RouterMore.

(** ** The providers *)
Section ProvidersMore.

Variable World : Type.
Variable getenv : pystr -> World -> option pystr.

Lemma api_key_of_error (api_key_env name : pystr) (w : World) (e : exn) :
  Providers.api_key_of getenv api_key_env name w = inl e ->
  exn_class e = lit "ProviderError"
  /\ (getenv api_key_env w = None \/ getenv api_key_env w = Some []).
Proof.
  unfold Providers.api_key_of.
  destruct (getenv api_key_env w) as [[|c key]|]; intros [= <-]; auto.
Qed.

Lemma reraised_cases (error_prefix : pystr) (e : exn) :
  exn_class (Providers.reraised error_prefix e) = lit "ProviderError"
  \/ (is_exception (Providers.reraised error_prefix e) = false
      /\ Providers.reraised error_prefix e = e).
Proof.
  unfold Providers.reraised. destruct (is_exception e) eqn:I; auto.
Qed.


Lemma collect_chunks_all (items : list (Providers.stream_item (list (option pystr))))
  (chunks : list pystr) :
  forallb has_choice items = true ->
  exists chunks',
    Providers.collect_chunks items chunks = inr chunks'
    /\ List.concat chunks' = List.concat chunks ++ flat_map delta_of items.
Proof.
  revert chunks. induction items as [|item items IH]; intros chunks H; simpl.
  - exists chunks. now rewrite app_nil_r.
  - simpl in H. apply andb_true_iff in H as [Hi H].
    destruct item as [[|[[|c t]|] choices]|e]; try discriminate Hi;
      destruct (IH chunks H) as (r & E & C);
      try (exists r; split; [exact E|exact C]).
    destruct (IH (chunks ++ [c :: t]) H) as (r' & E' & C').
    exists r'. split; [exact E'|].
    rewrite C', concat_app. simpl. now rewrite app_nil_r, <- app_assoc.
Qed.

(** X15: what [OpenAIProvider.chat] and [PerplexityProvider.chat] give
    back once the key is read and the client made.  Without streaming: the
    content of the first choice, an empty text when that content is [None],
    a wrapped [IndexError] when the response has no choice.  With streaming,
    when every chunk has a choice: the contents of the first choices of the
    chunks, one after the other. *)
Theorem completions_chat_text (sdk : Providers.OpenAISDK World)
  (error_prefix model api_key : pystr) (self : Providers.OpenAIProvider.t)
  (client : Providers.openai_client sdk) (messages : list message) (w : World) :
  Providers.api_key_of getenv (Providers.OpenAIProvider.api_key_env self)
    (Providers.OpenAIProvider.name self) w = inr api_key ->
  Providers.new_openai sdk api_key (Providers.OpenAIProvider.base_url self)
  = inr client ->
  (forall choices w1,
     Providers.completions_create sdk client model messages w = (inr choices, w1) ->
     Providers.completions_chat getenv sdk error_prefix self model messages false w
     = (match choices with
        | [] =>
            ChatRaise (Models.ProviderError
                         (error_prefix ++ lit "list index out of range"))
        | first :: _ =>
            ChatResponse match first with Some text => text | None => [] end
        end, w1))
  /\ (forall items w1,
        Providers.completions_stream sdk client model messages w = (inr items, w1) ->
        forallb has_choice items = true ->
        Providers.completions_chat getenv sdk error_prefix self model messages true w
        = (ChatResponse (flat_map delta_of items), w1)).
Proof.
  intros K N. unfold Providers.completions_chat. rewrite K, N. split.
  - intros choices w1 C. rewrite C.
    destruct choices as [|[text|] rest]; reflexivity.
  - intros items w1 C H. rewrite C.
    destruct (collect_chunks_all items [] H) as (chunks & E & Cc).
    rewrite E. simpl in Cc. now rewrite Cc.
Qed.

(** X19: what [AnthropicProvider.chat] raises: a [ProviderError], unless
    the exception is no instance of [Exception], which the [except
    Exception] clause around the calls of the SDK lets through as it is, or
    the constructor of the SDK client raised it, outside the [try]. *)
Theorem anthropic_chat_raises_provider_errors (sdk : Providers.AnthropicSDK World)
  (model : pystr) (self : Providers.AnthropicProvider.t)
  (messages : list message) (stream : bool) (w w1 : World) (e : exn) :
  Providers.anthropic_chat getenv sdk self model messages stream w
  = (ChatRaise e, w1) ->
  exn_class e = lit "ProviderError"
  \/ is_exception e = false
  \/ exists api_key, Providers.new_anthropic sdk api_key = inl e.
Proof.
  unfold Providers.anthropic_chat.
  destruct (Providers.api_key_of getenv _ _ w) as [e0|api_key] eqn:K.
  - intros [= <- <-]. left. now destruct (api_key_of_error _ _ _ K).
  - assert (W : forall exc,
              exn_class (Providers.reraised (lit "Anthropic provider error: ") exc)
              = lit "ProviderError"
              \/ is_exception
                   (Providers.reraised (lit "Anthropic provider error: ") exc)
                 = false
              \/ exists api_key,
                   Providers.new_anthropic sdk api_key
                   = inl (Providers.reraised (lit "Anthropic provider error: ")
                            exc)).
    { intros exc. destruct (reraised_cases (lit "Anthropic provider error: ") exc)
        as [H|[H _]]; auto. }
    destruct (Providers.new_anthropic sdk api_key) as [e0|client] eqn:N.
    + intros [= <- <-]. right. right. now exists api_key.
    + destruct (Providers.convert messages) as [system_prompt converted].
      destruct stream.
      * destruct (Providers.messages_stream sdk client model system_prompt
                    converted 2048 w) as [[exc|items] w2].
        -- intros [= <- <-]. apply W.
        -- destruct (Providers.collect_events items []); [|discriminate].
           intros [= <- <-]. apply W.
      * destruct (Providers.messages_create sdk client model system_prompt
                    converted 2048 w) as [[exc|blocks] w2]; [|discriminate].
        intros [= <- <-]. apply W.
Qed.

Lemma user_msg_eta (m : message) : msg_role m = User -> user_msg (content m) = m.
Proof. destruct m as [r c]. simpl. now intros ->. Qed.

Lemma assistant_msg_eta (m : message) :
  msg_role m = Assistant -> assistant_msg (content m) = m.
Proof. destruct m as [r c]. simpl. now intros ->. Qed.

Lemma convert_from_alternating (body converted : list message)
  (system_prompt : pystr) (expect : role) :
  expect <> System -> alternates expect body = true ->
  Providers.convert_from system_prompt converted body
  = (system_prompt, converted ++ body).
Proof.
  revert converted expect. induction body as [|m body IH];
    intros converted expect Hne H; simpl.
  - now rewrite app_nil_r.
  - simpl in H. apply andb_true_iff in H as [Hm Hb].
    assert (Hne' : other expect <> System) by (destruct expect; simpl; congruence).
    destruct (msg_role m) eqn:R; destruct expect; try discriminate Hm;
      try contradiction.
    + rewrite (user_msg_eta m R), (IH _ _ Hne' Hb), <- app_assoc. reflexivity.
    + rewrite (assistant_msg_eta m R), (IH _ _ Hne' Hb), <- app_assoc.
      reflexivity.
Qed.

Lemma alternates_odd_ends_with_user (body : list message) :
  alternates User body = true -> Nat.even (List.length body) = false ->
  exists rest question, body = rest ++ [question] /\ msg_role question = User.
Proof.
  intros A E. destruct (exists_last (l := body)) as (rest & question & ->).
  { intros ->. discriminate E. }
  exists rest, question. split; [reflexivity|].
  rewrite alternates_app in A. apply andb_true_iff in A as [_ A].
  rewrite length_app, Nat.add_comm in E. cbn [List.length Nat.add] in E.
  rewrite Nat.even_succ, <- Nat.negb_even in E.
  apply negb_false_iff in E. rewrite E in A. simpl in A.
  apply andb_true_iff in A as [A _].
  destruct (msg_role question); try discriminate A. reflexivity.
Qed.

End ProvidersMore.

(** ** What the Anthropic provider makes of the conversations of the loop *)
Section AnthropicMore.

Context {World : Type} {lib : PyLib}.
Variable self : ToolAgent (World:=World).

(** X16: for every conversation that [run_task] sends to the backend, the
    conversion of [AnthropicProvider.chat] yields as system text the system
    prompt followed by a line feed, and as messages the conversation
    without its first message, unchanged: user and assistant in turn, the
    first and the last of them from the user. *)
Theorem anthropic_request_alternates (task : pystr) (w : World) :
  Forall (fun c => exists body,
            c = system_msg (system_prompt self) :: body
            /\ Providers.convert c = (system_prompt self ++ [LF], body)
            /\ alternates User body = true
            /\ (exists rest, body = user_msg task :: rest)
            /\ (exists rest question,
                  body = rest ++ [question] /\ msg_role question = User))
    (backend_calls (final (run_task self task w))).
Proof.
  destruct (@conversation_loop World lib self
              [system_msg (system_prompt self); user_msg task]
              (Z.to_nat (max_steps self)) (initial_state self task w))
    as (Hd & F & G).
  { unfold conversation_inv. simpl. repeat split; try constructor.
    eexists _, _. repeat split. }
  pose proof (growing_from_head _ G Hd) as Pre.
  destruct (@length_loop World lib self (Z.to_nat (max_steps self))
              (initial_state self task w)) as [_ Len].
  { split; [reflexivity|]. intros k c H. destruct k; discriminate H. }
  fold (run_task self task w) in F, Pre, Len.
  unfold history in F, Pre.
  apply Forall_app in F as [F _]. apply Forall_app in Pre as [Pre _].
  rewrite Forall_forall in *. intros c Hin.
  destruct (Pre c Hin) as [rest ->]. specialize (F _ Hin).
  destruct (In_nth_error _ _ Hin) as [k Hk]. specialize (Len _ _ Hk).
  assert (A : alternates User (user_msg task :: rest) = true) by exact F.
  exists (user_msg task :: rest).
  assert (Hev : Nat.even (List.length (user_msg task :: rest)) = false).
  { simpl in Len. replace (List.length (user_msg task :: rest)) with (1 + 2 * k)
      by (simpl; lia).
    now rewrite Nat.even_add_mul_2. }
  split; [reflexivity|]. split; [|split; [exact A|split]].
  - unfold Providers.convert.
    change (Providers.convert_from [] []
              ([system_msg (system_prompt self); user_msg task] ++ rest))
      with (Providers.convert_from ([] ++ system_prompt self ++ [LF]) []
              (user_msg task :: rest)).
    now rewrite (convert_from_alternating _ [] _ (expect := User)).
  - now exists rest.
  - now apply alternates_odd_ends_with_user.
Qed.

End AnthropicMore.

(** ** The further properties at work on the scripted backend *)

(** At work on a reply whose [tool] is an array. *)
Lemma unhashable_tool_name_raises_witness :
  let reply := q "{'tool': ['echo'], 'tool_input': {}}" in
  let st := initial_state (agent 4) task [reply; lit "next"] in
  let r := loop (agent 4) 4 st in
  result r = Raised (unhashable "list")
  /\ exit_by r = ByLookupError
  /\ messages (final r) = messages st ++ [assistant_msg reply]
  /\ world (final r) = [lit "next"].
Proof.
  apply (@unhashable_tool_name_raises script reference_lib (agent 4)
           (initial_state (agent 4) task
              [q "{'tool': ['echo'], 'tool_input': {}}"; lit "next"])
           3 (q "{'tool': ['echo'], 'tool_input': {}}") [lit "next"]
           [(lit "tool", VList [VStr (lit "echo")]);
            (lit "tool_input", VDict [])]
           (VList [VStr (lit "echo")]));
    vm_compute; reflexivity.
Defined.

(** At work on [{"tool": false, "final_answer": "done"}]. *)
Lemma scalar_tool_name_is_a_call_witness :
  let reply := q "{'tool': false, 'final_answer': 'done'}" in
  let st := initial_state (agent 4) task [reply; lit "next"] in
  exists st',
    loop (agent 4) 4 st = loop (agent 4) 3 st'
    /\ messages st'
       = messages st
         ++ [assistant_msg reply;
             user_msg (lit "Tool 'False' is not available.")]
    /\ invalid_json_attempts st' = invalid_json_attempts st
    /\ world st' = [lit "next"].
Proof.
  apply (@scalar_tool_name_is_a_call script reference_lib (agent 4)
           (initial_state (agent 4) task
              [q "{'tool': false, 'final_answer': 'done'}"; lit "next"])
           3 (q "{'tool': false, 'final_answer': 'done'}") [lit "next"]
           [(lit "tool", VBool false); (lit "final_answer", VStr (lit "done"))]
           (VBool false));
    vm_compute; reflexivity.
Defined.

(** At work on [{"tool": null, "error": "no such file"}]: the reply
    itself is returned, not the error text. *)
Lemma null_tool_ignores_error_witness :
  let reply := q " {'tool': null, 'error': 'no such file'} " in
  let st := initial_state (agent 4) task [reply] in
  let r := loop (agent 4) 4 st in
  result r = Returned (q "{'tool': null, 'error': 'no such file'}")
  /\ backend_calls (final r) = backend_calls st ++ [messages st].
Proof.
  apply (@null_tool_ignores_error script reference_lib (agent 4)
           (initial_state (agent 4) task
              [q " {'tool': null, 'error': 'no such file'} "])
           3 (q " {'tool': null, 'error': 'no such file'} ") []
           [(lit "tool", VNone); (lit "error", VStr (lit "no such file"))]);
    vm_compute; reflexivity.
Defined.

(** At work on a reply that is a JSON string. *)
Lemma non_mapping_reply_returns_raw_witness :
  let reply := q "'just text'" ++ [LF] in
  let st := initial_state (agent 4) task [reply] in
  let r := loop (agent 4) 4 st in
  result r = Returned (q "'just text'")
  /\ exit_by r = ByOpaque
  /\ backend_calls (final r) = backend_calls st ++ [messages st].
Proof.
  apply (@non_mapping_reply_returns_raw script reference_lib (agent 4)
           (initial_state (agent 4) task [q "'just text'" ++ [LF]])
           3 (q "'just text'" ++ [LF]) [] (VStr (lit "just text")));
    vm_compute; reflexivity.
Defined.

(** At work on a call of [echo] with an empty [tool_input]. *)
Lemma tool_result_is_fed_back_witness :
  let reply := q "{'tool': 'echo', 'tool_input': null}" in
  let st := initial_state (agent 4) task [reply; lit "next"] in
  exists st',
    loop (agent 4) 4 st = loop (agent 4) 3 st'
    /\ messages st'
       = messages st
         ++ [assistant_msg reply;
             user_msg (lit "Result from tool 'echo' with input {}:" ++ [LF]
                       ++ lit "{}")]
    /\ invalid_json_attempts st' = invalid_json_attempts st
    /\ world st' = [lit "next"].
Proof.
  apply (@tool_result_is_fed_back script reference_lib (agent 4)
           (initial_state (agent 4) task
              [q "{'tool': 'echo', 'tool_input': null}"; lit "next"])
           3 (q "{'tool': 'echo', 'tool_input': null}") (lit "echo") (lit "{}")
           [lit "next"] [lit "next"]
           [(lit "tool", VStr (lit "echo")); (lit "tool_input", VNone)] echo);
    reflexivity.
Defined.

(** At work on the tool [broken] of the sample registry. *)
Lemma every_call_opens_with_the_tool_list_witness :
  In broken (list_tools (tools (agent 2)))
  /\ contains (system_prompt (agent 2)) (lit "- broken: Always fails.") = true.
Proof.
  assert (H : In broken (list_tools (tools (agent 2)))) by (right; now left).
  split; [exact H|].
  destruct (@every_call_opens_with_the_tool_list script reference_lib (agent 2)
              task []) as (_ & _ & T).
  exact (T broken H).
Defined.

(** At work: the key [sonar] resolves, and the reply is returned with
    its white space. *)
Lemma ask_returns_the_reply_unchanged_witness :
  Ask.ask
    {| Ask.router :=
         Models.as_router {| Models.model_registry := Sample2.model_registry |};
       Ask.prompts := {| prompts_cfg := [] |};
       Ask.provider_name := lit "perplexity";
       Ask.model_name := lit "sonar" |}
    (lit "why?") [lit " because " ++ [LF]]
  = (Returned (lit " because " ++ [LF]), []).
Proof.
  apply (@ask_returns_the_reply_unchanged script Sample2.model_registry
           {| prompts_cfg := [] |} (lit "perplexity") (lit "sonar") (lit "why?")
           (lit " because " ++ [LF]) Sample2.canned Sample2.sonar);
    vm_compute; reflexivity.
Defined.

(** At work on a model key that was never registered. *)
Lemma unresolved_model_stops_run_task_witness :
  let self := Sample2.routed_agent (lit "perplexity") (lit "sonar-huge") in
  let r := run_task self task [lit "never sent"] in
  result r
  = Raised (Models.ProviderError
              (lit "Model 'sonar-huge' not registered for provider 'perplexity'."))
  /\ exit_by r = ByBackendError
  /\ world (final r) = [lit "never sent"]
  /\ messages (final r) = [system_msg (system_prompt self); user_msg task]
  /\ List.length (backend_calls (final r)) = 1.
Proof.
  apply (@unresolved_model_stops_run_task script reference_lib
           (Sample2.routed_agent (lit "perplexity") (lit "sonar-huge"))
           Sample2.model_registry eq_refl task [lit "never sent"]);
    vm_compute; first [reflexivity|discriminate].
Defined.


(** At work on a response with one choice. *)
Lemma completions_chat_text_witness :
  Providers.completions_chat Sample2.getenv Sample2.sdk
    (lit "OpenAI provider error: ") (Sample2.openai (lit "OPENAI_API_KEY"))
    (lit "gpt") [user_msg (lit "hi")] false [lit "hello"]
  = (ChatResponse (lit "hello"), []).
Proof.
  destruct (@completions_chat_text script Sample2.getenv Sample2.sdk
              (lit "OpenAI provider error: ") (lit "gpt") (lit "sk-test")
              (Sample2.openai (lit "OPENAI_API_KEY")) tt [user_msg (lit "hi")]
              [lit "hello"] eq_refl eq_refl) as [H _].
  exact (H [Some (lit "hello")] [] eq_refl).
Defined.

(** ** A fence that is opened and not closed *)
Section OpenFence.

Context {lib : PyLib}.

(** The stripped form of a reply that opens a fence: the opening line,
    and the content without its trailing white space, if any is left. *)
Lemma strip_open_fence (ws tag content : pystr) :
  forallb is_space ws = true ->
  strip (ws ++ fence ++ tag ++ LF :: content)
  = if forallb is_space content then rstrip (fence ++ tag)
    else (fence ++ tag) ++ LF :: rstrip content.
Proof.
  intros Hw. unfold strip. rewrite lstrip_spaces by assumption.
  change (lstrip (fence ++ tag ++ LF :: content))
    with (fence ++ tag ++ LF :: content).
  replace (fence ++ tag ++ LF :: content)
    with (((fence ++ tag) ++ [LF]) ++ content)
    by (now rewrite <- !app_assoc).
  rewrite rstrip_app. destruct (forallb is_space content).
  - now rewrite rstrip_spaces.
  - now rewrite <- !app_assoc.
Qed.

(** X17: a reply that opens a fence and never closes it is parsed as what
    follows the opening line.  For a tag without line boundary and a content
    whose line boundaries are line feeds and whose last line, leaving
    trailing white space aside, does not start with a fence, the text
    handed to the decoder is the content, stripped; so the decision is the
    one for the content, when this does not itself begin with a fence. *)
Theorem unclosed_fence_is_dropped (ws tag content : pystr) :
  forallb is_space ws = true ->
  no_linebreak tag = true ->
  only_lf content = true ->
  startswith (strip (last (splitlines (rstrip content)) [])) fence = false ->
  let text := ws ++ fence ++ tag ++ LF :: content in
  raw_for_json (strip text) = strip content
  /\ (startswith (strip content) fence = false ->
      decide text
      = match decide content with
        | Opaque _ => Opaque (strip text)
        | d => d
        end).
Proof.
  intros Hw Ht Hc Hl text.
  assert (R : raw_for_json (strip text) = strip content).
  { unfold text. rewrite strip_open_fence by assumption.
    destruct (rstrip_prefix content) as (trail & Ec & Htrail).
    destruct (forallb is_space content) eqn:Hs.
    - rewrite (strip_all_spaces content Hs).
      destruct (rstrip_prefix (fence ++ tag)) as (ws' & E & _).
      assert (Hn : no_linebreak (rstrip (fence ++ tag)) = true).
      { assert (H : no_linebreak (fence ++ tag) = true)
          by (apply no_linebreak_app; [reflexivity|assumption]).
        rewrite E in H. unfold no_linebreak in *. rewrite forallb_app in H.
        now apply andb_true_iff in H as [H _]. }
      unfold raw_for_json, splitlines. rewrite (splitlines_single _ [] Hn).
      destruct (startswith (rstrip (fence ++ tag)) fence) eqn:Sf.
      + cbn [app]. destruct (rstrip (fence ++ tag)) as [|c r];
          [discriminate Sf|].
        unfold drop_opening_fence.
        replace (lstrip (c :: r)) with (c :: r); [now rewrite Sf|].
        simpl in Sf. apply andb_true_iff in Sf as [Sf _].
        apply N.eqb_eq in Sf. subst c. reflexivity.
      + exfalso. rewrite rstrip_app in Sf.
        destruct (forallb is_space tag); [discriminate Sf|].
        rewrite startswith_app in Sf. discriminate Sf.
    - assert (Hc' : only_lf (rstrip content) = true).
      { rewrite Ec in Hc. unfold only_lf in *. rewrite forallb_app in Hc.
        now apply andb_true_iff in Hc as [Hc _]. }
      unfold raw_for_json. rewrite <- app_assoc, startswith_app.
      unfold splitlines at 1.
      rewrite app_assoc, splitlines_line
        by (apply no_linebreak_app; [reflexivity|assumption]).
      change (drop_opening_fence
                (([] ++ fence ++ tag) :: splitlines_from [] (rstrip content)))
        with (splitlines (rstrip content)).
      assert (D : drop_closing_fence (splitlines (rstrip content))
                  = splitlines (rstrip content)).
      { unfold drop_closing_fence.
        destruct (splitlines (rstrip content)); [reflexivity|]. now rewrite Hl. }
      rewrite D, strip_join_splitlines by assumption. apply strip_rstrip. }
  split; [exact R|]. intros Hs. apply decide_raw.
  now rewrite R, raw_for_json_plain.
Qed.

End OpenFence.

(** At work on a reply cut short after the JSON object. *)
Lemma unclosed_fence_is_dropped_witness :
  let content := q "{'tool': null, 'final_answer': 'hi'}" ++ [LF; LF] in
  let text := lit " " ++ fence ++ lit "json" ++ LF :: content in
  raw_for_json (strip text) = q "{'tool': null, 'final_answer': 'hi'}"
  /\ decide text = FinalAnswer (lit "hi").
Proof.
  cbv zeta.
  destruct (@unclosed_fence_is_dropped reference_lib (lit " ") (lit "json")
              (q "{'tool': null, 'final_answer': 'hi'}" ++ [LF; LF])
              eq_refl eq_refl eq_refl eq_refl) as [R D].
  split; [rewrite R|rewrite D]; vm_compute; reflexivity.
Defined.

(** ** [build_tool_registry] *)
Section BuildMore.

Variable World : Type.
Variable abspath : value -> World -> exn + pystr.
Variable makedirs : value -> World -> option exn * World.
Variable getenv : pystr -> World -> option pystr.
Variable shell_run : value -> pystr -> value -> World -> tool_outcome * World.
Variable read_run : pystr -> value -> World -> tool_outcome * World.
Variable write_run : pystr -> value -> World -> tool_outcome * World.
Variable search_run : value -> value -> World -> tool_outcome * World.
Variable fetch_run : value -> World -> tool_outcome * World.

Abbreviation build :=
  (Main.build_tool_registry abspath makedirs getenv shell_run read_run
     write_run search_run fetch_run).

Lemma shell_named (cfg : dict) (w w1 : World) (tool : Tool World) :
  Main.shell_from_config abspath makedirs shell_run cfg w = (inr tool, w1) ->
  name tool = lit "shell_command".
Proof.
  unfold Main.shell_from_config.
  destruct (abspath _ w); [discriminate|].
  destruct (makedirs _ w) as [[e|] w2]; [discriminate|].
  now intros [= <- _].
Qed.

Lemma file_named (nm descr : pystr)
  (handler : pystr -> value -> World -> tool_outcome * World) (cfg : dict)
  (w w1 : World) (tool : Tool World) :
  Main.file_from_config abspath makedirs nm descr handler cfg w = (inr tool, w1) ->
  name tool = nm.
Proof.
  unfold Main.file_from_config.
  destruct (makedirs _ w) as [[e|] w2]; [discriminate|].
  destruct (abspath _ w2); [discriminate|].
  now intros [= <- _].
Qed.

Lemma search_named (cfg : dict) (w w1 : World) (tool : Tool World) :
  Main.search_from_config getenv search_run cfg w = (inr tool, w1) ->
  name tool = lit "web_search".
Proof.
  unfold Main.search_from_config.
  destruct (truthy _); [|discriminate]. now intros [= <- _].
Qed.

Lemma add_tool_keys (key nm : pystr) (from_config : dict -> Main.building World)
  (tools_cfg : value) (reg reg' : ToolRegistry World) (w w' : World) :
  (forall cfg w0 w1 tool, from_config cfg w0 = (inr tool, w1) -> name tool = nm) ->
  well_keyed reg ->
  ~ In nm (map fst (_tools reg)) ->
  Main.add_tool key from_config tools_cfg reg w = (inr reg', w') ->
  well_keyed reg'
  /\ map fst (_tools reg')
     = map fst (_tools reg) ++ (if Main.enabled tools_cfg key then [nm] else []).
Proof.
  intros Hnm W Hnot. unfold Main.add_tool, Main.enabled.
  destruct (Main.section tools_cfg key) as [e|[cfg|]]; [discriminate| |].
  - destruct (from_config cfg w) as [[e|tool] w1] eqn:F; [discriminate|].
    intros [= <- <-]. split; [now apply register_tool_well_keyed|].
    simpl. rewrite set_entry_keys, (Hnm _ _ _ _ F).
    destruct (existsb _ (map fst (_tools reg))) eqn:E; [|reflexivity].
    apply existsb_eqb_In in E. contradiction.
  - intros [= <- <-]. split; [assumption|]. now rewrite app_nil_r.
Qed.

(** X18: when [build_tool_registry] succeeds, the tools it registered are
    those whose section of [tools] is a non-empty mapping with a true
    [enabled], listed in the fixed order of the function under the names
    [shell_command], [read_file], [write_file], [web_search], [web_fetch];
    and a name is unknown to the registry exactly when it is not one of
    these. *)
Theorem built_registry_lists_enabled_tools (cfg : dict) (w w' : World)
  (reg : ToolRegistry World) :
  build cfg w = (inr reg, w') ->
  let tools_cfg := Main.get_default cfg (lit "tools") (VDict []) in
  map (@name World) (list_tools reg) = Main.enabled_names tools_cfg Main.catalogue
  /\ forall nm, get_tool reg (VStr nm) = inr None
                <-> ~ In nm (Main.enabled_names tools_cfg Main.catalogue).
Proof.
  unfold Main.build_tool_registry. cbv zeta.
  set (tools_cfg := Main.get_default cfg (lit "tools") (VDict [])).
  assert (W0 : well_keyed (empty_registry World)) by (split; constructor).
  destruct (Main.add_tool (lit "shell") _ tools_cfg _ w) as [[e|r1] w1] eqn:S1;
    [discriminate|]. cbn [Main.and_then].
  destruct (Main.add_tool (lit "read_file") _ tools_cfg r1 w1) as [[e|r2] w2] eqn:S2;
    [discriminate|]. cbn [Main.and_then].
  destruct (Main.add_tool (lit "write_file") _ tools_cfg r2 w2) as [[e|r3] w3] eqn:S3;
    [discriminate|]. cbn [Main.and_then].
  destruct (Main.add_tool (lit "web_search") _ tools_cfg r3 w3) as [[e|r4] w4] eqn:S4;
    [discriminate|]. cbn [Main.and_then].
  intros S5.
  destruct (add_tool_keys (nm := lit "shell_command") _ _ _ _
              (@shell_named) W0 (fun H => H) S1) as [W1 K1].
  simpl in K1.
  assert (N2 : ~ In (lit "read_file") (map fst (_tools r1))).
  { rewrite K1. destruct (Main.enabled tools_cfg (lit "shell"));
      vm_compute; intuition discriminate. }
  destruct (add_tool_keys (nm := lit "read_file") _ _ _ _
              (@file_named _ _ _) W1 N2 S2) as [W2 K2].
  assert (N3 : ~ In (lit "write_file") (map fst (_tools r2))).
  { rewrite K2, K1. destruct (Main.enabled tools_cfg (lit "shell")),
      (Main.enabled tools_cfg (lit "read_file"));
      vm_compute; intuition discriminate. }
  destruct (add_tool_keys (nm := lit "write_file") _ _ _ _
              (@file_named _ _ _) W2 N3 S3) as [W3 K3].
  assert (N4 : ~ In (lit "web_search") (map fst (_tools r3))).
  { rewrite K3, K2, K1. destruct (Main.enabled tools_cfg (lit "shell")),
      (Main.enabled tools_cfg (lit "read_file")),
      (Main.enabled tools_cfg (lit "write_file"));
      vm_compute; intuition discriminate. }
  destruct (add_tool_keys (nm := lit "web_search") _ _ _ _
              (@search_named) W3 N4 S4) as [W4 K4].
  assert (N5 : ~ In (lit "web_fetch") (map fst (_tools r4))).
  { rewrite K4, K3, K2, K1. destruct (Main.enabled tools_cfg (lit "shell")),
      (Main.enabled tools_cfg (lit "read_file")),
      (Main.enabled tools_cfg (lit "write_file")),
      (Main.enabled tools_cfg (lit "web_search"));
      vm_compute; intuition discriminate. }
  assert (F5 : forall cfg0 w0 w5 tool,
             Main.fetch_from_config fetch_run cfg0 w0 = (inr tool, w5) ->
             name tool = lit "web_fetch") by now intros ? ? ? ? [= <- _].
  destruct (add_tool_keys (nm := lit "web_fetch") _ _ _ _ F5 W4 N5 S5) as [W5 K5].
  assert (K : map fst (_tools reg) = Main.enabled_names tools_cfg Main.catalogue).
  { rewrite K5, K4, K3, K2, K1. unfold Main.enabled_names, Main.catalogue.
    cbn [flat_map fst snd]. rewrite <- !app_assoc, app_nil_r. reflexivity. }
  split.
  - now rewrite well_keyed_names.
  - intros nm. rewrite <- K. unfold get_tool. rewrite <- get_entry_None.
    split; [now intros [= ->]|now intros ->].
Qed.

End BuildMore.

(** At work on a service that answers with an error. *)
Lemma anthropic_chat_raises_provider_errors_witness :
  Providers.anthropic_chat Sample2.getenv Sample2.claude_sdk Sample2.claude
    (lit "claude") [user_msg (lit "hi")] false []
  = (ChatRaise (Models.ProviderError (lit "Anthropic provider error: Overloaded")),
     [])
  /\ (exn_class (Models.ProviderError (lit "Anthropic provider error: Overloaded"))
      = lit "ProviderError"
      \/ is_exception
           (Models.ProviderError (lit "Anthropic provider error: Overloaded"))
         = false
      \/ exists api_key,
           Providers.new_anthropic Sample2.claude_sdk api_key
           = inl (Models.ProviderError
                    (lit "Anthropic provider error: Overloaded"))).
Proof.
  split; [reflexivity|].
  apply (@anthropic_chat_raises_provider_errors script Sample2.getenv
           Sample2.claude_sdk (lit "claude") Sample2.claude
           [user_msg (lit "hi")] false [] []).
  reflexivity.
Defined.

(** At work on a configuration that enables the shell and the fetch
    tool and disables the reading of files. *)
Lemma built_registry_lists_enabled_tools_witness :
  exists reg,
    Sample2.build Sample2.config [] = (inr reg, [])
    /\ map (@name Sample.script) (list_tools reg)
       = [lit "shell_command"; lit "web_fetch"]
    /\ get_tool reg (VStr (lit "shell")) = inr None.
Proof.
  destruct (Sample2.build Sample2.config []) as [[e|reg] w] eqn:B;
    [discriminate B|].
  assert (Hw : w = []) by (vm_compute in B; now injection B).
  subst w. exists reg. split; [reflexivity|].
  destruct (@built_registry_lists_enabled_tools Sample.script Sample2.abspath
              Sample2.makedirs Sample2.no_env (fun _ _ => Sample2.idle)
              (fun _ => Sample2.idle) (fun _ => Sample2.idle)
              (fun _ => Sample2.idle) Sample2.idle Sample2.config [] [] reg B)
    as [Names Unknown].
  split; [exact Names|].
  apply Unknown. vm_compute. intuition discriminate.
Defined.

(** ** The first reply that does not parse *)
Section Retry.

Context {World : Type} {lib : PyLib}.
Variable self : ToolAgent (World:=World).

(** X20: the first reply of an invocation that does not parse never ends
    it by itself.  The corrective user message is appended after the reply,
    the counter goes to one and a step of the budget is used; if that was the
    last step, what is returned is the budget-exhausted text, not the
    reply. *)
Theorem first_unparseable_reply_is_retried (st : state) (n : nat)
  (text : pystr) (w1 : World) :
  invalid_json_attempts st = 0 ->
  router self (provider_name self) (model_name self) (messages st) (world st)
  = (ChatResponse text, w1) ->
  json_loads (raw_for_json (strip text)) = inr None ->
  exists st',
    loop self (S n) st = loop self n st'
    /\ messages st'
       = messages st ++ [assistant_msg text; user_msg RETRY_MESSAGE]
    /\ invalid_json_attempts st' = 1
    /\ world st' = w1
    /\ (n = 0 -> result (loop self (S n) st) = Returned MAX_STEPS_MESSAGE).
Proof.
  intros H0 C P. apply decide_unparseable in P.
  pose proof (iteration_malformed self st C P) as E.
  rewrite H0 in E. simpl in E.
  eexists. split; [simpl loop; now rewrite E|].
  split; [simpl; now rewrite <- app_assoc|]. split; [reflexivity|].
  split; [reflexivity|]. intros ->. simpl loop. now rewrite E.
Qed.

End Retry.

(** At work with a budget of one step. *)
Lemma first_unparseable_reply_is_retried_witness :
  let st := initial_state (agent 1) task [lit "not json"] in
  exists st',
    loop (agent 1) 1 st = loop (agent 1) 0 st'
    /\ messages st'
       = messages st ++ [assistant_msg (lit "not json"); user_msg RETRY_MESSAGE]
    /\ invalid_json_attempts st' = 1
    /\ world st' = []
    /\ (0 = 0 -> result (loop (agent 1) 1 st) = Returned MAX_STEPS_MESSAGE).
Proof.
  apply (@first_unparseable_reply_is_retried script reference_lib (agent 1)
           (initial_state (agent 1) task [lit "not json"]) 0 (lit "not json") []);
    vm_compute; reflexivity.
Defined.

(** At work on the sample tools, [echo] registered twice: it is found under
    its name, and the name [shell] is unknown. *)
Lemma registered_tools_are_found_witness :
  get_tool (registered [echo; broken; echo]) (VStr (lit "echo"))
  = inr (Some echo)
  /\ get_tool (registered [echo; broken; echo]) (VStr (lit "shell")) = inr None.
Proof.
  destruct (registered_tools_are_found [echo; broken; echo]) as (_ & F & N).
  split.
  - apply (F echo). left. reflexivity.
  - apply N. vm_compute. intros [H|[H|[H|[]]]]; discriminate H.
Defined.

(** At work on a call of [echo] followed by an answer: two calls, five
    messages at the end, four in the second conversation sent. *)
Lemma conversation_length_tracks_calls_witness :
  let r := go 4 [q "{'tool': 'echo', 'tool_input': {}}";
                 q "{'tool': null, 'final_answer': 'done'}"] in
  List.length (messages (final r)) = 5
  /\ exists c, nth_error (backend_calls (final r)) 1 = Some c
               /\ List.length c = 4.
Proof.
  cbv zeta.
  destruct (@conversation_length_tracks_calls script reference_lib (agent 4)
              task [q "{'tool': 'echo', 'tool_input': {}}";
                    q "{'tool': null, 'final_answer': 'done'}"]) as [L N].
  fold (go 4 [q "{'tool': 'echo', 'tool_input': {}}";
              q "{'tool': null, 'final_answer': 'done'}"]) in L, N.
  split.
  - rewrite L. vm_compute. reflexivity.
  - destruct (nth_error _ 1) as [c|] eqn:E; [|vm_compute in E; discriminate E].
    exists c. split; [reflexivity|]. exact (N 1%nat c E).
Defined.

(** At work on an empty registry: a model registered for a provider that
    is not there does not resolve. *)
Lemma resolve_after_registration_witness :
  Models.resolve
    (Models.register_model (Models.empty_model_registry script)
       (lit "openai") (lit "gpt") Sample2.sonar)
    (lit "openai") (lit "gpt")
  = inl (Models.ProviderError (lit "Provider 'openai' not registered.")).
Proof.
  destruct (@resolve_after_registration script
              (Models.empty_model_registry script) Sample2.canned
              (lit "openai") (lit "gpt") Sample2.sonar) as (_ & _ & H & _).
  apply H. reflexivity.
Defined.

(** At work on the second conversation of the same run. *)
Lemma anthropic_request_alternates_witness :
  let r := go 4 [q "{'tool': 'echo', 'tool_input': {}}";
                 q "{'tool': null, 'final_answer': 'done'}"] in
  exists c body,
    nth_error (backend_calls (final r)) 1 = Some c
    /\ c = system_msg (system_prompt (agent 4)) :: body
    /\ Providers.convert c = (system_prompt (agent 4) ++ [LF], body)
    /\ alternates User body = true.
Proof.
  cbv zeta.
  pose proof (@anthropic_request_alternates script reference_lib (agent 4)
                task [q "{'tool': 'echo', 'tool_input': {}}";
                      q "{'tool': null, 'final_answer': 'done'}"]) as F.
  fold (go 4 [q "{'tool': 'echo', 'tool_input': {}}";
              q "{'tool': null, 'final_answer': 'done'}"]) in F.
  destruct (nth_error _ 1) as [c|] eqn:E; [|vm_compute in E; discriminate E].
  destruct (proj1 (Forall_forall _ _) F c (nth_error_In _ _ E))
    as (body & Ec & Hc & Ha & _).
  exists c, body. repeat split; assumption.
Defined.
